(** * Firsttry type-check remediation scripts: a shallow embedding

    The development embeds the four scripts of the repository

      - [atlassian/forge-app/scripts/anchor_fix.py]
      - [atlassian/forge-app/scripts/remove_ts_expect.py]
      - [atlassian/forge-app/scripts/mech_fix.py]
      - [scripts/fix_tsx.py]

    and states the properties of the specification over that embedding.

    Modelling conventions.
      - A Python [str] is a [string]; a character is a code point below
        256 (Rocq's [ascii]).
      - The text of a file is the text [read_text] returns for it:
        decoded, line ends translated to LF.  [write_text] stores the
        text it is given.
      - A Python [int] is a [Z].
      - A [pathlib] path is the list of its components below the file
        system root; the file system is a finite map from such paths to
        the text of the regular file stored there.  Two lexically
        different paths are different files ([..] and links are not
        resolved), and only regular files exist.
      - The artifacts written below the output directory are a second
        finite map, from artifact name to text.
      - External processes (git, the type checker) are functions of the
        source tree supplied by the environment.
      - Console output ([print]) is not modelled. *)

From Stdlib Require Import ZArith Ascii String Sorted.
From stdpp Require Import base numbers list strings gmap sorting.

Local Open Scope Z_scope.

(** ** Python primitives used by the scripts *)

Module Py.

Definition LF : ascii := "010"%char.
Definition CR : ascii := "013"%char.
Definition DQ : ascii := "034"%char.
Definition BSLASH : ascii := "092"%char.

Definition chr (c : ascii) : string := String c EmptyString.

(** [str.splitlines] line boundaries, for code points below 256:
    LF, CR, VT, FF, FS, GS, RS and NEL; CR LF counts as one. *)
Definition is_linebreak (c : ascii) : bool :=
  match c with
  | "010" | "011" | "012" | "013" | "028" | "029" | "030" | "133" => true
  | _ => false
  end%char.

(** [s.splitlines(True)] *)
Fixpoint splitlines_keepends (s : string) : list string :=
  match s with
  | EmptyString => []
  | String c s' =>
      if is_linebreak c then
        match s' with
        | String c' s'' =>
            if Ascii.eqb c CR && Ascii.eqb c' LF
            then String c (String c' EmptyString) :: splitlines_keepends s''
            else chr c :: splitlines_keepends s'
        | EmptyString => [chr c]
        end
      else
        match splitlines_keepends s' with
        | [] => [chr c]
        | l :: ls => String c l :: ls
        end
  end.

(** [s.splitlines()] *)
Fixpoint splitlines (s : string) : list string :=
  match s with
  | EmptyString => []
  | String c s' =>
      if is_linebreak c then
        match s' with
        | String c' s'' =>
            if Ascii.eqb c CR && Ascii.eqb c' LF
            then EmptyString :: splitlines s''
            else EmptyString :: splitlines s'
        | EmptyString => [EmptyString]
        end
      else
        match splitlines s' with
        | [] => [chr c]
        | l :: ls => String c l :: ls
        end
  end.

(** [sep.join(ls)] *)
Definition join (sep : string) (ls : list string) : string :=
  String.concat sep ls.

(** [s.startswith(p)] *)
Definition startswith (s p : string) : bool := String.prefix p s.

(** [s.endswith(p)]: some tail of [s] is [p]. *)
Fixpoint endswith (s p : string) : bool :=
  String.eqb s p ||
  match s with
  | EmptyString => false
  | String _ s' => endswith s' p
  end.

(** [sub in s] *)
Fixpoint contains (sub s : string) : bool :=
  String.prefix sub s ||
  match s with
  | EmptyString => false
  | String _ s' => contains sub s'
  end.

(** [s[:n]] for [n >= 0] *)
Fixpoint take (n : nat) (s : string) : string :=
  match n, s with
  | S k, String c s' => String c (take k s')
  | _, _ => EmptyString
  end.

(** [s[:-n]] for [0 < n]: all but the last [n] characters. *)
Definition drop_last (n : nat) (s : string) : string :=
  take (String.length s - n)%nat s.

(** [s.replace(old, new)]: occurrences of [old] are found left to
    right and do not overlap.  [skip] counts the characters of the
    occurrence being replaced that are still to be passed over. *)
Fixpoint replace_from (old new : string) (skip : nat) (s : string) : string :=
  match s with
  | EmptyString => EmptyString
  | String c s' =>
      match skip with
      | S k => replace_from old new k s'
      | O =>
          if String.prefix old s
          then new +:+ replace_from old new (String.length old - 1)%nat s'
          else String c (replace_from old new O s')
      end
  end.

Fixpoint intersperse_str (new s : string) : string :=
  match s with
  | EmptyString => EmptyString
  | String c s' => String c (new +:+ intersperse_str new s')
  end.

Definition replace (s old new : string) : string :=
  match old with
  | EmptyString => new +:+ intersperse_str new s
  | _ => replace_from old new O s
  end.

(** [int(s)] on a non-empty run of decimal digits. *)
Definition digit_val (c : ascii) : Z := Z.of_nat (nat_of_ascii c) - 48.

Fixpoint int_from (acc : Z) (s : string) : Z :=
  match s with
  | EmptyString => acc
  | String c s' => int_from (10 * acc + digit_val c) s'
  end.

Definition int (s : string) : Z := int_from 0 s.

(** [str(n)] for an [int] that is not negative. *)
Definition digit_chr (d : Z) : ascii := ascii_of_nat (Z.to_nat (48 + d)).

Fixpoint str_nat_fuel (fuel : nat) (n : Z) (acc : string) : string :=
  match fuel with
  | O => acc
  | S f =>
      let acc' := String (digit_chr (n mod 10)) acc in
      if n <? 10 then acc' else str_nat_fuel f (n / 10) acc'
  end.

Definition str_int (n : Z) : string :=
  str_nat_fuel (S (Z.to_nat (Z.log2 n))) n EmptyString.

(** [ls.pop(i)] (the list that remains) and [ls.insert(i, x)], for an
    index within range. *)
Definition pop {A} (i : nat) (ls : list A) : list A := delete i ls.

Definition insert_at {A} (i : nat) (x : A) (ls : list A) : list A :=
  firstn i ls ++ x :: skipn i ls.

End Py.


(** ** Regular expressions

    A backtracking matcher for the fragment of Python's [re] the scripts
    use: literals, character classes, greedy (bounded) repetition of a
    class, sequence, ordered alternation, [^], [\b] and capturing
    groups.  Alternatives are tried left to right and a repetition tries
    the longest run first, as [re] does. *)

Module Re.

Inductive regex : Type :=
| Lit (s : string)
| Cls (p : ascii -> bool)
| Rep (p : ascii -> bool) (lo : nat) (hi : option nat)
| Seq (r1 r2 : regex)
| Alt (r1 r2 : regex)
| Bol (multiline : bool)
| WordB
| Group (n : nat) (r : regex).

(** A position in the subject: offset, the character before it and
    the text that follows. *)
Record cursor := Cursor { pos : nat; prev : option ascii; rest : string }.

Definition captures := list (nat * (nat * nat)).

Definition code (c : ascii) : nat := nat_of_ascii c.

Definition between (lo hi : nat) (c : ascii) : bool :=
  ((lo <=? code c) && (code c <=? hi))%nat.

(** [\d], [\s], [\w] and [.] on code points below 256. *)
Definition digit (c : ascii) : bool := between 48 57 c.

Definition space (c : ascii) : bool :=
  between 9 13 c || between 28 32 c || (code c =? 133)%nat || (code c =? 160)%nat.

Definition word (c : ascii) : bool :=
  between 48 57 c || between 65 90 c || (code c =? 95)%nat || between 97 122 c
  || (code c =? 170)%nat || between 178 179 c || (code c =? 181)%nat
  || between 185 186 c || between 188 190 c || between 192 214 c
  || between 216 246 c || between 248 255 c.

Definition dot (c : ascii) : bool := negb (Ascii.eqb c Py.LF).

Definition none_of (s : string) (c : ascii) : bool :=
  negb (Py.contains (Py.chr c) s).

Definition is_word (o : option ascii) : bool :=
  match o with Some c => word c | None => false end.

Definition next (s : string) : option ascii :=
  match s with String c _ => Some c | EmptyString => None end.

Fixpoint lit (s : string) (cur : cursor) : option cursor :=
  match s with
  | EmptyString => Some cur
  | String c s' =>
      match rest cur with
      | String d r =>
          if Ascii.eqb c d then lit s' (Cursor (S (pos cur)) (Some d) r) else None
      | EmptyString => None
      end
  end.

Definition hi_open (hi : option nat) : bool :=
  match hi with Some O => false | _ => true end.

Definition hi_pred (hi : option nat) : option nat :=
  match hi with Some n => Some (Nat.pred n) | None => None end.

Fixpoint rep {A} (p : ascii -> bool) (lo : nat) (hi : option nat)
    (ps : nat) (pv : option ascii) (rs : string)
    (k : cursor -> option A) {struct rs} : option A :=
  let stop := match lo with O => k (Cursor ps pv rs) | S _ => None end in
  match rs with
  | String c r =>
      if p c && hi_open hi then
        match rep p (Nat.pred lo) (hi_pred hi) (S ps) (Some c) r k with
        | Some x => Some x
        | None => stop
        end
      else stop
  | EmptyString => stop
  end.

Fixpoint exec {A} (r : regex) (cur : cursor) (caps : captures)
    (k : cursor -> captures -> option A) : option A :=
  match r with
  | Lit s =>
      match lit s cur with Some cur' => k cur' caps | None => None end
  | Cls p =>
      match rest cur with
      | String c r' =>
          if p c then k (Cursor (S (pos cur)) (Some c) r') caps else None
      | EmptyString => None
      end
  | Rep p lo hi =>
      rep p lo hi (pos cur) (prev cur) (rest cur) (fun cur' => k cur' caps)
  | Seq r1 r2 =>
      exec r1 cur caps (fun cur' caps' => exec r2 cur' caps' k)
  | Alt r1 r2 =>
      match exec r1 cur caps k with
      | Some x => Some x
      | None => exec r2 cur caps k
      end
  | Bol multiline =>
      match prev cur with
      | None => k cur caps
      | Some c => if multiline && Ascii.eqb c Py.LF then k cur caps else None
      end
  | WordB =>
      if xorb (is_word (prev cur)) (is_word (next (rest cur)))
      then k cur caps else None
  | Group n r' =>
      exec r' cur caps
        (fun cur' caps' => k cur' ((n, (pos cur, pos cur')) :: caps'))
  end.

(** A match: where it starts, the cursor where it ends, its groups. *)
Record rmatch := RMatch { m_start : nat; m_end : cursor; m_caps : captures }.

Definition match_at (r : regex) (cur : cursor) : option rmatch :=
  exec r cur [] (fun cur' caps => Some (RMatch (pos cur) cur' caps)).

(** The leftmost match at or after the cursor. *)
Fixpoint search_from (r : regex) (ps : nat) (pv : option ascii) (rs : string)
    : option rmatch :=
  match match_at r (Cursor ps pv rs) with
  | Some m => Some m
  | None =>
      match rs with
      | String c rs' => search_from r (S ps) (Some c) rs'
      | EmptyString => None
      end
  end.

(** [re.search(r, s)] *)
Definition search (r : regex) (s : string) : option rmatch :=
  search_from r O None s.

Definition matches (r : regex) (s : string) : bool :=
  match search r s with Some _ => true | None => false end.

(** [m.group(0)] and [m.group(n)] for a group that took part. *)
Definition group0 (s : string) (m : rmatch) : string :=
  String.substring (m_start m) (pos (m_end m) - m_start m)%nat s.

Fixpoint lookup_cap (n : nat) (caps : captures) : option (nat * nat) :=
  match caps with
  | [] => None
  | (i, se) :: caps' => if (i =? n)%nat then Some se else lookup_cap n caps'
  end.

Definition group (s : string) (m : rmatch) (n : nat) : string :=
  match lookup_cap n (m_caps m) with
  | Some (b, e) => String.substring b (e - b)%nat s
  | None => EmptyString
  end.

(** [re.finditer(r, s)]: successive matches, each search starting
    where the previous match ended (one character further after an
    empty match; the patterns used here never match the empty
    string).  The fuel bounds the number of matches by the length of
    the subject. *)
Fixpoint finditer_from (fuel : nat) (r : regex) (cur : cursor) : list rmatch :=
  match fuel with
  | O => []
  | S fuel' =>
      match search_from r (pos cur) (prev cur) (rest cur) with
      | None => []
      | Some m =>
          let e := m_end m in
          if (m_start m <? pos e)%nat
          then m :: finditer_from fuel' r e
          else match rest e with
               | String c rs => m :: finditer_from fuel' r (Cursor (S (pos e)) (Some c) rs)
               | EmptyString => [m]
               end
      end
  end.

Definition finditer (r : regex) (s : string) : list rmatch :=
  finditer_from (S (String.length s)) r (Cursor O None s).

Definition alts (l : list regex) : regex :=
  match l with
  | [] => Lit EmptyString
  | r :: rs => fold_left Alt rs r
  end.

Definition seqs (l : list regex) : regex :=
  match l with
  | [] => Lit EmptyString
  | r :: rs => fold_left Seq rs r
  end.

End Re.

(** ** [pathlib] paths and the file system *)

Module Pathlib.

(** An absolute path: its components below [/]. *)
Definition Path := list string.

(** The components of a path string: split on [/], dropping empty
    and [.] components ([..] is kept). *)
Fixpoint split_slash (cur : string -> string) (s : string) : list string :=
  match s with
  | EmptyString => [cur EmptyString]
  | String c s' =>
      if Ascii.eqb c "/"%char
      then cur EmptyString :: split_slash (fun x => x) s'
      else split_slash (fun x => cur (String c x)) s'
  end.

Definition keep_part (c : string) : bool :=
  negb (String.eqb c EmptyString) && negb (String.eqb c ".").

Definition parts (s : string) : list string :=
  List.filter keep_part (split_slash (fun x => x) s).

(** [p / s] *)
Definition joinpath (p : Path) (s : string) : Path :=
  if Py.startswith s "/" then parts s else p ++ parts s.

(** [p.name] *)
Definition name (p : Path) : string := List.last p EmptyString.

(** [p.parent] *)
Definition parent (p : Path) : Path := List.removelast p.

(** [s.rfind('.')] *)
Fixpoint rfind_dot (s : string) : option nat :=
  match s with
  | EmptyString => None
  | String c s' =>
      match rfind_dot s' with
      | Some i => Some (S i)
      | None => if Ascii.eqb c "."%char then Some O else None
      end
  end.

(** [p.suffix], computed on the name *)
Definition suffix_of (nm : string) : string :=
  match rfind_dot nm with
  | Some i =>
      if ((0 <? i) && (i <? String.length nm - 1))%nat
      then String.substring i (String.length nm - i)%nat nm
      else EmptyString
  | None => EmptyString
  end.

(** [p.with_suffix(suf)]; [None] is [ValueError] (empty name). *)
Definition with_suffix (p : Path) (suf : string) : option Path :=
  let nm := name p in
  if String.eqb nm EmptyString then None
  else
    let stem := Py.drop_last (String.length (suffix_of nm)) nm in
    Some (parent p ++ [stem +:+ suf]).

(** [p.relative_to(base)]; [None] is [ValueError]. *)
Fixpoint relative_to (p base : Path) : option (list string) :=
  match base, p with
  | [], _ => Some p
  | b :: base', c :: p' => if String.eqb b c then relative_to p' base' else None
  | _ :: _, [] => None
  end.

(** [str(p)] for a relative and for an absolute path. *)
Definition str_rel (p : list string) : string :=
  match p with
  | [] => "."
  | _ => Py.join "/" p
  end.

Definition str_abs (p : Path) : string := "/" +:+ Py.join "/" p.

End Pathlib.

Abbreviation Path := Pathlib.Path.
Abbreviation FS := (gmap (list string) string).

(** [p.exists()] *)
Definition exists_ (fs : FS) (p : Path) : bool :=
  match fs !! p with Some _ => true | None => false end.


(** ** The world the scripts run in *)

Record World := mkWorld {
  fs : FS;                     (* the working tree *)
  out : gmap string string     (* the artifacts below the output directory *)
}.

(** External collaborators: version control and the type checker, as
    functions of the working tree. *)
Record Env := mkEnv {
  git_status : FS -> string;
  git_diff : FS -> string;
  type_check : FS -> string
}.

(** How a script ends, or the value a step returns. *)
Inductive Result (A : Type) : Type :=
| Ok (a : A) (w : World)
| Exited (code : Z) (w : World)        (* [sys.exit(code)] *)
| Raised (w : World).                  (* uncaught exception *)
Arguments Ok {A} a w.
Arguments Exited {A} code w.
Arguments Raised {A} w.

Definition M (A : Type) : Type := World -> Result A.

#[global] Instance M_ret : MRet M := fun A a w => Ok a w.
#[global] Instance M_bind : MBind M := fun A B f m w =>
  match m w with
  | Ok a w' => f a w'
  | Exited c w' => Exited c w'
  | Raised w' => Raised w'
  end.

Definition sys_exit {A} (code : Z) : M A := fun w => Exited code w.
Definition raise {A} : M A := fun w => Raised w.
Definition get_fs : M FS := fun w => Ok (fs w) w.
Definition put_fs (f : FS) : M unit := fun w => Ok tt (mkWorld f (out w)).
Definition write_out (name text : string) : M unit :=
  fun w => Ok tt (mkWorld (fs w) (<[name := text]> (out w))).
Definition append_out (name text : string) : M unit :=
  fun w => Ok tt (mkWorld (fs w) (<[name := default EmptyString (out w !! name) +:+ text]> (out w))).
Definition read_out (name : string) : M string :=
  fun w => match out w !! name with Some t => Ok t w | None => Raised w end.

Definition NL : string := Py.chr Py.LF.
Definition DQ : string := Py.chr Py.DQ.

(** The diagnostic shape shared by the scripts:
    [^(src/[^:(]+\.(?:ts|tsx))\((\d+),(\d+)\): error ] *)
Definition diag_head : Re.regex :=
  Re.seqs [ Re.Bol false;
            Re.Group 1 (Re.seqs [ Re.Lit "src/"; Re.Rep (Re.none_of ":(") 1 None;
                                  Re.Lit "."; Re.Alt (Re.Lit "ts") (Re.Lit "tsx") ]);
            Re.Lit "("; Re.Group 2 (Re.Rep Re.digit 1 None);
            Re.Lit ","; Re.Group 3 (Re.Rep Re.digit 1 None);
            Re.Lit "): error " ].

(** [^(src/...)\((\d+),(\d+)\): error TS2578] *)
Definition pattern_2578 : Re.regex := Re.Seq diag_head (Re.Lit "TS2578").

(** The hits of [pattern_2578] among the lines, as [(file, line)]. *)
Definition parse_2578 (ln : string) : option (string * Z) :=
  match Re.search pattern_2578 ln with
  | Some m => Some (Re.group ln m 1, Py.int (Re.group ln m 2))
  | None => None
  end.

Definition directive : string := "@ts-expect-error".

(** The body of both removal loops on the lines of one file: is the
    1-based line [lineno] within range and does it carry the directive? *)
Definition removable (lines : list string) (lineno : Z) : bool :=
  let idx := lineno - 1 in
  (0 <=? idx) && (idx <? Z.of_nat (length lines))
  && Py.contains directive (nth (Z.to_nat idx) lines EmptyString).

(** ** [anchor_fix.py] *)

Module AnchorFix.

Definition root : Path := ["workspaces"; "Firsttry"; "atlassian"; "forge-app"].

Definition shim : Path := Pathlib.joinpath root "src/types/forge-shims.d.ts".

(** [declare global|interface Window|\bdocument\b|\bwindow\b|namespace JSX|HTMLElement|React\.] *)
Definition forbidden_alt : Re.regex :=
  Re.alts [ Re.Lit "declare global"; Re.Lit "interface Window";
            Re.seqs [Re.WordB; Re.Lit "document"; Re.WordB];
            Re.seqs [Re.WordB; Re.Lit "window"; Re.WordB];
            Re.Lit "namespace JSX"; Re.Lit "HTMLElement"; Re.Lit "React." ].

(** [.{0,60}(...).{0,60}] *)
Definition excerpt_re : Re.regex :=
  Re.seqs [ Re.Rep Re.dot 0 (Some 60%nat); Re.Group 1 forbidden_alt;
            Re.Rep Re.dot 0 (Some 60%nat) ].

(** [^\s*declare module ] with [re.M] *)
Definition decl_re : Re.regex :=
  Re.seqs [ Re.Bol true; Re.Rep Re.space 0 None; Re.Lit "declare module " ].

(** [error TS|Cannot find module|TS2578|TS2307|TS2362|TS2552|TS6133] *)
Definition anchor_re : Re.regex :=
  Re.alts [ Re.Lit "error TS"; Re.Lit "Cannot find module"; Re.Lit "TS2578";
            Re.Lit "TS2307"; Re.Lit "TS2362"; Re.Lit "TS2552"; Re.Lit "TS6133" ].

(** [^(src/...)\((\d+),(\d+)\): error TS2307: Cannot find module '([^']+)'] *)
Definition pattern_2307 : Re.regex :=
  Re.seqs [ diag_head; Re.Lit "TS2307: Cannot find module '";
            Re.Group 4 (Re.Rep (Re.none_of "'") 1 None); Re.Lit "'" ].

Definition parse_2307 (ln : string) : option (string * string) :=
  match Re.search pattern_2307 ln with
  | Some m => Some (Re.group ln m 1, Re.group ln m 4)
  | None => None
  end.

(** Stage 1: the declaration files below [src], in the order the file
    system lists them (here the order of the map), each path relative
    to the root. *)
Definition is_dts (p : Path) : bool :=
  match Pathlib.relative_to p (root ++ ["src"]) with
  | Some (_ :: _) => Py.endswith (Pathlib.name p) ".d.ts"
  | _ => false
  end.

Definition glob_dts (src : FS) : list Path :=
  List.filter is_dts (map fst (map_to_list src)).

Definition dts_line (p : Path) : string :=
  match Pathlib.relative_to p root with
  | Some rel => Pathlib.str_rel rel +:+ NL
  | None => Pathlib.str_abs p +:+ NL
  end.

Definition dts_listing (src : FS) : string :=
  Py.join EmptyString (map dts_line (glob_dts src)).

(** The shim guard (lines 29-45). *)
Definition forbidden_report (s : string) : string :=
  "ERROR: forbidden content in " +:+ Pathlib.str_abs shim +:+ NL
  +:+ Py.join EmptyString
        (map (fun m => Re.group0 s m +:+ NL) (Re.finditer excerpt_re s)).

Definition nodecl_report (s : string) : string :=
  "ERROR: shim does not contain module declarations" +:+ NL +:+ Py.take 200 s.

Definition shim_guard : M unit :=
  src ← get_fs;
  match src !! shim with
  | Some s =>
      if Re.matches forbidden_alt s then
        append_out "01_dts_audit.txt" (forbidden_report s);;
        sys_exit 2
      else if negb (Re.matches decl_re s) then
        append_out "01_dts_audit.txt" (nodecl_report s);;
        sys_exit 3
      else mret tt
  | None => mret tt
  end.

(** Stage 3: the anchor lines of a checker output. *)
Definition anchor_lines (text : string) : list string :=
  List.filter (Re.matches anchor_re) (Py.splitlines text).

(** Stage 4A (lines 57-76). *)
Definition hits_2578 (lines : list string) : list (string * Z) :=
  firstn 20 (omap parse_2578 lines).

(** Lines 70-74 on the text of one file: the text written back when
    line [lineno] is removed, [None] when the guard of line 72 fails. *)
Definition remove_line (text : string) (lineno : Z) : option string :=
  let lines := Py.splitlines_keepends text in
  if removable lines lineno
  then Some (Py.join EmptyString (Py.pop (Z.to_nat (lineno - 1)) lines))
  else None.

Definition step_4a (st : FS * list (string * Z)) (hit : string * Z)
    : FS * list (string * Z) :=
  let p := Pathlib.joinpath root (fst hit) in
  match fst st !! p with
  | None => st
  | Some text =>
      match remove_line text (snd hit) with
      | Some text' => (<[p := text']> (fst st), snd st ++ [hit])
      | None => st
      end
  end.

Definition loop_4a (hits : list (string * Z)) (src : FS) : FS * list (string * Z) :=
  fold_left step_4a hits (src, []).

(** What the loop does to the text of one file, given the line
    numbers of the hits that name the file, in their order. *)
Definition fix_text (lines : list Z) (text : string) : string :=
  fold_left (fun t l => default t (remove_line t l)) lines text.

Definition lines_for (p : Path) (hits : list (string * Z)) : list Z :=
  map snd (List.filter (fun h => bool_decide (Pathlib.joinpath root (fst h) = p)) hits).

Definition removed_line (r : string * Z) : string :=
  "REMOVED " +:+ fst r +:+ " line " +:+ Py.str_int (snd r).

Definition stage_4a (lines : list string) : M unit :=
  src ← get_fs;
  let '(src', removed) := loop_4a (hits_2578 lines) src in
  put_fs src';;
  write_out "04a_ts2578.txt" (Py.join NL (map removed_line removed)).

(** Stage 4B (lines 78-125). *)
Definition hits_2307 (lines : list string) : list (string * string) :=
  omap parse_2307 lines.

(** The probe list of line 98; [None] when [with_suffix] raises. *)
Definition options (cand : Path) : option (list Path) :=
  o1 ← Pathlib.with_suffix cand ".ts";
  o2 ← Pathlib.with_suffix cand ".tsx";
  Some [o1; o2; Pathlib.joinpath cand "index.ts"; Pathlib.joinpath cand "index.tsx"].

(** Lines 99-103: the first candidate that exists. *)
Definition first_existing (src : FS) (opts : list Path) : option Path :=
  List.find (exists_ src) opts.

Definition strip_ext (s ext : string) : string :=
  if Py.endswith s ext then Py.drop_last (String.length ext) s else s.

(** Lines 106-112, on [str(rel)]. *)
Definition new_specifier (rel : string) : string :=
  let rel_no_ext := Py.replace rel (Py.chr Py.BSLASH) "/" in
  let rel_no_ext := fold_left strip_ext [".ts"; ".tsx"] rel_no_ext in
  let rel_no_ext :=
    if Py.endswith rel_no_ext "/index"
    then Py.drop_last (String.length "/index") rel_no_ext else rel_no_ext in
  if negb (Py.startswith rel_no_ext ".") then "./" +:+ rel_no_ext else rel_no_ext.

Definition quoted (q s : string) : string := q +:+ s +:+ q.

(** Line 114. *)
Definition rewrite_text (ptext mod_ new_mod : string) : string :=
  Py.replace
    (Py.replace ptext (quoted "'" mod_) (quoted "'" new_mod))
    (quoted DQ mod_) (quoted DQ new_mod).

(** Lines 96-103: the candidate the resolver settles on, if any;
    the outer [None] is an exception of [with_suffix]. *)
Definition resolve (src : FS) (base : Path) (mod_ : string) : option (option Path) :=
  opts ← options (Pathlib.joinpath base mod_);
  Some (first_existing src opts).

Inductive attempt : Type :=
| Rewritten (src' : FS) (new_mod : string)   (* file written, logged as fixed *)
| Same                                       (* target found, text unchanged *)
| TargetMissing
| Failed.                                    (* an exception escapes *)

(** Lines 95-119 for one relative specifier. *)
Definition attempt_rewrite (src : FS) (file mod_ : string) : attempt :=
  let src_path := Pathlib.joinpath root file in
  let base := Pathlib.parent src_path in
  match resolve src base mod_ with
  | None => Failed
  | Some (Some e) =>
      match Pathlib.relative_to e base with
      | None => Failed
      | Some rel =>
          let new_mod := new_specifier (Pathlib.str_rel rel) in
          match src !! src_path with
          | None => Failed
          | Some ptext =>
              let ptext2 := rewrite_text ptext mod_ new_mod in
              if String.eqb ptext2 ptext then Same
              else Rewritten (<[src_path := ptext2]> src) new_mod
          end
      end
  | Some None => TargetMissing
  end.

Record state_4b := mkState4b {
  b_fs : FS;
  b_fixed : list (string * string * string);
  b_skipped : list (string * string * string)
}.

(** The loop of lines 88-119; the flag is [false] when an exception
    ended it. *)
Fixpoint loop_4b (hits : list (string * string)) (count : Z) (st : state_4b)
    : bool * state_4b :=
  match hits with
  | [] => (true, st)
  | (file, mod_) :: hits' =>
      if negb (Py.startswith mod_ ".") then
        loop_4b hits' count
          (mkState4b (b_fs st) (b_fixed st)
             (b_skipped st ++ [(file, mod_, "non-relative")]))
      else
        let count := count + 1 in
        if 15 <? count then (true, st)
        else
          match attempt_rewrite (b_fs st) file mod_ with
          | Rewritten src' new_mod =>
              loop_4b hits' count
                (mkState4b src' (b_fixed st ++ [(file, mod_, new_mod)]) (b_skipped st))
          | Same => loop_4b hits' count st
          | TargetMissing =>
              loop_4b hits' count
                (mkState4b (b_fs st) (b_fixed st)
                   (b_skipped st ++ [(file, mod_, "target-missing")]))
          | Failed => (false, st)
          end
  end.

Definition fixed_line (t : string * string * string) : string :=
  let '(f, old, new) := t in
  "FIXED import: " +:+ f +:+ " " +:+ old +:+ " -> " +:+ new +:+ NL.

Definition skip_line (t : string * string * string) : string :=
  let '(f, spec, reason) := t in
  "SKIP: " +:+ f +:+ " " +:+ spec +:+ " (" +:+ reason +:+ ")" +:+ NL.

Definition report_4b (st : state_4b) : string :=
  Py.join EmptyString (map fixed_line (b_fixed st))
  +:+ Py.join EmptyString (map skip_line (firstn 50 (b_skipped st))).

Definition stage_4b (lines : list string) : M unit :=
  src ← get_fs;
  let '(ok, st) := loop_4b (hits_2307 lines) 0 (mkState4b src [] []) in
  put_fs (b_fs st);;
  if ok then write_out "04b_ts2307.txt" (report_4b st) else raise.

(** Stages 2 to 5 (lines 47-133). *)
Definition after_guard (env : Env) : M unit :=
  src ← get_fs;
  write_out "typecheck_before.txt" (type_check env src);;
  text ← read_out "typecheck_before.txt";
  let lines := anchor_lines text in
  write_out "03_anchors_before.txt" (Py.join NL (firstn 200 lines));;
  stage_4a lines;;
  stage_4b lines;;
  src2 ← get_fs;
  write_out "typecheck_after.txt" (type_check env src2);;
  text2 ← read_out "typecheck_after.txt";
  write_out "06_remaining.txt" (Py.join NL (firstn 220 (anchor_lines text2))).

(** The script; [argv] includes the program name. *)
Definition main (env : Env) (argv : list string) : M unit :=
  if (length argv <? 2)%nat then sys_exit 1
  else
    src ← get_fs;
    write_out "00_status.txt" (git_status env src +:+ NL +:+ git_diff env src);;
    write_out "01_dts_audit.txt" (dts_listing src);;
    shim_guard;;
    after_guard env.

End AnchorFix.


(** ** [remove_ts_expect.py] *)

Module RemoveTsExpect.

Definition root : Path := ["workspaces"; "Firsttry"; "atlassian"; "forge-app"].

(** Lines 14-19. *)
Definition hits (lines : list string) : list (string * Z) :=
  firstn 200 (omap parse_2578 lines).

(** Lines 20-22: [byfile] is a dictionary of lists; its items come in
    the order in which the keys were first inserted. *)
Fixpoint byfile_add (f : string) (l : Z) (byfile : list (string * list Z))
    : list (string * list Z) :=
  match byfile with
  | [] => [(f, [l])]
  | (g, ls) :: byfile' =>
      if String.eqb f g then (g, ls ++ [l]) :: byfile'
      else (g, ls) :: byfile_add f l byfile'
  end.

Definition group_byfile (hs : list (string * Z)) : list (string * list Z) :=
  fold_left (fun acc h => byfile_add (fst h) (snd h) acc) hs [].

(** [sorted(set(lines), reverse=True)] *)
Fixpoint insert_desc (x : Z) (l : list Z) : list Z :=
  match l with
  | [] => [x]
  | y :: l' =>
      if y <? x then x :: l
      else if y =? x then l
      else y :: insert_desc x l'
  end.

Definition sorted_set_desc (lines : list Z) : list Z :=
  fold_right insert_desc [] lines.

(** Lines 31-36 on the lines [txt] held in memory. *)
Definition pop_step (st : list string * list Z) (ln : Z) : list string * list Z :=
  let '(txt, popped) := st in
  if removable txt ln
  then (Py.pop (Z.to_nat (ln - 1)) txt, popped ++ [ln])
  else st.

Definition pop_loop (lines_sorted : list Z) (txt : list string)
    : list string * list Z :=
  fold_left pop_step lines_sorted (txt, []).

(** Lines 28-38 on the text of one file: the new text and the lines
    removed ([changed] is that some line was). *)
Definition fix_text (lines : list Z) (text : string) : string * list Z :=
  let '(txt, popped) := pop_loop (sorted_set_desc lines) (Py.splitlines_keepends text) in
  match popped with
  | [] => (text, [])
  | _ => (Py.join EmptyString txt, popped)
  end.

(** Lines 24-38. *)
Definition file_step (st : FS * list (string * Z)) (entry : string * list Z)
    : FS * list (string * Z) :=
  let '(src, removed) := st in
  let '(f, lines) := entry in
  let p := Pathlib.joinpath root f in
  match src !! p with
  | None => st
  | Some text =>
      let '(text', popped) := fix_text lines text in
      match popped with
      | [] => st
      | _ => (<[p := text']> src, removed ++ map (pair f) popped)
      end
  end.

Definition file_loop (byfile : list (string * list Z)) (src : FS)
    : FS * list (string * Z) :=
  fold_left file_step byfile (src, []).

(** The script; it returns the list [removed] that it prints. *)
Definition main (argv : list string) : M (list (string * Z)) :=
  if (length argv <? 2)%nat then sys_exit 1
  else
    text ← read_out "typecheck_after.txt";
    src ← get_fs;
    let '(src', removed) :=
      file_loop (group_byfile (hits (Py.splitlines text))) src in
    put_fs src';;
    mret removed.

End RemoveTsExpect.

(** ** [mech_fix.py]: the import fixes of lines 42-62 *)

Module MechFix.

(** Lines 48-51: the index of the last of the first 80 lines that
    starts with [import ], or -1. *)
Fixpoint scan_imports (i : Z) (last_imp : Z) (lines : list string) : Z :=
  match lines with
  | [] => last_imp
  | l :: lines' =>
      scan_imports (i + 1) (if Py.startswith l "import " then i else last_imp) lines'
  end.

Definition last_import (lines : list string) : Z :=
  scan_imports 0 (-1) (firstn 80 lines).

(** Lines 44-56. *)
Definition ensure_import (txt imp_line : string) : string :=
  if Py.contains imp_line txt then txt
  else
    let lines := Py.splitlines_keepends txt in
    let last_imp := last_import lines in
    if 0 <=? last_imp
    then Py.join EmptyString (Py.insert_at (Z.to_nat (last_imp + 1)) (imp_line +:+ NL) lines)
    else Py.join EmptyString (Py.insert_at 0 (imp_line +:+ NL) lines).

Definition quote_cls (c : ascii) : bool :=
  Ascii.eqb c "'"%char || Ascii.eqb c Py.DQ.

(** [from\s+['\"]react['\"]] *)
Definition react_re : Re.regex :=
  Re.seqs [ Re.Lit "from"; Re.Rep Re.space 1 None; Re.Cls quote_cls;
            Re.Lit "react"; Re.Cls quote_cls ].

(** [import\s+\{[^}]*\bview\b[^}]*\}\s+from\s+['\"]@forge/ui['\"]] *)
Definition view_re : Re.regex :=
  Re.seqs [ Re.Lit "import"; Re.Rep Re.space 1 None; Re.Lit "{";
            Re.Rep (Re.none_of "}") 0 None; Re.WordB; Re.Lit "view"; Re.WordB;
            Re.Rep (Re.none_of "}") 0 None; Re.Lit "}"; Re.Rep Re.space 1 None;
            Re.Lit "from"; Re.Rep Re.space 1 None; Re.Cls quote_cls;
            Re.Lit "@forge/ui"; Re.Cls quote_cls ].

Definition react_import : string := "import React from " +:+ DQ +:+ "react" +:+ DQ +:+ ";".
Definition view_import : string := "import { view } from " +:+ DQ +:+ "@forge/ui" +:+ DQ +:+ ";".

(** Lines 57-61, for a file with suffix [suffix] whose path prints as
    [path_str]. *)
Definition fix_imports (suffix path_str txt : string) : string :=
  let txt :=
    if String.eqb suffix ".tsx" && negb (Re.matches react_re txt)
    then ensure_import txt react_import else txt in
  let uses_view :=
    Py.contains "view(" txt
    || (Py.contains "<" txt && String.eqb suffix ".tsx" && Py.contains "src/admin" path_str) in
  if uses_view && negb (Re.matches view_re txt)
  then ensure_import txt view_import else txt.

End MechFix.

(** ** [fix_tsx.py] *)

Module FixTsx.

Definition react_import : string := MechFix.react_import.
Definition view_import : string := MechFix.view_import.

(** Lines 18-21. *)
Definition add_react (txt : string) : string :=
  if negb (Py.contains "import React" txt)
     && negb (Py.contains ("from " +:+ DQ +:+ "react" +:+ DQ) txt)
     && negb (Py.contains "from 'react'" txt)
  then react_import +:+ NL +:+ txt else txt.

(** Lines 23-26. *)
Definition add_view (txt : string) : string :=
  if (Py.contains "view(" txt || Py.contains "<View" txt || Py.contains "<view" txt)
     && (negb (Py.contains ("from " +:+ DQ +:+ "@forge/ui" +:+ DQ) txt)
         && negb (Py.contains "from '@forge/ui'" txt))
  then view_import +:+ NL +:+ txt else txt.

Definition fix_text (txt : string) : string := add_view (add_react txt).

(** The script on the file named by its argument. *)
Definition main (argv : list string) (p : Path) : M unit :=
  if (length argv <? 2)%nat then sys_exit 2
  else
    src ← get_fs;
    match src !! p with
    | None => sys_exit 0
    | Some txt =>
        let txt' := fix_text txt in
        if negb (String.eqb txt' txt) then put_fs (<[p := txt']> src) else mret tt
    end.

End FixTsx.


(** ** [mech_fix.py]: the script as a whole *)

Module MechFixMain.

Definition root : Path := ["workspaces"; "Firsttry"; "atlassian"; "forge-app"].

(** [s[n:]] for [n >= 0] *)
Fixpoint str_drop (n : nat) (s : string) : string :=
  match n, s with
  | S k, String _ s' => str_drop k s'
  | _, _ => s
  end.

(** [ls[i]]: a negative index counts from the end; [None] is
    [IndexError]. *)
Definition index {A} (ls : list A) (i : Z) : option A :=
  let n := Z.of_nat (length ls) in
  if 0 <=? i then ls !! Z.to_nat i
  else if - n <=? i then ls !! Z.to_nat (n + i)
  else None.

(** [range(a, b)] *)
Definition range (a b : Z) : list Z :=
  map (fun k => a + Z.of_nat k) (seq 0 (Z.to_nat (b - a))).

(** The format [{i:>4}]: right-aligned in a field of four. *)
Fixpoint spaces (n : nat) : string :=
  match n with O => EmptyString | S k => String " "%char (spaces k) end.

Definition rjust4 (s : string) : string :=
  spaces (4 - String.length s) +:+ s.

(** [str(b)] for a [bool] *)
Definition str_bool (b : bool) : string := if b then "True" else "False".

(** Line 18:
    [(error TS|Cannot find module|TS2362|TS2307|TS2552|TS2686|TS6133|TS2578|\.(ts|tsx)\()] *)
Definition pat_lines : Re.regex :=
  Re.Group 1
    (Re.alts [ Re.Lit "error TS"; Re.Lit "Cannot find module"; Re.Lit "TS2362";
               Re.Lit "TS2307"; Re.Lit "TS2552"; Re.Lit "TS2686"; Re.Lit "TS6133";
               Re.Lit "TS2578";
               Re.seqs [ Re.Lit "."; Re.Group 2 (Re.Alt (Re.Lit "ts") (Re.Lit "tsx"));
                         Re.Lit "(" ] ]).

(** Line 19. *)
Definition anchors (text : string) : list string :=
  List.filter (Re.matches pat_lines) (Py.splitlines text).

(** Line 24: [(src/[^:(]+\.(?:ts|tsx))] *)
Definition file_pat : Re.regex :=
  Re.Group 1 (Re.seqs [ Re.Lit "src/"; Re.Rep (Re.none_of ":(") 1 None;
                        Re.Lit "."; Re.Alt (Re.Lit "ts") (Re.Lit "tsx") ]).

(** Lines 27-29. *)
Definition files2 (anchs : list string) : list string :=
  let joined := Py.join NL anchs in
  map (fun m => Re.group joined m 1) (Re.finditer file_pat joined).

(** Line 30: [sorted(set(files2))], strings ordered by code point. *)
Fixpoint insert_asc (x : string) (l : list string) : list string :=
  match l with
  | [] => [x]
  | y :: l' =>
      if String.ltb x y then x :: l
      else if String.eqb x y then l
      else y :: insert_asc x l'
  end.

Definition sorted_set (l : list string) : list string :=
  fold_right insert_asc [] l.

Definition files_sorted (anchs : list string) : list string :=
  sorted_set (files2 anchs).

(** Lines 36-64: one file of the import-fix loop. *)
Definition import_step (st : FS * list string) (rel : string) : FS * list string :=
  let p := Pathlib.joinpath root rel in
  match fst st !! p with
  | None => st
  | Some txt =>
      let suf := Pathlib.suffix_of (Pathlib.name p) in
      if negb (String.eqb suf ".ts" || String.eqb suf ".tsx") then st
      else
        let txt' := MechFix.fix_imports suf (Pathlib.str_abs p) txt in
        if negb (String.eqb txt' txt)
        then (<[p := txt']> (fst st), snd st ++ [rel])
        else st
  end.

Definition import_loop (files : list string) (src : FS) : FS * list string :=
  fold_left import_step files (src, []).

(** The diagnostic shape with [re.M]:
    [^(src/[^:(]+\.(?:ts|tsx))\((\d+),(\d+)\): error ] *)
Definition diag_head_m : Re.regex :=
  Re.seqs [ Re.Bol true;
            Re.Group 1 (Re.seqs [ Re.Lit "src/"; Re.Rep (Re.none_of ":(") 1 None;
                                  Re.Lit "."; Re.Alt (Re.Lit "ts") (Re.Lit "tsx") ]);
            Re.Lit "("; Re.Group 2 (Re.Rep Re.digit 1 None);
            Re.Lit ","; Re.Group 3 (Re.Rep Re.digit 1 None);
            Re.Lit "): error " ].

(** Line 69. *)
Definition ts2362_pat : Re.regex := Re.Seq diag_head_m (Re.Lit "TS2362").

(** Lines 70-72. *)
Definition hits_2362 (text : string) : list (string * Z) :=
  map (fun m => (Re.group text m 1, Py.int (Re.group text m 2)))
      (Re.finditer ts2362_pat text).

(** Lines 73-77: the first hit of each of the first three files. *)
Fixpoint select_loop (hits : list (string * Z)) (seen : gset string)
    (sel : list (string * Z)) : list (string * Z) :=
  match hits with
  | [] => sel
  | (f, ln) :: hits' =>
      let seen' := if bool_decide (f ∈ seen) then seen else {[f]} ∪ seen in
      let sel' := if bool_decide (f ∈ seen) then sel else sel ++ [(f, ln)] in
      if (length sel' =? 3)%nat then sel' else select_loop hits' seen' sel'
  end.

Definition select (hits : list (string * Z)) : list (string * Z) :=
  select_loop hits ∅ [].

(** Lines 86-89: the numbered lines around line [ln]; [None] when an
    index is out of range. *)
Definition context_bounds (n : nat) (ln : Z) : Z * Z :=
  (Z.max 1 (ln - 30), Z.min (Z.of_nat n) (ln + 30)).

Definition context_line (lines : list string) (i : Z) : option string :=
  l ← index lines (i - 1);
  Some (rjust4 (Py.str_int i) +:+ " " +:+ l +:+ NL).

Definition context_lines (lines : list string) (ln : Z) : option (list string) :=
  let '(a, b) := context_bounds (length lines) ln in
  mapM (context_line lines) (range a (b + 1)).

(** Lines 80-89 for one selected hit. *)
Definition context_block (src : FS) (hit : string * Z) : option string :=
  let '(fpath, ln) := hit in
  match src !! Pathlib.joinpath root fpath with
  | None => Some ("MISSING " +:+ fpath +:+ NL)
  | Some text =>
      let lines := Py.splitlines text in
      let '(a, b) := context_bounds (length lines) ln in
      body ← context_lines lines ln;
      Some (NL +:+ "--- " +:+ fpath +:+ ":" +:+ Py.str_int ln +:+ " (context "
            +:+ Py.str_int a +:+ "-" +:+ Py.str_int b +:+ ") ---" +:+ NL
            +:+ Py.join EmptyString body)
  end.

Definition report_2362 (src : FS) (text : string) : option string :=
  blocks ← mapM (context_block src) (select (hits_2362 text));
  Some ("TS2362_CONTEXT_FILES:" +:+ NL +:+ Py.join EmptyString blocks).

(** Line 93. *)
Definition ts2307_pat : Re.regex :=
  Re.seqs [ diag_head_m; Re.Lit "TS2307: Cannot find module '";
            Re.Group 4 (Re.Rep (Re.none_of "'") 1 None); Re.Lit "'" ].

Definition hits_2307 (text : string) : list (string * string) :=
  map (fun m => (Re.group text m 1, Re.group text m 4))
      (Re.finditer ts2307_pat text).

(** Lines 103-105: does something the specifier could mean exist?
    [None] when [with_suffix] raises. *)
Fixpoint probe_exts (src : FS) (cand : Path) (exts : list string) : option bool :=
  match exts with
  | [] => Some false
  | ext :: exts' =>
      o ← Pathlib.with_suffix cand ext;
      if exists_ src o then Some true else probe_exts src cand exts'
  end.

Definition module_exists (src : FS) (cand : Path) : option bool :=
  found ← probe_exts src cand [".ts"; ".tsx"; ".js"; ".cjs"; ".mjs"];
  Some (if exists_ src (Pathlib.joinpath cand "index.ts")
           || exists_ src (Pathlib.joinpath cand "index.tsx")
        then true else found).

(** Lines 96-108 for one hit. *)
Definition module_line (src : FS) (hit : string * string) : option string :=
  let '(file, mod_) := hit in
  if Py.startswith mod_ "." then
    let cand := Pathlib.joinpath (Pathlib.parent (Pathlib.joinpath root file)) mod_ in
    e ← module_exists src cand;
    Some (file +:+ " -> " +:+ mod_ +:+ " ; resolved=" +:+ Pathlib.str_abs cand
          +:+ " ; exists=" +:+ str_bool e +:+ NL)
  else
    Some (file +:+ " -> " +:+ mod_ +:+ " ; non-relative (do not auto-fix)" +:+ NL).

(** Lines 94-108: the lines written, and whether the loop ended
    without an exception. *)
Fixpoint module_loop (src : FS) (hits : list (string * string)) (cnt : Z)
    (written : list string) : bool * list string :=
  match hits with
  | [] => (true, written)
  | hit :: hits' =>
      let cnt := cnt + 1 in
      if 50 <? cnt then (true, written)
      else match module_line src hit with
           | Some l => module_loop src hits' cnt (written ++ [l])
           | None => (false, written)
           end
  end.

(** Line 119. *)
Definition pat2 : Re.regex :=
  Re.Group 1
    (Re.alts [ Re.Lit "error TS"; Re.Lit "Cannot find module"; Re.Lit "TS2362";
               Re.Lit "TS2307"; Re.Lit "TS2552"; Re.Lit "TS2686"; Re.Lit "TS6133";
               Re.Lit "TS2578" ]).

(** The script; [input] is the text of the file it reads, if the file
    exists. *)
Definition main (env : Env) (input : option string) : M unit :=
  match input with
  | None => sys_exit 1
  | Some text =>
      let anchs := anchors text in
      write_out "00_anchors.txt" (Py.join NL (firstn 260 anchs));;
      let files := files_sorted anchs in
      write_out "01_files.txt" (Py.join NL files);;
      src ← get_fs;
      let '(src', updated) := import_loop files src in
      put_fs src';;
      write_out "02_import_fixes.txt"
        (Py.join NL (map (fun u => "UPDATED " +:+ u) updated));;
      match report_2362 src' text with
      | None => raise
      | Some rep =>
          write_out "03_ts2362.txt" rep;;
          let '(ok, written) := module_loop src' (hits_2307 text) 0 [] in
          write_out "04_missing_modules.txt" (Py.join EmptyString written);;
          if ok then
            write_out "typecheck_after_mech.txt" (type_check env src');;
            t ← read_out "typecheck_after_mech.txt";
            write_out "06_remaining_anchors.txt"
              (Py.join NL (firstn 220 (List.filter (Re.matches pat2) (Py.splitlines t))))
          else raise
      end
  end.

End MechFixMain.

(** * The specification's wording, for comparison with the code *)

Module Spec.

(** ImportResolver: with a trailing [.ts] or [.tsx] extension
    stripped, ... *)
Definition strip_known_ext (s : string) : string :=
  if Py.endswith s ".ts" then Py.drop_last 3 s
  else if Py.endswith s ".tsx" then Py.drop_last 4 s
  else s.

(** ... a trailing [/index] path segment removed, ... *)
Definition strip_index (s : string) : string :=
  if Py.endswith s "/index" then Py.drop_last 6 s else s.

(** ... and a leading [./] prepended when the result does not already
    begin with [.]. *)
Definition mark_relative (s : string) : string :=
  if Py.startswith s "." then s else "./" +:+ s.

Definition new_specifier (rel : string) : string :=
  mark_relative (strip_index (strip_known_ext rel)).

(** The relative path as the code prints it, separators written [/]. *)
Definition slashed (rel : string) : string :=
  Py.replace rel (Py.chr Py.BSLASH) "/".

(** The number of relative specifiers among the hits. *)
Definition relative_count (hits : list (string * string)) : Z :=
  Z.of_nat (length (List.filter (fun h => Py.startswith (snd h) ".") hits)).



(** Suppression removal: the lines that stay when every anchored line
    that carries the directive is removed, the lines being numbered
    from [i + 1] as in the unmodified file. *)
Fixpoint remove_marked_from (i : nat) (A : list Z) (lines : list string)
    : list string :=
  match lines with
  | [] => []
  | l :: lines' =>
      if bool_decide (Z.of_nat (S i) ∈ A) && Py.contains directive l
      then remove_marked_from (S i) A lines'
      else l :: remove_marked_from (S i) A lines'
  end.

Definition remove_marked (A : list Z) (lines : list string) : list string :=
  remove_marked_from 0 A lines.

(** Missing-import insertion: line [k] (counted from 0) is the last
    of the first 80 lines that starts with [import ]; no such line
    exists; the text with the statement as a line of its own right
    after line [k]. *)
Definition import_line (l : string) : bool := Py.startswith l "import ".

Definition last_import_at (lines : list string) (k : nat) : Prop :=
  (k < 80)%nat
  /\ (exists l, lines !! k = Some l /\ import_line l = true)
  /\ forall j l', (k < j < 80)%nat -> lines !! j = Some l' -> import_line l' = false.

Definition no_import (lines : list string) : Prop :=
  forall j l', (j < 80)%nat -> lines !! j = Some l' -> import_line l' = false.

Definition inserted_after (lines : list string) (k : nat) (stmt : string) : string :=
  Py.join EmptyString (firstn (S k) lines)
  +:+ (stmt +:+ NL)
  +:+ Py.join EmptyString (skipn (S k) lines).



End Spec.

(** * Concrete runs used below *)

Module Scenario.

(** An environment whose checker prints [output] whatever the tree. *)
Definition env_printing (output : string) : Env :=
  mkEnv (fun _ => EmptyString) (fun _ => EmptyString) (fun _ => output).

Definition argv_anchor_fix : list string := ["anchor_fix.py"; "out"].
Definition argv_remove : list string := ["remove_ts_expect.py"; "out"].

Definition a_ts : Path := Pathlib.joinpath AnchorFix.root "src/a.ts".

Definition text_of (lines : list string) : string :=
  Py.join EmptyString (map (fun l => l +:+ NL) lines).

(** A file of 21 lines with the directive on lines 10 and 20, and the
    two stale-suppression diagnostics for it in the order the checker
    prints them. *)
Definition lines_21 : list string :=
  [ "l1"; "l2"; "l3"; "l4"; "l5"; "l6"; "l7"; "l8"; "l9";
    "// @ts-expect-error ten";
    "l11"; "l12"; "l13"; "l14"; "l15"; "l16"; "l17"; "l18"; "l19";
    "// @ts-expect-error twenty";
    "l21" ].

Definition output_10_20 : string :=
  text_of [ "src/a.ts(10,1): error TS2578: Unused '@ts-expect-error' directive.";
            "src/a.ts(20,1): error TS2578: Unused '@ts-expect-error' directive." ].

Definition world_21 : World :=
  mkWorld {[ a_ts := text_of lines_21 ]} ∅.

Definition world_21_after : World :=
  mkWorld {[ a_ts := text_of lines_21 ]} {[ "typecheck_after.txt" := output_10_20 ]}.

(** A file whose first two lines both carry the directive, and two
    diagnostics that name line 1. *)
Definition lines_dup : list string :=
  [ "// @ts-expect-error"; "// @ts-expect-error"; "foo()" ].

Definition output_dup : string :=
  text_of [ "src/a.ts(1,1): error TS2578: Unused '@ts-expect-error' directive.";
            "src/a.ts(1,4): error TS2578: Unused '@ts-expect-error' directive." ].

Definition world_dup : World :=
  mkWorld {[ a_ts := text_of lines_dup ]} ∅.

Definition world_dup_after : World :=
  mkWorld {[ a_ts := text_of lines_dup ]} {[ "typecheck_after.txt" := output_dup ]}.

(** Sixteen unresolved relative imports followed by a package import,
    in an empty tree. *)
Definition ts2307 (n : Z) (spec : string) : string :=
  "src/a.ts(" +:+ Py.str_int n +:+ ",8): error TS2307: Cannot find module '"
  +:+ spec +:+ "' or its corresponding type declarations.".

Definition output_cap : string :=
  text_of (map (fun n => ts2307 n ("./m" +:+ Py.str_int n))
             [1; 2; 3; 4; 5; 6; 7; 8; 9; 10; 11; 12; 13; 14; 15; 16]
           ++ [ts2307 17 "react"]).

(** One package import before one unresolved relative import. *)
Definition output_pkg : string :=
  text_of [ts2307 1 "react"; ts2307 2 "./missing"].



(** [src/a.ts] imports [./util.js]; [src/util.ts] exists. *)
Definition tree_util : FS :=
  {[ a_ts := "import x from './util.js';";
     Pathlib.joinpath AnchorFix.root "src/util.ts" := EmptyString ]}.


(** [src/foo/a.ts] imports [.]; [src/foo.ts] exists. *)
Definition tree_dot : FS :=
  {[ Pathlib.joinpath AnchorFix.root "src/foo/a.ts" := "import x from '.';";
     Pathlib.joinpath AnchorFix.root "src/foo.ts" := EmptyString ]}.

(** A shim that mentions [window], and one that declares nothing. *)
Definition shim_window : string :=
  "declare module 'x' { const w: typeof window; }".

Definition shim_empty : string := "export {};".

Definition world_shim (text : string) : World :=
  mkWorld {[ AnchorFix.shim := text; a_ts := text_of lines_21 ]} ∅.

(** Twenty-one stale-suppression diagnostics for the lines of one file. *)
Definition ts2578 (n : Z) : string :=
  "src/a.ts(" +:+ Py.str_int n +:+ ",1): error TS2578: Unused '@ts-expect-error' directive.".

Definition output_21 : string :=
  text_of (map ts2578 [1; 2; 3; 4; 5; 6; 7; 8; 9; 10; 11; 12; 13; 14; 15; 16; 17; 18;
                       19; 20; 21]).

(** A module that starts with an import and lacks the React import. *)
Definition text_one_import : string :=
  text_of ["import a from 'a';"; "const x = 1;"].

(** The working tree a run ends with. *)
Definition final {A} (r : Result A) : World :=
  match r with Ok _ w | Exited _ w | Raised w => w end.

End Scenario.

(** * Definitions used to state the facts *)

(** The length of the text that a list of lines joins to. *)
Definition total_len (ls : list string) : nat :=
  String.length (Py.join EmptyString ls).


(** Strictly descending line numbers. *)
Definition descending (D : list Z) : Prop := StronglySorted (fun x y => y < x) D.

(** The world when the shim guard of [anchor_fix.py] is reached. *)
Definition at_guard (env : Env) (w : World) : World :=
  mkWorld (fs w)
    (<["01_dts_audit.txt" := AnchorFix.dts_listing (fs w)]>
       (<["00_status.txt" := git_status env (fs w) +:+ NL +:+ git_diff env (fs w)]>
          (out w))).

(** The anchor lines of the first checker run, and what stages 4A and
    4B of [anchor_fix.py] compute from them. *)
Definition checker_lines (env : Env) (w : World) : list string :=
  AnchorFix.anchor_lines (type_check env (fs w)).

Definition result_4a (env : Env) (w : World) : FS * list (string * Z) :=
  AnchorFix.loop_4a (AnchorFix.hits_2578 (checker_lines env w)) (fs w).

Definition result_4b (env : Env) (w : World) : bool * AnchorFix.state_4b :=
  AnchorFix.loop_4b (AnchorFix.hits_2307 (checker_lines env w)) 0
    (AnchorFix.mkState4b (fst (result_4a env w)) [] []).

Definition out_4a (env : Env) (w : World) : gmap string string :=
  <["04a_ts2578.txt" := Py.join NL (map AnchorFix.removed_line (snd (result_4a env w)))]>
    (<["03_anchors_before.txt" := Py.join NL (firstn 200 (checker_lines env w))]>
       (<["typecheck_before.txt" := type_check env (fs w)]> (out w))).

Definition out_5 (env : Env) (w : World) : gmap string string :=
  let st := snd (result_4b env w) in
  <["06_remaining.txt" :=
      Py.join NL (firstn 220 (AnchorFix.anchor_lines (type_check env (AnchorFix.b_fs st))))]>
    (<["typecheck_after.txt" := type_check env (AnchorFix.b_fs st)]>
       (<["04b_ts2307.txt" := AnchorFix.report_4b st]> (out_4a env w))).


(** The lines that the hits give for one file name, in their order. *)
Definition lines_of (f : string) (hits : list (string * Z)) : list Z :=
  map snd (List.filter (fun h => String.eqb (fst h) f) hits).

(** The entries that a grouping holds for one file name. *)
Definition keyed (h : string) (g : list (string * list Z)) : list (string * list Z) :=
  List.filter (fun e => String.eqb (fst e) h) g.

(** The presence tests of [fix_tsx.py]. *)
Definition has_react (t : string) : bool :=
  Py.contains "import React" t
  || Py.contains ("from " +:+ DQ +:+ "react" +:+ DQ) t
  || Py.contains "from 'react'" t.

Definition has_ui (t : string) : bool :=
  Py.contains ("from " +:+ DQ +:+ "@forge/ui" +:+ DQ) t
  || Py.contains "from '@forge/ui'" t.

Definition uses_view (t : string) : bool :=
  Py.contains "view(" t || Py.contains "<View" t || Py.contains "<view" t.

(** The first hit of each file, in the order of the hits. *)
Fixpoint firsts_from (seen : list string) (hits : list (string * Z))
    : list (string * Z) :=
  match hits with
  | [] => []
  | (f, ln) :: hits' =>
      if bool_decide (f ∈ seen) then firsts_from seen hits'
      else (f, ln) :: firsts_from (f :: seen) hits'
  end.

Definition firsts (hits : list (string * Z)) : list (string * Z) :=
  firsts_from [] hits.

(** Stage 4B of [anchor_fix.py] from the start. *)
Definition init_4b (src : FS) : AnchorFix.state_4b := AnchorFix.mkState4b src [] [].

Definition run_4b (hits : list (string * string)) (src : FS) : AnchorFix.state_4b :=
  snd (AnchorFix.loop_4b hits 0 (init_4b src)).

Definition is_target_missing (t : string * string * string) : bool :=
  String.eqb (snd t) "target-missing".

(** The directory of a diagnosed file. *)
Definition base_of (file : string) : Path :=
  Pathlib.parent (Pathlib.joinpath AnchorFix.root file).

(** The file a grouped entry names, and the entries that name [p]. *)
Definition entry_path (e : string * list Z) : Path :=
  Pathlib.joinpath RemoveTsExpect.root (fst e).

Definition entries_for (p : Path) (g : list (string * list Z)) : list (string * list Z) :=
  List.filter (fun e => bool_decide (entry_path e = p)) g.

(** What [remove_ts_expect.py] does to the text of one file, given the
    grouped entries that name it. *)
Definition rte_text (es : list (string * list Z)) (text : string) : string :=
  fold_left (fun t e => fst (RemoveTsExpect.fix_text (snd e) t)) es text.

(** The cursor [n] characters further in the subject. *)
Fixpoint advance (n : nat) (cur : Re.cursor) : option Re.cursor :=
  match n with
  | O => Some cur
  | S k =>
      match Re.rest cur with
      | String c r => advance k (Re.Cursor (S (Re.pos cur)) (Some c) r)
      | EmptyString => None
      end
  end.

Definition ahead (cur cur' : Re.cursor) : Prop :=
  exists n, advance n cur = Some cur'.

(** What a regular expression matches, as a relation: the cursor and
    the groups after a match that starts at [cur] with groups [caps]. *)
Fixpoint all_chars (p : ascii -> bool) (t : string) : bool :=
  match t with
  | EmptyString => true
  | String c t' => p c && all_chars p t'
  end.

Definition hi_ok (hi : option nat) (n : nat) : Prop :=
  match hi with Some h => (n <= h)%nat | None => True end.

Definition bol_ok (multiline : bool) (cur : Re.cursor) : bool :=
  match Re.prev cur with
  | None => true
  | Some c => multiline && Ascii.eqb c Py.LF
  end.

Fixpoint sem (r : Re.regex) (cur : Re.cursor) (caps : Re.captures)
    (cur' : Re.cursor) (caps' : Re.captures) : Prop :=
  match r with
  | Re.Lit s => Re.lit s cur = Some cur' /\ caps' = caps
  | Re.Cls p =>
      (exists c, p c = true /\ Re.lit (Py.chr c) cur = Some cur') /\ caps' = caps
  | Re.Rep p lo hi =>
      (exists t, Re.lit t cur = Some cur' /\ all_chars p t = true
                 /\ (lo <= String.length t)%nat /\ hi_ok hi (String.length t))
      /\ caps' = caps
  | Re.Seq r1 r2 =>
      exists c1 cp1, sem r1 cur caps c1 cp1 /\ sem r2 c1 cp1 cur' caps'
  | Re.Alt r1 r2 => sem r1 cur caps cur' caps' \/ sem r2 cur caps cur' caps'
  | Re.Bol m => bol_ok m cur = true /\ cur' = cur /\ caps' = caps
  | Re.WordB =>
      xorb (Re.is_word (Re.prev cur)) (Re.is_word (Re.next (Re.rest cur))) = true
      /\ cur' = cur /\ caps' = caps
  | Re.Group n r' =>
      exists cp, sem r' cur caps cur' cp
                 /\ caps' = (n, (Re.pos cur, Re.pos cur')) :: cp
  end.

(** The head of a diagnostic line, with and without [re.M]. *)
Definition head_re (multiline : bool) : Re.regex :=
  Re.seqs [ Re.Bol multiline;
            Re.Group 1 (Re.seqs [ Re.Lit "src/"; Re.Rep (Re.none_of ":(") 1 None;
                                  Re.Lit "."; Re.Alt (Re.Lit "ts") (Re.Lit "tsx") ]);
            Re.Lit "("; Re.Group 2 (Re.Rep Re.digit 1 None);
            Re.Lit ","; Re.Group 3 (Re.Rep Re.digit 1 None);
            Re.Lit "): error " ].

(** The file name of a diagnostic: [src/], a name without [:] and [(],
    and the extension. *)
Definition file_name (name ext : string) : string :=
  "src/" +:+ name +:+ "." +:+ ext.

Definition name_ok (name : string) : Prop :=
  all_chars (Re.none_of ":(") name = true /\ name <> EmptyString.

Definition ext_ok (ext : string) : Prop := ext = "ts" \/ ext = "tsx".

Definition digits (d : string) : Prop :=
  all_chars Re.digit d = true /\ d <> EmptyString.

(** The cursor at the start of a subject. *)
Definition start (s : string) : Re.cursor := Re.Cursor 0 None s.

(** The groups a diagnostic head records when it starts at offset [p]. *)
Definition head_caps (p : nat) (f d2 d3 : string) : Re.captures :=
  let p2 := (p + String.length f + 1)%nat in
  let p3 := (p2 + String.length d2 + 1)%nat in
  [ (3%nat, (p3, (p3 + String.length d3)%nat));
    (2%nat, (p2, (p2 + String.length d2)%nat));
    (1%nat, (p, (p + String.length f)%nat)) ].

(** The text of a diagnostic head. *)
Definition head_text (name ext d2 d3 : string) : string :=
  file_name name ext +:+ "(" +:+ d2 +:+ "," +:+ d3 +:+ "): error ".

(** A TS2578 and a TS2307 diagnostic as the checker prints them. *)
Definition line_2578 (name ext d2 d3 rest : string) : string :=
  head_text name ext d2 d3 +:+ "TS2578" +:+ rest.

Definition spec_ok (spec : string) : Prop :=
  all_chars (Re.none_of "'") spec = true /\ spec <> EmptyString.

Definition line_2307 (name ext d2 d3 spec rest : string) : string :=
  head_text name ext d2 d3 +:+ "TS2307: Cannot find module '" +:+ spec +:+ "'" +:+ rest.

(** * Facts about the Python primitives *)

Module PyFacts.

Lemma str_app_cons c s t : String c s +:+ t = String c (s +:+ t).
Proof. reflexivity. Qed.

Lemma str_app_nil_r s : s +:+ EmptyString = s.
Proof. induction s as [|c s IH]; [done|]. by rewrite str_app_cons, IH. Qed.

Lemma str_app_assoc s t u : (s +:+ t) +:+ u = s +:+ (t +:+ u).
Proof. induction s as [|c s IH]; [done|]. by rewrite !str_app_cons, IH. Qed.

Lemma str_length_app s t :
  String.length (s +:+ t) = (String.length s + String.length t)%nat.
Proof. induction s as [|c s IH]; [done|]. rewrite str_app_cons. simpl. by rewrite IH. Qed.

Lemma join_cons l ls :
  Py.join EmptyString (l :: ls) = l +:+ Py.join EmptyString ls.
Proof.
  unfold Py.join. destruct ls as [|l' ls]; simpl.
  - by rewrite str_app_nil_r.
  - reflexivity.
Qed.

Lemma join_app ls1 ls2 :
  Py.join EmptyString (ls1 ++ ls2)
  = Py.join EmptyString ls1 +:+ Py.join EmptyString ls2.
Proof.
  induction ls1 as [|l ls1 IH]; [done|].
  rewrite <- app_comm_cons. by rewrite !join_cons, IH, str_app_assoc.
Qed.

(** Joining the lines that [splitlines(True)] returns gives the text
    back. *)
Lemma join_splitlines_keepends s :
  Py.join EmptyString (Py.splitlines_keepends s) = s.
Proof.
  remember (String.length s) as n eqn:Hn.
  revert s Hn. induction (lt_wf n) as [n _ IH]. intros s Hn.
  destruct s as [|c s]; [done|].
  assert (IH' : forall t, (String.length t < n)%nat ->
                 Py.join EmptyString (Py.splitlines_keepends t) = t).
  { intros t Ht. by apply (IH (String.length t)). }
  clear IH. subst n.
  change (Py.splitlines_keepends (String c s)) with
    (if Py.is_linebreak c then
       match s with
       | String c' s'' =>
           if Ascii.eqb c Py.CR && Ascii.eqb c' Py.LF
           then String c (String c' EmptyString) :: Py.splitlines_keepends s''
           else Py.chr c :: Py.splitlines_keepends s
       | EmptyString => [Py.chr c]
       end
     else
       match Py.splitlines_keepends s with
       | [] => [Py.chr c]
       | l :: ls => String c l :: ls
       end).
  destruct (Py.is_linebreak c).
  - destruct s as [|c' s'']; [done|].
    destruct (Ascii.eqb c Py.CR && Ascii.eqb c' Py.LF).
    + rewrite join_cons, IH' by (simpl; lia). reflexivity.
    + rewrite join_cons, IH' by (simpl; lia). reflexivity.
  - assert (Hs := IH' s ltac:(simpl; lia)).
    destruct (Py.splitlines_keepends s) as [|l ls].
    + simpl in Hs. by subst s.
    + rewrite join_cons in *. rewrite str_app_cons. by rewrite Hs.
Qed.

Lemma prefix_nonempty p s :
  String.prefix p s = true -> p <> EmptyString -> s <> EmptyString.
Proof. destruct p, s; simpl; congruence. Qed.

Lemma contains_nonempty sub s :
  Py.contains sub s = true -> sub <> EmptyString -> s <> EmptyString.
Proof. destruct s; simpl; [|congruence]. destruct sub; simpl; congruence. Qed.

Lemma length_pos s : s <> EmptyString -> (0 < String.length s)%nat.
Proof. destruct s; [congruence|simpl; lia]. Qed.

Lemma total_len_cons l ls :
  total_len (l :: ls) = (String.length l + total_len ls)%nat.
Proof. unfold total_len. by rewrite join_cons, str_length_app. Qed.

(** Popping a line that is not empty shortens the text. *)
Lemma total_len_pop i ls :
  (i < length ls)%nat -> nth i ls EmptyString <> EmptyString ->
  (total_len (Py.pop i ls) < total_len ls)%nat.
Proof.
  revert i. induction ls as [|l ls IH]; intros i Hi Hne; simpl in *; [lia|].
  destruct i as [|i]; unfold Py.pop, delete in *; simpl.
  - rewrite total_len_cons. apply length_pos in Hne. lia.
  - rewrite !total_len_cons. specialize (IH i ltac:(lia) Hne). lia.
Qed.







End PyFacts.

(** * Facts about the two removal loops *)

Module RemovalFacts.
Import PyFacts.

Lemma removable_inv lines a :
  removable lines a = true ->
  (Z.to_nat (a - 1) < length lines)%nat
  /\ nth (Z.to_nat (a - 1)) lines EmptyString <> EmptyString.
Proof.
  unfold removable. intros H.
  apply andb_prop in H as [H Hc]. apply andb_prop in H as [H0 H1].
  apply Z.leb_le in H0. apply Z.ltb_lt in H1. split; [lia|].
  eapply contains_nonempty; [exact Hc|]. discriminate.
Qed.

Lemma removable_pop_shorter lines a :
  removable lines a = true ->
  (total_len (Py.pop (Z.to_nat (a - 1)) lines) < total_len lines)%nat.
Proof. intros [H1 H2]%removable_inv. by apply total_len_pop. Qed.

(** *** [anchor_fix.py] *)

Lemma remove_line_None t a :
  AnchorFix.remove_line t a = None
  <-> removable (Py.splitlines_keepends t) a = false.
Proof.
  unfold AnchorFix.remove_line.
  destruct (removable (Py.splitlines_keepends t) a); split; congruence.
Qed.

Lemma remove_line_shorter t a t' :
  AnchorFix.remove_line t a = Some t' ->
  (String.length t' < String.length t)%nat.
Proof.
  unfold AnchorFix.remove_line.
  destruct (removable (Py.splitlines_keepends t) a) eqn:E; [|discriminate].
  intros [= <-]. apply removable_pop_shorter in E.
  unfold total_len in E. by rewrite join_splitlines_keepends in E.
Qed.

Lemma af_fix_text_cons a A t :
  AnchorFix.fix_text (a :: A) t
  = AnchorFix.fix_text A (default t (AnchorFix.remove_line t a)).
Proof. reflexivity. Qed.

Lemma af_fix_text_le A t :
  (String.length (AnchorFix.fix_text A t) <= String.length t)%nat.
Proof.
  revert t. induction A as [|a A IH]; intros t; [done|].
  rewrite af_fix_text_cons.
  destruct (AnchorFix.remove_line t a) as [t'|] eqn:E; simpl.
  - apply remove_line_shorter in E. specialize (IH t'). lia.
  - apply IH.
Qed.

(** The loop leaves a text alone exactly when none of its hits finds
    the directive on its line. *)
Lemma af_fix_text_fixpoint A t :
  AnchorFix.fix_text A t = t
  <-> forall a, a ∈ A -> removable (Py.splitlines_keepends t) a = false.
Proof.
  revert t. induction A as [|a A IH]; intros t.
  - split; [|done]. intros _ a Ha. by apply elem_of_nil in Ha.
  - rewrite af_fix_text_cons.
    destruct (AnchorFix.remove_line t a) as [t'|] eqn:E; simpl.
    + split.
      * intros Heq. pose proof (af_fix_text_le A t') as Hle.
        apply remove_line_shorter in E. rewrite Heq in Hle. lia.
      * intros Hall. specialize (Hall a (list_elem_of_here _ _)).
        apply remove_line_None in Hall. congruence.
    + rewrite IH. apply remove_line_None in E. split.
      * intros Hall b [->|Hb]%elem_of_cons; auto.
      * intros Hall b Hb. apply Hall. by apply elem_of_cons; right.
Qed.

(** *** [remove_ts_expect.py] *)

Lemma elem_of_insert_desc x y l :
  x ∈ RemoveTsExpect.insert_desc y l <-> x = y \/ x ∈ l.
Proof.
  induction l as [|z l IH]; simpl.
  - rewrite list_elem_of_singleton, elem_of_nil. tauto.
  - destruct (z <? y) eqn:E1; [by rewrite elem_of_cons|].
    destruct (z =? y) eqn:E2.
    + apply Z.eqb_eq in E2 as ->. rewrite elem_of_cons. tauto.
    + rewrite !elem_of_cons, IH. tauto.
Qed.

Lemma elem_of_sorted_set_desc x A :
  x ∈ RemoveTsExpect.sorted_set_desc A <-> x ∈ A.
Proof.
  induction A as [|a A IH]; simpl; [done|].
  by rewrite elem_of_insert_desc, elem_of_cons, IH.
Qed.

Lemma pop_step_keep st ln :
  removable (fst st) ln = false -> RemoveTsExpect.pop_step st ln = st.
Proof. destruct st as [txt popped]. simpl. by intros ->. Qed.

Lemma pop_step_pop st ln :
  removable (fst st) ln = true ->
  RemoveTsExpect.pop_step st ln
  = (Py.pop (Z.to_nat (ln - 1)) (fst st), snd st ++ [ln]).
Proof. destruct st as [txt popped]. simpl. by intros ->. Qed.

Lemma pop_fold_mono D st :
  let r := fold_left RemoveTsExpect.pop_step D st in
  (total_len (fst r) <= total_len (fst st))%nat
  /\ (length (snd st) <= length (snd r))%nat.
Proof.
  revert st. induction D as [|d D IH]; intros st; simpl; [lia|].
  destruct (IH (RemoveTsExpect.pop_step st d)) as [H1 H2].
  destruct (removable (fst st) d) eqn:E.
  - rewrite pop_step_pop in * by done. simpl in *.
    apply removable_pop_shorter in E. rewrite length_app in H2. simpl in H2. lia.
  - rewrite pop_step_keep in * by done. lia.
Qed.

Lemma pop_fold_none D st :
  (forall d, d ∈ D -> removable (fst st) d = false) ->
  fold_left RemoveTsExpect.pop_step D st = st.
Proof.
  revert st. induction D as [|d D IH]; intros st Hall; simpl; [done|].
  rewrite pop_step_keep by (apply Hall; left).
  apply IH. intros d' Hd'. apply Hall. by right.
Qed.

Lemma pop_fold_some D st d :
  d ∈ D -> removable (fst st) d = true ->
  let r := fold_left RemoveTsExpect.pop_step D st in
  (total_len (fst r) < total_len (fst st))%nat
  /\ (length (snd st) < length (snd r))%nat.
Proof.
  revert st. induction D as [|d' D IH]; intros st Hd Hr; simpl.
  - by apply elem_of_nil in Hd.
  - destruct (removable (fst st) d') eqn:E.
    + pose proof (pop_fold_mono D (RemoveTsExpect.pop_step st d')) as [H1 H2].
      simpl in H1, H2. rewrite pop_step_pop in * by done. simpl in *.
      apply removable_pop_shorter in E. rewrite length_app in H2. simpl in H2. lia.
    + rewrite pop_step_keep by done.
      apply elem_of_cons in Hd as [->|Hd]; [congruence|]. by apply IH.
Qed.

(** The per-file step leaves a text alone exactly when no anchored
    line carries the directive. *)
Lemma rte_fix_text_fixpoint A t :
  fst (RemoveTsExpect.fix_text A t) = t
  <-> forall a, a ∈ A -> removable (Py.splitlines_keepends t) a = false.
Proof.
  unfold RemoveTsExpect.fix_text, RemoveTsExpect.pop_loop. split.
  - intros Heq a Ha.
    destruct (removable (Py.splitlines_keepends t) a) eqn:E; [|done]. exfalso.
    apply elem_of_sorted_set_desc in Ha.
    pose proof (pop_fold_some _ (Py.splitlines_keepends t, []) a Ha E) as [H1 H2].
    simpl in H1, H2.
    destruct (fold_left RemoveTsExpect.pop_step _ _) as [txt popped].
    simpl in *. destruct popped as [|x popped]; [simpl in H2; lia|].
    simpl in Heq. unfold total_len in H1.
    rewrite join_splitlines_keepends, Heq in H1. lia.
  - intros Hall. rewrite pop_fold_none; [done|].
    intros d Hd. apply Hall. by apply elem_of_sorted_set_desc.
Qed.

End RemovalFacts.


(** * [remove_ts_expect.py] removes the lines of the unmodified file *)

Module DescendingFacts.

Lemma removable_spec lines d :
  removable lines d = true
  <-> exists n l, d = Z.of_nat (S n) /\ lines !! n = Some l
                  /\ Py.contains directive l = true.
Proof.
  unfold removable. rewrite !andb_true_iff, Z.leb_le, Z.ltb_lt. split.
  - intros [[H0 H1] Hc]. exists (Z.to_nat (d - 1)).
    destruct (lookup_lt_is_Some_2 lines (Z.to_nat (d - 1)) ltac:(lia)) as [l Hl].
    exists l. split; [lia|]. split; [done|].
    by rewrite (nth_lookup_Some _ _ _ _ Hl) in Hc.
  - intros (n & l & -> & Hl & Hc).
    replace (Z.to_nat (Z.of_nat (S n) - 1)) with n by lia.
    apply lookup_lt_Some in Hl as Hlt.
    rewrite (nth_lookup_Some _ _ _ _ Hl). repeat split; [lia|lia|done].
Qed.

Lemma remove_marked_from_app i A l1 l2 :
  Spec.remove_marked_from i A (l1 ++ l2)
  = Spec.remove_marked_from i A l1
    ++ Spec.remove_marked_from (i + length l1) A l2.
Proof.
  revert i. induction l1 as [|l l1 IH]; intros i; simpl.
  - by rewrite Nat.add_0_r.
  - rewrite IH. replace (S i + length l1)%nat with (i + S (length l1))%nat by lia.
    by destruct (_ && _).
Qed.

(** Only the membership of the line numbers that occur matters. *)
Lemma remove_marked_from_ext i A B lines :
  (forall j, (i < j <= i + length lines)%nat -> Z.of_nat j ∈ A <-> Z.of_nat j ∈ B) ->
  Spec.remove_marked_from i A lines = Spec.remove_marked_from i B lines.
Proof.
  revert i. induction lines as [|l lines IH]; intros i H; simpl; [done|].
  rewrite (IH (S i)) by (intros j Hj; apply H; simpl; lia).
  by rewrite (bool_decide_ext (Z.of_nat (S i) ∈ A) (Z.of_nat (S i) ∈ B)
                (H (S i) ltac:(simpl; lia))).
Qed.

Lemma remove_marked_from_below i A lines :
  (forall x, x ∈ A -> x <= Z.of_nat i) ->
  Spec.remove_marked_from i A lines = lines.
Proof.
  revert i. induction lines as [|l lines IH]; intros i H; simpl; [done|].
  rewrite bool_decide_eq_false_2.
  - simpl. f_equal. apply IH. intros x Hx. specialize (H x Hx). lia.
  - intros Hin. specialize (H _ Hin). lia.
Qed.

(** An anchor whose line does not carry the directive marks nothing. *)
Lemma remove_marked_from_unmarked i d A lines :
  (forall j l, lines !! j = Some l -> Z.of_nat (S (i + j)) = d ->
     Py.contains directive l = false) ->
  Spec.remove_marked_from i (d :: A) lines = Spec.remove_marked_from i A lines.
Proof.
  revert i. induction lines as [|l lines IH]; intros i H; simpl; [done|].
  rewrite (IH (S i)).
  - destruct (decide (Z.of_nat (S i) = d)) as [Hd|Hd].
    + rewrite (H 0%nat l eq_refl) by (rewrite Nat.add_0_r; exact Hd).
      by rewrite !andb_false_r.
    + f_equal. rewrite (bool_decide_ext (Z.of_nat (S i) ∈ d :: A) (Z.of_nat (S i) ∈ A)); [done|].
      rewrite elem_of_cons. split; [|by right]. intros [?|?]; [congruence|done].
  - intros j l' Hj Hd. apply (H (S j) l'); [done|]. rewrite <- Hd. lia.
Qed.

Lemma insert_desc_descending x D :
  descending D -> descending (RemoveTsExpect.insert_desc x D).
Proof.
  unfold descending. induction 1 as [|y D Hs IH Hall]; simpl.
  - repeat constructor.
  - destruct (y <? x) eqn:E1.
    + apply Z.ltb_lt in E1. constructor; [by constructor|].
      constructor; [done|]. eapply Forall_impl; [exact Hall|]. simpl. lia.
    + destruct (y =? x) eqn:E2; [by constructor|].
      apply Z.ltb_ge in E1. apply Z.eqb_neq in E2.
      constructor; [done|]. apply Forall_forall. intros z Hz.
      apply RemovalFacts.elem_of_insert_desc in Hz as [->|Hz]; [lia|].
      by eapply Forall_forall in Hall.
Qed.

(** [sorted(set(lines), reverse=True)] is strictly descending. *)
Lemma sorted_set_desc_descending A :
  descending (RemoveTsExpect.sorted_set_desc A).
Proof.
  induction A as [|a A IH]; simpl; [constructor|].
  by apply insert_desc_descending.
Qed.

(** Taken from the highest line to the lowest, the pops remove exactly
    the anchored directive lines of the list they start from. *)
Lemma pop_fold_descending D :
  descending D -> forall lines acc,
  fst (fold_left RemoveTsExpect.pop_step D (lines, acc))
  = Spec.remove_marked D lines.
Proof.
  unfold Spec.remove_marked.
  induction 1 as [|d D Hs IH Hall]; intros lines acc.
  - simpl. symmetry. apply remove_marked_from_below.
    intros x Hx. by apply elem_of_nil in Hx.
  - simpl. destruct (removable lines d) eqn:E.
    + rewrite IH.
      apply removable_spec in E as (n & l & -> & Hl & Hc).
      replace (Z.to_nat (Z.of_nat (S n) - 1)) with n by lia.
      apply list_elem_of_split_length in Hl as (l1 & l2 & -> & ->).
      unfold Py.pop. rewrite delete_middle.
      rewrite !remove_marked_from_app. simpl.
      rewrite bool_decide_eq_true_2 by left. rewrite Hc. simpl.
      assert (Hbelow : forall x, x ∈ D -> x <= Z.of_nat (length l1)).
      { intros x Hx. eapply Forall_forall in Hall; [|exact Hx]. simpl in Hall. lia. }
      rewrite (remove_marked_from_below (length l1) D) by done.
      rewrite (remove_marked_from_below (S (length l1))).
      * f_equal. apply remove_marked_from_ext. intros j Hj.
        rewrite elem_of_cons. split; [by right|]. intros [Hd|?]; [lia|done].
      * intros x [->|Hx]%elem_of_cons; [lia|]. specialize (Hbelow x Hx). lia.
    + rewrite IH. symmetry. apply remove_marked_from_unmarked.
      intros j l Hl Hd. simpl in Hd.
      destruct (Py.contains directive l) eqn:Hc; [|done].
      assert (removable lines d = true); [|congruence].
      apply removable_spec. exists j, l. split; [lia|done].
Qed.

(** The lines [remove_ts_expect.py] keeps of a file are those of the
    unmodified file without the anchored directive lines, whatever the
    order and the multiplicity of the anchors. *)
Lemma rte_removes_anchored_lines A lines :
  fst (RemoveTsExpect.pop_loop (RemoveTsExpect.sorted_set_desc A) lines)
  = Spec.remove_marked A lines.
Proof.
  unfold RemoveTsExpect.pop_loop.
  rewrite pop_fold_descending by apply sorted_set_desc_descending.
  apply remove_marked_from_ext. intros j _.
  apply RemovalFacts.elem_of_sorted_set_desc.
Qed.

Lemma rte_anchor_set_only A B lines :
  (forall x, x ∈ A <-> x ∈ B) ->
  fst (RemoveTsExpect.pop_loop (RemoveTsExpect.sorted_set_desc A) lines)
  = fst (RemoveTsExpect.pop_loop (RemoveTsExpect.sorted_set_desc B) lines).
Proof.
  intros H. rewrite !rte_removes_anchored_lines.
  apply remove_marked_from_ext. intros j _. apply H.
Qed.

End DescendingFacts.

(** * The claims about the suppression-removal strategy *)

Import Scenario.

(** Stage 4A decides the text of each file from the hits that name it,
    taken in the order of the checker output. *)
Lemma lines_for_cons p file l hits :
  AnchorFix.lines_for p ((file, l) :: hits)
  = if bool_decide (Pathlib.joinpath AnchorFix.root file = p)
    then l :: AnchorFix.lines_for p hits else AnchorFix.lines_for p hits.
Proof. unfold AnchorFix.lines_for. simpl. by case_bool_decide. Qed.

Lemma loop_4a_lookup hits src acc p :
  fst (fold_left AnchorFix.step_4a hits (src, acc)) !! p
  = AnchorFix.fix_text (AnchorFix.lines_for p hits) <$> src !! p.
Proof.
  revert src acc. induction hits as [|[file l] hits IH]; intros src acc.
  - simpl. by destruct (src !! p).
  - rewrite lines_for_cons.
    change (fold_left AnchorFix.step_4a ((file, l) :: hits) (src, acc))
      with (fold_left AnchorFix.step_4a hits (AnchorFix.step_4a (src, acc) (file, l))).
    unfold AnchorFix.step_4a. cbn [fst snd].
    set (q := Pathlib.joinpath AnchorFix.root file).
    destruct (src !! q) as [text|] eqn:Hq.
    + destruct (AnchorFix.remove_line text l) as [text'|] eqn:Hr.
      * rewrite IH. case_bool_decide as Hp.
        -- subst p. rewrite lookup_insert_eq, Hq.
           cbn [fmap option_fmap option_map].
           rewrite RemovalFacts.af_fix_text_cons, Hr. reflexivity.
        -- by rewrite lookup_insert_ne.
      * rewrite IH. case_bool_decide as Hp; [|done].
        subst p. rewrite Hq. cbn [fmap option_fmap option_map].
        rewrite RemovalFacts.af_fix_text_cons, Hr. reflexivity.
    + rewrite IH. case_bool_decide as Hp; [|done].
      subst p. by rewrite Hq.
Qed.

(** C1, on [anchor_fix.py]: the hits are taken in the order of the
    checker output, lowest line first, and the file is read again for
    each of them.  With the directive on lines 10 and 20 of a file and
    the diagnostics [(a.ts, 10)], [(a.ts, 20)], the run removes line 10
    only: by then the second hit points at the former line 21.  The
    text the claim asks for (lines 10 and 20 gone) is what
    [remove_ts_expect.py] leaves on the same input. *)
Theorem C1_anchor_fix_removes_low_to_high :
  AnchorFix.hits_2578 (AnchorFix.anchor_lines output_10_20)
    = [("src/a.ts", 10); ("src/a.ts", 20)]
  /\ fs (final (AnchorFix.main (env_printing output_10_20) argv_anchor_fix world_21)) !! a_ts
     = Some (text_of (delete 9%nat lines_21))
  /\ out (final (AnchorFix.main (env_printing output_10_20) argv_anchor_fix world_21))
       !! "04a_ts2578.txt"
     = Some "REMOVED src/a.ts line 10"
  /\ text_of (delete 9%nat lines_21) <> text_of (delete 9%nat (delete 19%nat lines_21))
  /\ fs (final (RemoveTsExpect.main argv_remove world_21_after)) !! a_ts
     = Some (text_of (delete 9%nat (delete 19%nat lines_21))).
Proof.
  repeat split; try (vm_compute; reflexivity).
  vm_compute. discriminate.
Qed.

(** C2 fails as stated: with the directive on lines 1 and 2 and the one
    anchor 1, the first application removes line 1, the former line 2
    moves up to the anchored position, and the second application
    removes it too.  This holds for both scripts. *)
Lemma C2_second_application_removes_more :
  fst (RemoveTsExpect.fix_text [1]
         (fst (RemoveTsExpect.fix_text [1] (text_of lines_dup))))
    <> fst (RemoveTsExpect.fix_text [1] (text_of lines_dup))
  /\ AnchorFix.fix_text [1] (AnchorFix.fix_text [1] (text_of lines_dup))
     <> AnchorFix.fix_text [1] (text_of lines_dup).
Proof. split; vm_compute; discriminate. Qed.

(** C2, amended: for either script, a second application with the same
    anchors gives the text of the first one exactly when no anchored
    line of that text carries the directive; otherwise it removes
    more. *)
Theorem C2_second_application_iff (A : list Z) (text : string) :
  (fst (RemoveTsExpect.fix_text A (fst (RemoveTsExpect.fix_text A text)))
     = fst (RemoveTsExpect.fix_text A text)
   <-> forall a, a ∈ A ->
         removable (Py.splitlines_keepends (fst (RemoveTsExpect.fix_text A text))) a
         = false)
  /\ (AnchorFix.fix_text A (AnchorFix.fix_text A text) = AnchorFix.fix_text A text
      <-> forall a, a ∈ A ->
            removable (Py.splitlines_keepends (AnchorFix.fix_text A text)) a = false).
Proof.
  split.
  - apply RemovalFacts.rte_fix_text_fixpoint.
  - apply RemovalFacts.af_fix_text_fixpoint.
Qed.

(** C3, on [anchor_fix.py]: two diagnostics that name the same line of
    the same file are both acted on.  With the directive on lines 1 and
    2 and two diagnostics for line 1, the second occurrence removes the
    former line 2 as well; [remove_ts_expect.py], which goes through
    [sorted(set(lines))], removes line 1 once. *)
Theorem C3_anchor_fix_repeats_duplicate_anchor :
  AnchorFix.hits_2578 (AnchorFix.anchor_lines output_dup)
    = [("src/a.ts", 1); ("src/a.ts", 1)]
  /\ fs (final (AnchorFix.main (env_printing output_dup) argv_anchor_fix world_dup)) !! a_ts
     = Some (text_of ["foo()"])
  /\ out (final (AnchorFix.main (env_printing output_dup) argv_anchor_fix world_dup))
       !! "04a_ts2578.txt"
     = Some ("REMOVED src/a.ts line 1" +:+ NL +:+ "REMOVED src/a.ts line 1")
  /\ fs (final (RemoveTsExpect.main argv_remove world_dup_after)) !! a_ts
     = Some (text_of ["// @ts-expect-error"; "foo()"]).
Proof. repeat split; vm_compute; reflexivity. Qed.


(** * The claims about the import rewrite *)

Module ImportFacts.
Import PyFacts.





Lemma new_specifier_unfold rel :
  AnchorFix.new_specifier rel
  = Spec.mark_relative
      (Spec.strip_index (fold_left AnchorFix.strip_ext [".ts"; ".tsx"] (Spec.slashed rel))).
Proof.
  unfold AnchorFix.new_specifier, Spec.mark_relative, Spec.strip_index, Spec.slashed.
  set (s := fold_left _ _ _).
  destruct (Py.endswith s "/index"); simpl;
    match goal with |- context [Py.startswith ?a ?b] => by destruct (Py.startswith a b) end.
Qed.

End ImportFacts.

Module ResolveFacts.

Lemma find_first {A} (f : A -> bool) (l : list A) x :
  List.find f l = Some x
  <-> exists i, l !! i = Some x /\ f x = true
        /\ forall j y, (j < i)%nat -> l !! j = Some y -> f y = false.
Proof.
  induction l as [|a l IH]; simpl.
  - split; [discriminate|]. by intros (i & Hi & _).
  - destruct (f a) eqn:Ha.
    + split.
      * intros [= <-]. exists 0%nat. repeat split; [done|]. intros j y Hj. lia.
      * intros (i & Hi & Hx & Hlt). destruct i as [|i]; [by simplify_eq/=|].
        specialize (Hlt 0%nat a ltac:(lia) eq_refl). congruence.
    + rewrite IH. split.
      * intros (i & Hi & Hx & Hlt). exists (S i). repeat split; [done..|].
        intros [|j] y Hj Hy; simplify_eq/=; [done|]. eapply Hlt; [|done]. lia.
      * intros (i & Hi & Hx & Hlt). destruct i as [|i]; [simplify_eq/=; congruence|].
        simpl in Hi. exists i. repeat split; [done..|].
        intros j y Hj Hy. apply (Hlt (S j) y); [lia|done].
Qed.


Lemma find_ext {A} (f g : A -> bool) (l : list A) :
  (forall x, x ∈ l -> f x = g x) -> List.find f l = List.find g l.
Proof.
  induction l as [|a l IH]; intros H; simpl; [done|].
  rewrite <- (H a) by left. destruct (f a); [done|].
  apply IH. intros x Hx. apply H. by right.
Qed.




Lemma prefix_cons a s b t :
  String.prefix (String a s) (String b t)
  = if ascii_dec a b then String.prefix s t else false.
Proof. reflexivity. Qed.





End ResolveFacts.

Module Loop4bFacts.

Lemma relative_count_cons f m hits :
  Spec.relative_count ((f, m) :: hits)
  = (if Py.startswith m "." then 1 else 0) + Spec.relative_count hits.
Proof.
  unfold Spec.relative_count. simpl.
  destruct (Py.startswith m "."); simpl; lia.
Qed.

Lemma relative_count_nonneg hits : 0 <= Spec.relative_count hits.
Proof. unfold Spec.relative_count. lia. Qed.

(** A package specifier is logged as skipped; it neither counts
    towards the cap nor touches the tree. *)
Lemma loop_4b_non_relative f m hits count st :
  Py.startswith m "." = false ->
  AnchorFix.loop_4b ((f, m) :: hits) count st
  = AnchorFix.loop_4b hits count
      (AnchorFix.mkState4b (AnchorFix.b_fs st) (AnchorFix.b_fixed st)
         (AnchorFix.b_skipped st ++ [(f, m, "non-relative")])).
Proof. intros H. simpl. by rewrite H. Qed.

(** The skip log only grows. *)
Lemma loop_4b_skipped_mono hits count st ok st' x :
  AnchorFix.loop_4b hits count st = (ok, st') ->
  x ∈ AnchorFix.b_skipped st -> x ∈ AnchorFix.b_skipped st'.
Proof.
  revert count st. induction hits as [|[f m] hits IH]; intros count st Hrun Hx.
  - by simplify_eq/=.
  - simpl in Hrun. destruct (Py.startswith m "."); simpl in Hrun.
    + destruct (15 <? count + 1); [by simplify_eq|].
      destruct (AnchorFix.attempt_rewrite (AnchorFix.b_fs st) f m).
      * eapply IH; [exact Hrun|done].
      * eapply IH; [exact Hrun|done].
      * eapply IH; [exact Hrun|]. simpl. apply elem_of_app. by left.
      * by simplify_eq.
    + eapply IH; [exact Hrun|]. simpl. apply elem_of_app. by left.
Qed.

Lemma loop_4b_records pre f m post count st st' :
  Py.startswith m "." = false ->
  count + Spec.relative_count pre <= 15 ->
  AnchorFix.loop_4b (pre ++ (f, m) :: post) count st = (true, st') ->
  (f, m, "non-relative") ∈ AnchorFix.b_skipped st'.
Proof.
  intros Hm. revert count st.
  induction pre as [|[f0 m0] pre IH]; intros count st Hc Hrun.
  - simpl app in Hrun. rewrite loop_4b_non_relative in Hrun by done.
    eapply loop_4b_skipped_mono; [exact Hrun|].
    simpl. apply elem_of_app. right. by left.
  - rewrite relative_count_cons in Hc.
    rewrite <- app_comm_cons in Hrun. simpl in Hrun.
    destruct (Py.startswith m0 "."); simpl in Hrun.
    + pose proof (relative_count_nonneg pre).
      destruct (15 <? count + 1) eqn:E; [apply Z.ltb_lt in E; lia|].
      destruct (AnchorFix.attempt_rewrite (AnchorFix.b_fs st) f0 m0);
        try (eapply IH; [|exact Hrun]; lia).
      discriminate.
    + eapply IH; [|exact Hrun]. lia.
Qed.

(** A logged skip is printed when it is among the first fifty. *)
Lemma report_4b_has_skip st i t :
  AnchorFix.b_skipped st !! i = Some t -> (i < 50)%nat ->
  exists a b, AnchorFix.report_4b st = a +:+ AnchorFix.skip_line t +:+ b.
Proof.
  intros Hi Hlt. unfold AnchorFix.report_4b.
  assert (Ht : firstn 50 (AnchorFix.b_skipped st) !! i = Some t).
  { by rewrite lookup_take_lt. }
  apply list_elem_of_lookup_2, list_elem_of_split in Ht as (l1 & l2 & ->).
  rewrite map_app, PyFacts.join_app. simpl map. rewrite PyFacts.join_cons.
  exists (Py.join EmptyString (map AnchorFix.fixed_line (AnchorFix.b_fixed st))
          +:+ Py.join EmptyString (map AnchorFix.skip_line l1)),
         (Py.join EmptyString (map AnchorFix.skip_line l2)).
  by rewrite PyFacts.str_app_assoc.
Qed.

End Loop4bFacts.

(** C4 fails as stated: the loop stops at the sixteenth relative
    specifier, and a package specifier that the checker reports after
    it is never looked at; it is in neither the skip log nor the
    report. *)
Lemma C4_package_import_after_cap_not_recorded :
  In ("src/a.ts", "react") (AnchorFix.hits_2307 (AnchorFix.anchor_lines output_cap))
  /\ ~ In ("src/a.ts", "react", "non-relative")
         (AnchorFix.b_skipped
            (snd (AnchorFix.loop_4b
                    (AnchorFix.hits_2307 (AnchorFix.anchor_lines output_cap)) 0
                    (AnchorFix.mkState4b ∅ [] []))))
  /\ Py.contains "react"
       (default EmptyString
          (out (final (AnchorFix.main (env_printing output_cap) argv_anchor_fix
                         (mkWorld ∅ ∅))) !! "04b_ts2307.txt"))
     = false.
Proof.
  split; [|split].
  - vm_compute. tauto.
  - vm_compute. intuition discriminate.
  - vm_compute. reflexivity.
Qed.

(** C4, amended: a module-not-found diagnostic with a package
    specifier is put on the skip log with reason [non-relative],
    without counting towards the cap of 15, whenever at most 15
    relative specifiers precede it in the checker output and the loop
    ends without an exception; its [SKIP] line is in the report when
    it is among the first fifty skips. *)
Theorem C4_package_import_recorded_before_cap
    (pre post : list (string * string)) (f m : string) (src : FS)
    (st' : AnchorFix.state_4b) :
  Py.startswith m "." = false ->
  Spec.relative_count pre <= 15 ->
  AnchorFix.loop_4b (pre ++ (f, m) :: post) 0 (AnchorFix.mkState4b src [] [])
    = (true, st') ->
  (f, m, "non-relative") ∈ AnchorFix.b_skipped st'
  /\ forall i, AnchorFix.b_skipped st' !! i = Some (f, m, "non-relative") ->
       (i < 50)%nat ->
       exists a b, AnchorFix.report_4b st'
                   = a +:+ AnchorFix.skip_line (f, m, "non-relative") +:+ b.
Proof.
  intros Hm Hc Hrun. split.
  - eapply Loop4bFacts.loop_4b_records; [done| |exact Hrun]. lia.
  - intros i Hi Hlt. by eapply Loop4bFacts.report_4b_has_skip.
Qed.

Lemma C4_witness :
  Py.startswith "react" "." = false
  /\ Spec.relative_count [] <= 15
  /\ ("src/a.ts", "react", "non-relative")
       ∈ AnchorFix.b_skipped
           (snd (AnchorFix.loop_4b
                   ([] ++ ("src/a.ts", "react") :: [("src/a.ts", "./missing")]) 0
                   (AnchorFix.mkState4b ∅ [] []))).
Proof.
  split; [reflexivity|]. split; [vm_compute; discriminate|].
  refine (proj1 (C4_package_import_recorded_before_cap
                   [] [("src/a.ts", "./missing")] "src/a.ts" "react" ∅ _ _ _ _)).
  - reflexivity.
  - vm_compute. discriminate.
  - vm_compute. reflexivity.
Defined.




(** A specifier [.] makes [with_suffix] rename the importing directory
    itself; when that sibling exists, [relative_to] raises. *)
Lemma attempt_rewrite_dot_fails :
  AnchorFix.attempt_rewrite tree_dot "src/foo/a.ts" "." = AnchorFix.Failed.
Proof. vm_compute. reflexivity. Qed.



(** * Facts about the matcher *)

Module ReFacts.

(** A repetition that may stop at once succeeds when its continuation
    does. *)
Lemma rep_zero {A} p hi ps pv rs (k : Re.cursor -> option A) :
  is_Some (k (Re.Cursor ps pv rs)) -> is_Some (Re.rep p 0 hi ps pv rs k).
Proof.
  intros Hk. destruct rs as [|c r]; simpl; [done|].
  destruct (p c && Re.hi_open hi); [|done].
  by destruct (Re.rep p _ _ _ _ r k).
Qed.







End ReFacts.

(** * The claims about the run as a whole *)

Module RunFacts.

Lemma main_usage env argv w :
  (length argv < 2)%nat -> AnchorFix.main env argv w = Exited 1 w.
Proof.
  intros H. unfold AnchorFix.main.
  destruct (length argv <? 2)%nat eqn:E; [done|].
  apply Nat.ltb_ge in E. lia.
Qed.

Lemma main_to_guard env argv w :
  (2 <= length argv)%nat ->
  AnchorFix.main env argv w
  = match AnchorFix.shim_guard (at_guard env w) with
    | Ok _ w' => AnchorFix.after_guard env w'
    | Exited c w' => Exited c w'
    | Raised w' => Raised w'
    end.
Proof.
  intros H. unfold AnchorFix.main.
  destruct (length argv <? 2)%nat eqn:E; [apply Nat.ltb_lt in E; lia|].
  reflexivity.
Qed.

Lemma guard_forbidden env w s :
  fs w !! AnchorFix.shim = Some s ->
  Re.matches AnchorFix.forbidden_alt s = true ->
  AnchorFix.shim_guard (at_guard env w)
  = Exited 2
      (mkWorld (fs w)
         (<["01_dts_audit.txt" :=
              AnchorFix.dts_listing (fs w) +:+ AnchorFix.forbidden_report s]>
            (out (at_guard env w)))).
Proof.
  intros Hs Hf. unfold AnchorFix.shim_guard, mbind, M_bind, get_fs.
  cbn [fs at_guard]. rewrite Hs, Hf.
  unfold append_out, sys_exit. cbn [fs out at_guard].
  by rewrite lookup_insert_eq.
Qed.

Lemma guard_nodecl env w s :
  fs w !! AnchorFix.shim = Some s ->
  Re.matches AnchorFix.forbidden_alt s = false ->
  Re.matches AnchorFix.decl_re s = false ->
  AnchorFix.shim_guard (at_guard env w)
  = Exited 3
      (mkWorld (fs w)
         (<["01_dts_audit.txt" :=
              AnchorFix.dts_listing (fs w) +:+ AnchorFix.nodecl_report s]>
            (out (at_guard env w)))).
Proof.
  intros Hs Hf Hd. unfold AnchorFix.shim_guard, mbind, M_bind, get_fs.
  cbn [fs at_guard]. rewrite Hs, Hf, Hd.
  unfold append_out, sys_exit. cbn [fs out at_guard negb].
  by rewrite lookup_insert_eq.
Qed.

Lemma guard_absent env w :
  fs w !! AnchorFix.shim = None ->
  AnchorFix.shim_guard (at_guard env w) = Ok tt (at_guard env w).
Proof.
  intros Hs. unfold AnchorFix.shim_guard, mbind, M_bind, get_fs.
  cbn [fs at_guard]. by rewrite Hs.
Qed.

End RunFacts.



(** What the guard writes on the two concrete shims. *)
Lemma guard_reports_on_examples :
  AnchorFix.forbidden_report shim_window
    = "ERROR: forbidden content in /workspaces/Firsttry/atlassian/forge-app/src/types/forge-shims.d.ts"
      +:+ NL +:+ shim_window +:+ NL
  /\ Re.matches AnchorFix.forbidden_alt shim_empty = false
  /\ Re.matches AnchorFix.decl_re shim_empty = false
  /\ exists w',
       AnchorFix.main (env_printing output_10_20) argv_anchor_fix (world_shim shim_empty)
         = Exited 3 w'
       /\ fs w' = fs (world_shim shim_empty).
Proof.
  split; [vm_compute; reflexivity|]. split; [vm_compute; reflexivity|].
  split; [vm_compute; reflexivity|]. eexists. split; vm_compute; reflexivity.
Qed.

Module StageFacts.

(** Stages 2 to 5 in closed form. *)
Lemma after_guard_spec env w :
  AnchorFix.after_guard env w
  = if fst (result_4b env w)
    then Ok tt (mkWorld (AnchorFix.b_fs (snd (result_4b env w))) (out_5 env w))
    else Raised (mkWorld (AnchorFix.b_fs (snd (result_4b env w))) (out_4a env w)).
Proof.
  unfold AnchorFix.after_guard, mbind, M_bind, get_fs, write_out, read_out.
  cbn [fs out]. rewrite lookup_insert_eq.
  unfold AnchorFix.stage_4a, mbind, M_bind, get_fs. cbn [fs out].
  fold (checker_lines env w).
  unfold out_5, out_4a, result_4b, result_4a.
  destruct (AnchorFix.loop_4a _ (fs w)) as [src' removed] eqn:E4a.
  unfold put_fs, write_out, mbind, M_bind. cbn [fs out fst snd].
  unfold AnchorFix.stage_4b, mbind, M_bind, get_fs. cbn [fs out].
  destruct (AnchorFix.loop_4b _ 0 _) as [ok st] eqn:E4b.
  unfold put_fs, write_out, raise, mbind, M_bind. cbn [fs out fst snd].
  destruct ok; cbn [fs out]; [|reflexivity].
  by rewrite lookup_insert_eq.
Qed.




End StageFacts.

Lemma final_after_guard_4a env w :
  out (final (AnchorFix.after_guard env w)) !! "03_anchors_before.txt"
    = Some (Py.join NL (firstn 200 (checker_lines env w)))
  /\ out (final (AnchorFix.after_guard env w)) !! "04a_ts2578.txt"
     = Some (Py.join NL (map AnchorFix.removed_line (snd (result_4a env w))))
  /\ out (final (AnchorFix.after_guard env w)) !! "typecheck_before.txt"
     = Some (type_check env (fs w)).
Proof.
  rewrite StageFacts.after_guard_spec.
  destruct (fst (result_4b env w)); cbn [final out]; unfold out_5, out_4a;
    repeat split;
    repeat (first [rewrite lookup_insert_eq; reflexivity
                  | rewrite lookup_insert_ne by discriminate]).
Qed.



(** On that output the anchors for lines 1 to 20 are within the cap
    (the hit for line 19 finds the directive that line 20 carried
    before line 10 was removed); the anchor for line 21 is not acted
    on. *)
Lemma cap_example :
  snd (result_4a (env_printing output_21) world_21)
    = [("src/a.ts", 10); ("src/a.ts", 19)]
  /\ In ("src/a.ts", 21)
       (omap parse_2578 (checker_lines (env_printing output_21) world_21))
  /\ ~ In ("src/a.ts", 21)
         (AnchorFix.hits_2578 (checker_lines (env_printing output_21) world_21)).
Proof.
  split; [vm_compute; reflexivity|]. split.
  - vm_compute. tauto.
  - vm_compute. intuition discriminate.
Qed.

(** C10: without a shim file the guard does nothing.  The run goes on
    with stages 2 to 5 from the world in which only the status and the
    listing of declaration files were written; it cannot end in
    [sys.exit]; the shim is not in the listing, the audit artifact is
    that listing and nothing else, and the artifacts of the checker run
    and of stage 4A exist when the run ends. *)
Theorem C10_no_shim_no_guard (env : Env) (argv : list string) (w : World) :
  (2 <= length argv)%nat ->
  fs w !! AnchorFix.shim = None ->
  AnchorFix.main env argv w = AnchorFix.after_guard env (at_guard env w)
  /\ (AnchorFix.shim ∉ AnchorFix.glob_dts (fs w))
  /\ (forall code w', AnchorFix.main env argv w <> Exited code w')
  /\ out (final (AnchorFix.main env argv w)) !! "01_dts_audit.txt"
     = Some (AnchorFix.dts_listing (fs w))
  /\ out (final (AnchorFix.main env argv w)) !! "typecheck_before.txt"
     = Some (type_check env (fs w))
  /\ out (final (AnchorFix.main env argv w)) !! "04a_ts2578.txt"
     = Some (Py.join NL (map AnchorFix.removed_line (snd (result_4a env w)))).
Proof.
  intros Hargv Hshim.
  assert (Hmain : AnchorFix.main env argv w = AnchorFix.after_guard env (at_guard env w)).
  { rewrite RunFacts.main_to_guard by done. by rewrite RunFacts.guard_absent. }
  split; [exact Hmain|]. split; [|split; [|split; [|split]]].
  - unfold AnchorFix.glob_dts. intros Hin.
    apply list_elem_of_In, filter_In in Hin as [Hin _].
    apply list_elem_of_In, list_elem_of_fmap in Hin as ([p v] & Hp & Hin).
    simpl in Hp. subst p. apply elem_of_map_to_list in Hin. congruence.
  - intros code w'. rewrite Hmain, StageFacts.after_guard_spec.
    by destruct (fst (result_4b env (at_guard env w))).
  - rewrite Hmain, StageFacts.after_guard_spec.
    destruct (fst (result_4b env (at_guard env w))); cbn [final out];
      unfold out_5, out_4a, at_guard; cbn [out];
      repeat (first [rewrite lookup_insert_eq; reflexivity
                    | rewrite lookup_insert_ne by discriminate]).
  - rewrite Hmain. apply (final_after_guard_4a env (at_guard env w)).
  - rewrite Hmain. apply (final_after_guard_4a env (at_guard env w)).
Qed.

Lemma C10_witness :
  (2 <= length argv_anchor_fix)%nat
  /\ fs world_21 !! AnchorFix.shim = None
  /\ AnchorFix.main (env_printing output_10_20) argv_anchor_fix world_21
     = AnchorFix.after_guard (env_printing output_10_20)
         (at_guard (env_printing output_10_20) world_21).
Proof.
  assert (H1 : (2 <= length argv_anchor_fix)%nat) by (simpl; lia).
  assert (H2 : fs world_21 !! AnchorFix.shim = None) by (vm_compute; reflexivity).
  split; [exact H1|]. split; [exact H2|].
  exact (proj1 (C10_no_shim_no_guard (env_printing output_10_20)
                  argv_anchor_fix world_21 H1 H2)).
Defined.

(** * The claim about the missing-import insertion *)

Module InsertFacts.
Import PyFacts.

Lemma prefix_spec p s :
  String.prefix p s = true <-> exists y, s = p +:+ y.
Proof.
  revert s. induction p as [|a p IH]; intros s.
  - split; [|by destruct s]. intros _. by exists s.
  - destruct s as [|b s].
    + split; [discriminate|]. intros [y Hy]. discriminate.
    + rewrite ResolveFacts.prefix_cons. destruct (ascii_dec a b) as [->|Hab].
      * rewrite IH. split; intros [y Hy]; exists y.
        -- rewrite str_app_cons. by rewrite Hy.
        -- rewrite str_app_cons in Hy. congruence.
      * split; [discriminate|]. intros [y Hy].
        rewrite str_app_cons in Hy. congruence.
Qed.

Lemma contains_spec sub s :
  Py.contains sub s = true <-> exists x y, s = x +:+ sub +:+ y.
Proof.
  induction s as [|c s IH].
  - change (Py.contains sub EmptyString) with (String.prefix sub EmptyString || false).
    rewrite orb_false_r, prefix_spec. split.
    + intros [y Hy]. by exists EmptyString, y.
    + intros ([|d x] & y & Hxy); [by exists y|discriminate].
  - change (Py.contains sub (String c s))
      with (String.prefix sub (String c s) || Py.contains sub s).
    rewrite orb_true_iff, prefix_spec, IH. split.
    + intros [[y Hy]|(x & y & ->)].
      * by exists EmptyString, y.
      * by exists (String c x), y.
    + intros ([|d x] & y & Hxy).
      * left. by exists y.
      * right. rewrite str_app_cons in Hxy. exists x, y. congruence.
Qed.

Lemma contains_trans a b c :
  Py.contains a b = true -> Py.contains b c = true -> Py.contains a c = true.
Proof.
  rewrite !contains_spec. intros (x & y & ->) (x' & y' & ->).
  exists (x' +:+ x), (y +:+ y'). by rewrite !str_app_assoc.
Qed.

Lemma scan_imports_spec ls i last :
  (MechFix.scan_imports i last ls = last
   /\ forall j l, ls !! j = Some l -> Spec.import_line l = false)
  \/ (exists j l,
        MechFix.scan_imports i last ls = i + Z.of_nat j
        /\ ls !! j = Some l /\ Spec.import_line l = true
        /\ forall j' l', (j < j')%nat -> ls !! j' = Some l' ->
             Spec.import_line l' = false).
Proof.
  revert i last. induction ls as [|l0 ls IH]; intros i last.
  - left. split; [done|]. intros j l Hj. by rewrite lookup_nil in Hj.
  - simpl. fold (Spec.import_line l0).
    destruct (IH (i + 1) (if Spec.import_line l0 then i else last))
      as [[Hr Hno]|(j & l & Hr & Hj & Hl & Hmax)].
    + destruct (Spec.import_line l0) eqn:E0.
      * right. exists 0%nat, l0. rewrite Hr. repeat split; [lia|done..|].
        intros [|j'] l' Hlt Hl'; [lia|]. by apply (Hno j').
      * left. split; [done|]. intros [|j] l Hl; [by simplify_eq/=|]. by apply (Hno j).
    + right. exists (S j), l. rewrite Hr. repeat split; [lia|done..|].
      intros [|j'] l' Hlt Hl'; [lia|]. apply (Hmax j'); [lia|done].
Qed.

(** [last_import] is the index the specification describes. *)
Lemma last_import_found lines k :
  Spec.last_import_at lines k -> MechFix.last_import lines = Z.of_nat k.
Proof.
  intros (Hk & (l & Hl & Himp) & Hmax). unfold MechFix.last_import.
  assert (Hin : firstn 80 lines !! k = Some l) by by rewrite lookup_take_lt.
  destruct (scan_imports_spec (firstn 80 lines) 0 (-1))
    as [[_ Hno]|(j & l' & -> & Hj & Hl' & Hjmax)].
  - specialize (Hno k l Hin). congruence.
  - assert (Hj80 : (j < 80)%nat).
    { apply lookup_lt_Some in Hj. rewrite length_take in Hj. lia. }
    rewrite lookup_take_lt in Hj by done.
    destruct (lt_eq_lt_dec j k) as [[Hlt | Heq] | Hgt]; [|subst j; lia|].
    + specialize (Hjmax k l Hlt Hin). congruence.
    + specialize (Hmax j l' ltac:(lia) Hj). congruence.
Qed.

Lemma last_import_none lines :
  Spec.no_import lines -> MechFix.last_import lines = -1.
Proof.
  intros Hno. unfold MechFix.last_import.
  destruct (scan_imports_spec (firstn 80 lines) 0 (-1))
    as [[Hr _]|(j & l' & _ & Hj & Hl' & _)]; [done|].
  assert (Hj80 : (j < 80)%nat).
  { apply lookup_lt_Some in Hj. rewrite length_take in Hj. lia. }
  rewrite lookup_take_lt in Hj by done.
  specialize (Hno j l' Hj80 Hj). congruence.
Qed.

Lemma react_import_has_marker :
  Py.contains "import React" FixTsx.react_import = true.
Proof. vm_compute. reflexivity. Qed.

Lemma view_import_has_marker :
  Py.contains ("from " +:+ DQ +:+ "@forge/ui" +:+ DQ) FixTsx.view_import = true.
Proof. vm_compute. reflexivity. Qed.

End InsertFacts.

(** When the last import line is the last line of the file and has no
    line end, the statement follows it on the same line. *)
Lemma ensure_import_after_unterminated_line :
  MechFix.ensure_import "import a" MechFix.react_import
  = "import a" +:+ MechFix.react_import +:+ NL.
Proof. vm_compute. reflexivity. Qed.

(** C9 fails on [fix_tsx.py]: its two blocks put the statement at the
    very top of the file whether or not the file has import lines.  On
    a module whose first line is an import, [fix_tsx.py] writes the
    React import before that line; [ensure_import] of [mech_fix.py]
    writes it after. *)
Lemma C9_fix_tsx_inserts_above_imports :
  Spec.last_import_at (Py.splitlines_keepends text_one_import) 0
  /\ Py.contains FixTsx.react_import text_one_import = false
  /\ FixTsx.fix_text text_one_import = FixTsx.react_import +:+ NL +:+ text_one_import
  /\ FixTsx.fix_text text_one_import
     <> Spec.inserted_after (Py.splitlines_keepends text_one_import) 0 FixTsx.react_import
  /\ MechFix.ensure_import text_one_import MechFix.react_import
     = Spec.inserted_after (Py.splitlines_keepends text_one_import) 0 MechFix.react_import.
Proof.
  split; [|split; [|split; [|split]]].
  - split; [lia|]. split.
    + eexists. split; vm_compute; reflexivity.
    + intros [|[|j]] l' Hj; [lia| |].
      * vm_compute. by intros [= <-].
      * vm_compute. discriminate.
  - vm_compute. reflexivity.
  - vm_compute. reflexivity.
  - vm_compute. discriminate.
  - vm_compute. reflexivity.
Qed.

(** C9, amended.  [ensure_import] of [mech_fix.py]: a text in which the
    statement occurs is returned as it is; otherwise the statement and
    a line end are inserted right after the last of the first 80 lines
    that starts with [import ], or before the whole text when none of
    them does.  [fix_tsx.py]: each block either leaves the text
    alone or puts its statement before the whole text, and leaves the
    text alone when the statement occurs in it. *)
Theorem C9_import_insertion (txt stmt : string) :
  (Py.contains stmt txt = true -> MechFix.ensure_import txt stmt = txt)
  /\ (Py.contains stmt txt = false ->
      (forall k, Spec.last_import_at (Py.splitlines_keepends txt) k ->
         MechFix.ensure_import txt stmt
         = Spec.inserted_after (Py.splitlines_keepends txt) k stmt)
      /\ (Spec.no_import (Py.splitlines_keepends txt) ->
          MechFix.ensure_import txt stmt = (stmt +:+ NL) +:+ txt))
  /\ (FixTsx.add_react txt = txt
      \/ FixTsx.add_react txt = FixTsx.react_import +:+ NL +:+ txt)
  /\ (FixTsx.add_view txt = txt
      \/ FixTsx.add_view txt = FixTsx.view_import +:+ NL +:+ txt)
  /\ (Py.contains FixTsx.react_import txt = true -> FixTsx.add_react txt = txt)
  /\ (Py.contains FixTsx.view_import txt = true -> FixTsx.add_view txt = txt).
Proof.
  split; [|split; [|split; [|split; [|split]]]].
  - intros H. unfold MechFix.ensure_import. by rewrite H.
  - intros H. unfold MechFix.ensure_import. rewrite H. split.
    + intros k Hk. rewrite (InsertFacts.last_import_found _ k Hk).
      destruct (0 <=? Z.of_nat k) eqn:E; [|apply Z.leb_gt in E; lia].
      replace (Z.to_nat (Z.of_nat k + 1)) with (S k) by lia.
      unfold Py.insert_at, Spec.inserted_after.
      by rewrite PyFacts.join_app, PyFacts.join_cons.
    + intros Hno. rewrite (InsertFacts.last_import_none _ Hno).
      change (0 <=? -1) with false. cbv iota.
      unfold Py.insert_at. rewrite firstn_O, skipn_O. simpl app.
      by rewrite PyFacts.join_cons, PyFacts.join_splitlines_keepends.
  - unfold FixTsx.add_react. destruct (_ && _); [by right|by left].
  - unfold FixTsx.add_view. destruct (_ && _); [by right|by left].
  - intros H. unfold FixTsx.add_react.
    rewrite (InsertFacts.contains_trans _ _ _ InsertFacts.react_import_has_marker H).
    reflexivity.
  - intros H. unfold FixTsx.add_view.
    rewrite (InsertFacts.contains_trans _ _ _ InsertFacts.view_import_has_marker H).
    simpl. by rewrite andb_false_r.
Qed.


(** * Further properties of the scripts *)

(** ** [mech_fix.py]: [ensure_import] *)

Module EnsureImportFacts.
Import PyFacts.

Lemma contains_app_r sub a b :
  Py.contains sub b = true -> Py.contains sub (a +:+ b) = true.
Proof.
  rewrite !InsertFacts.contains_spec. intros (x & y & ->).
  exists (a +:+ x), y. by rewrite str_app_assoc.
Qed.

Lemma contains_app_l sub a b :
  Py.contains sub a = true -> Py.contains sub (a +:+ b) = true.
Proof.
  rewrite !InsertFacts.contains_spec. intros (x & y & ->).
  exists x, (y +:+ b). by rewrite !str_app_assoc.
Qed.

Lemma contains_refl s : Py.contains s s = true.
Proof.
  apply InsertFacts.contains_spec. exists EmptyString, EmptyString.
  by rewrite str_app_nil_r.
Qed.

Lemma join_take_drop k (ls : list string) :
  Py.join EmptyString (firstn k ls) +:+ Py.join EmptyString (skipn k ls)
  = Py.join EmptyString ls.
Proof. by rewrite <- join_app, firstn_skipn. Qed.

(** Where [ensure_import] inserts, as an index into the lines. *)
Lemma ensure_import_at txt stmt :
  Py.contains stmt txt = false ->
  exists k,
    MechFix.ensure_import txt stmt
    = Py.join EmptyString (firstn k (Py.splitlines_keepends txt))
      +:+ (stmt +:+ NL)
      +:+ Py.join EmptyString (skipn k (Py.splitlines_keepends txt)).
Proof.
  intros H. unfold MechFix.ensure_import. rewrite H.
  destruct (0 <=? MechFix.last_import _);
    eexists; unfold Py.insert_at; by rewrite join_app, join_cons.
Qed.

End EnsureImportFacts.

(** X1.  After [ensure_import] the statement occurs in the text, so a
    second call with the same statement changes nothing. *)
Theorem X1_ensure_import_idempotent (txt stmt : string) :
  Py.contains stmt (MechFix.ensure_import txt stmt) = true
  /\ MechFix.ensure_import (MechFix.ensure_import txt stmt) stmt
     = MechFix.ensure_import txt stmt.
Proof.
  assert (H : Py.contains stmt (MechFix.ensure_import txt stmt) = true).
  { destruct (Py.contains stmt txt) eqn:E.
    - unfold MechFix.ensure_import. by rewrite E.
    - destruct (EnsureImportFacts.ensure_import_at txt stmt E) as [k ->].
      apply EnsureImportFacts.contains_app_r, EnsureImportFacts.contains_app_l.
      apply EnsureImportFacts.contains_app_l, EnsureImportFacts.contains_refl. }
  split; [exact H|]. unfold MechFix.ensure_import at 1. by rewrite H.
Qed.

(** X2.  An insertion loses nothing: the text is cut at a line boundary
    and the statement, with a line end, is put between the two parts. *)
Theorem X2_ensure_import_keeps_text (txt stmt : string) :
  Py.contains stmt txt = false ->
  exists k,
    let before := Py.join EmptyString (firstn k (Py.splitlines_keepends txt)) in
    let after := Py.join EmptyString (skipn k (Py.splitlines_keepends txt)) in
    txt = before +:+ after
    /\ MechFix.ensure_import txt stmt = before +:+ (stmt +:+ NL) +:+ after
    /\ String.length (MechFix.ensure_import txt stmt)
       = (String.length txt + String.length stmt + 1)%nat.
Proof.
  intros H. destruct (EnsureImportFacts.ensure_import_at txt stmt H) as [k Hk].
  exists k. cbv zeta.
  assert (Htxt : txt = Py.join EmptyString (firstn k (Py.splitlines_keepends txt))
                       +:+ Py.join EmptyString (skipn k (Py.splitlines_keepends txt))).
  { by rewrite EnsureImportFacts.join_take_drop, PyFacts.join_splitlines_keepends. }
  split; [exact Htxt|]. split; [exact Hk|].
  rewrite Hk. rewrite Htxt at 3. rewrite !PyFacts.str_length_app. simpl. lia.
Qed.

Lemma X2_witness :
  Py.contains MechFix.react_import text_one_import = false
  /\ exists k,
       let before := Py.join EmptyString
                       (firstn k (Py.splitlines_keepends text_one_import)) in
       let after := Py.join EmptyString
                      (skipn k (Py.splitlines_keepends text_one_import)) in
       text_one_import = before +:+ after
       /\ MechFix.ensure_import text_one_import MechFix.react_import
          = before +:+ (MechFix.react_import +:+ NL) +:+ after
       /\ String.length (MechFix.ensure_import text_one_import MechFix.react_import)
          = (String.length text_one_import + String.length MechFix.react_import + 1)%nat.
Proof.
  assert (H : Py.contains MechFix.react_import text_one_import = false)
    by (vm_compute; reflexivity).
  split; [exact H|].
  exact (X2_ensure_import_keeps_text text_one_import MechFix.react_import H).
Defined.

(** ** [fix_tsx.py] *)

Module FixTsxFacts.
Import PyFacts.

Lemma add_react_unfold t :
  FixTsx.add_react t
  = if has_react t then t else FixTsx.react_import +:+ NL +:+ t.
Proof.
  unfold FixTsx.add_react, has_react.
  by destruct (Py.contains "import React" t), (Py.contains _ t), (Py.contains _ t).
Qed.

Lemma add_view_unfold t :
  FixTsx.add_view t
  = if uses_view t && negb (has_ui t) then FixTsx.view_import +:+ NL +:+ t else t.
Proof.
  unfold FixTsx.add_view, uses_view, has_ui.
  by rewrite negb_orb.
Qed.

Lemma has_react_prepend a t : has_react t = true -> has_react (a +:+ t) = true.
Proof.
  unfold has_react. rewrite !orb_true_iff.
  intros [[H|H]|H]; [left; left|left; right|right];
    by apply EnsureImportFacts.contains_app_r.
Qed.

Lemma has_ui_prepend a t : has_ui t = true -> has_ui (a +:+ t) = true.
Proof.
  unfold has_ui. rewrite !orb_true_iff.
  intros [H|H]; [left|right]; by apply EnsureImportFacts.contains_app_r.
Qed.

Lemma has_react_add_react t : has_react (FixTsx.add_react t) = true.
Proof.
  rewrite add_react_unfold. destruct (has_react t) eqn:E; [done|].
  unfold has_react. apply orb_true_iff. left. apply orb_true_iff. left.
  apply EnsureImportFacts.contains_app_l. vm_compute. reflexivity.
Qed.

Lemma has_ui_view_import t : has_ui (FixTsx.view_import +:+ NL +:+ t) = true.
Proof.
  unfold has_ui. apply orb_true_iff. left.
  apply EnsureImportFacts.contains_app_l. vm_compute. reflexivity.
Qed.

Lemma has_react_fix_text t : has_react (FixTsx.fix_text t) = true.
Proof.
  unfold FixTsx.fix_text. rewrite add_view_unfold.
  destruct (_ && _); [apply has_react_prepend|]; apply has_react_add_react.
Qed.

Lemma fix_text_idempotent t :
  FixTsx.fix_text (FixTsx.fix_text t) = FixTsx.fix_text t.
Proof.
  unfold FixTsx.fix_text at 1.
  rewrite (add_react_unfold (FixTsx.fix_text t)), has_react_fix_text.
  unfold FixTsx.fix_text. rewrite (add_view_unfold (FixTsx.add_react t)).
  destruct (uses_view _ && negb (has_ui _)) eqn:E.
  - rewrite add_view_unfold, has_ui_view_import. by rewrite andb_false_r.
  - by rewrite add_view_unfold, E.
Qed.

End FixTsxFacts.

(** X3.  [fix_tsx.py] is idempotent: on its own output the text
    transformation is the identity, and a second run of the script
    ends in the world the first run ended in. *)
Theorem X3_fix_tsx_idempotent (argv : list string) (p : Path) (txt : string) (w : World) :
  FixTsx.fix_text (FixTsx.fix_text txt) = FixTsx.fix_text txt
  /\ final (FixTsx.main argv p (final (FixTsx.main argv p w)))
     = final (FixTsx.main argv p w).
Proof.
  split; [apply FixTsxFacts.fix_text_idempotent|].
  unfold FixTsx.main. destruct (length argv <? 2)%nat; [done|].
  destruct w as [src o].
  unfold mbind, M_bind, get_fs, sys_exit, put_fs, mret, M_ret. cbn [fs out].
  destruct (src !! p) as [t|] eqn:Hp; cbn [final fs out].
  - destruct (negb (String.eqb (FixTsx.fix_text t) t)) eqn:E; cbn [final fs out].
    + rewrite lookup_insert_eq, FixTsxFacts.fix_text_idempotent.
      by rewrite String.eqb_refl.
    + by rewrite Hp, E.
  - by rewrite Hp.
Qed.

(** ** [remove_ts_expect.py] *)

Module RteFacts.

Lemma removable_delete_above lines n x :
  (n < length lines)%nat -> x <= Z.of_nat n ->
  removable (delete n lines) x = removable lines x.
Proof.
  intros Hn Hx. unfold removable.
  destruct (0 <=? x - 1) eqn:E0; [|done]. apply Z.leb_le in E0.
  rewrite length_delete by (by apply lookup_lt_is_Some_2).
  assert (Hlt : (Z.to_nat (x - 1) < n)%nat) by lia.
  rewrite !nth_lookup, list_lookup_delete_lt by done.
  destruct (x - 1 <? Z.of_nat (length lines - 1)) eqn:E1,
           (x - 1 <? Z.of_nat (length lines)) eqn:E2; try done.
  - apply Z.ltb_lt in E1. apply Z.ltb_ge in E2. lia.
  - apply Z.ltb_ge in E1. apply Z.ltb_lt in E2. lia.
Qed.

(** The log of a descending pass: the anchors whose line of the list
    it starts from carries the directive. *)
Lemma pop_fold_log D :
  descending D -> forall lines acc,
  snd (fold_left RemoveTsExpect.pop_step D (lines, acc))
  = acc ++ List.filter (removable lines) D.
Proof.
  induction 1 as [|d D Hs IH Hall]; intros lines acc.
  - simpl. by rewrite app_nil_r.
  - simpl. destruct (removable lines d) eqn:E.
    + rewrite IH, <- app_assoc. simpl. do 2 f_equal.
      apply DescendingFacts.removable_spec in E as (n & l & -> & Hl & _).
      replace (Z.to_nat (Z.of_nat (S n) - 1)) with n by lia.
      apply filter_ext_in. intros x Hx.
      eapply Forall_forall in Hall; [|by apply list_elem_of_In].
      simpl in Hall. unfold Py.pop.
      apply removable_delete_above; [by eapply lookup_lt_Some|lia].
    + by rewrite IH.
Qed.

Lemma filter_nil_false {A} (f : A -> bool) l x :
  List.filter f l = [] -> x ∈ l -> f x = false.
Proof.
  induction l as [|a l IH]; simpl; intros Hf Hx.
  - by apply elem_of_nil in Hx.
  - destruct (f a) eqn:E; [discriminate|].
    apply elem_of_cons in Hx as [->|Hx]; auto.
Qed.

Lemma descending_NoDup D : descending D -> NoDup D.
Proof.
  induction 1 as [|d D Hs IH Hall]; constructor; [|done].
  intros Hin. eapply Forall_forall in Hall; [|exact Hin]. simpl in Hall. lia.
Qed.

(** [sorted(set(lines), reverse=True)] depends on the set only. *)
Lemma sorted_set_desc_ext A B :
  (forall x, x ∈ A <-> x ∈ B) ->
  RemoveTsExpect.sorted_set_desc A = RemoveTsExpect.sorted_set_desc B.
Proof.
  intros H.
  apply (StronglySorted_unique_strong (fun x y : Z => y < x)).
  - intros x1 x2 _ _ H1 H2. lia.
  - apply DescendingFacts.sorted_set_desc_descending.
  - apply DescendingFacts.sorted_set_desc_descending.
  - apply NoDup_Permutation.
    + apply descending_NoDup, DescendingFacts.sorted_set_desc_descending.
    + apply descending_NoDup, DescendingFacts.sorted_set_desc_descending.
    + intros x. by rewrite !RemovalFacts.elem_of_sorted_set_desc.
Qed.

Lemma keyed_byfile_add_other h f l g :
  String.eqb f h = false ->
  keyed h (RemoveTsExpect.byfile_add f l g) = keyed h g.
Proof.
  intros Hne. induction g as [|[k ls] g IH]; simpl.
  - by rewrite Hne.
  - destruct (String.eqb f k) eqn:E; simpl.
    + apply String.eqb_eq in E as <-. by rewrite Hne.
    + by rewrite IH.
Qed.

Lemma keyed_byfile_add_same f l g :
  keyed f (RemoveTsExpect.byfile_add f l g)
  = match keyed f g with
    | [] => [(f, [l])]
    | (k, ls) :: rest => (k, ls ++ [l]) :: rest
    end.
Proof.
  induction g as [|[k ls] g IH]; simpl.
  - by rewrite String.eqb_refl.
  - destruct (String.eqb f k) eqn:E; simpl.
    + rewrite String.eqb_sym, E. done.
    + rewrite String.eqb_sym, E. exact IH.
Qed.

Lemma lines_of_snoc h f l hits :
  lines_of h (hits ++ [(f, l)])
  = lines_of h hits ++ (if String.eqb f h then [l] else []).
Proof.
  unfold lines_of. rewrite List.filter_app, map_app. simpl.
  by destruct (String.eqb f h).
Qed.

End RteFacts.

Lemma rte_fix_text_is_remove_marked (A : list Z) (text : string) :
  fst (RemoveTsExpect.fix_text A text)
  = Py.join EmptyString (Spec.remove_marked A (Py.splitlines_keepends text)).
Proof.
  unfold RemoveTsExpect.fix_text.
  pose proof (DescendingFacts.rte_removes_anchored_lines A
                (Py.splitlines_keepends text)) as Hfst.
  pose proof (RteFacts.pop_fold_log _
                (DescendingFacts.sorted_set_desc_descending A)
                (Py.splitlines_keepends text) []) as Hsnd.
  unfold RemoveTsExpect.pop_loop in *.
  destruct (fold_left RemoveTsExpect.pop_step _ _) as [txt popped] eqn:E.
  simpl in Hfst, Hsnd. destruct popped as [|x popped]; simpl.
  - rewrite <- Hfst.
    rewrite RemovalFacts.pop_fold_none in E.
    + injection E as <-. by rewrite PyFacts.join_splitlines_keepends.
    + intros d Hd. simpl. by eapply RteFacts.filter_nil_false.
  - by rewrite Hfst.
Qed.

(** X4.  The text [remove_ts_expect.py] leaves of a file is the text of
    the unmodified file without its anchored lines that carry the
    directive: no removal shifts the target of another one. *)
Theorem X4_rte_text (A : list Z) (text : string) :
  fst (RemoveTsExpect.fix_text A text)
  = Py.join EmptyString (Spec.remove_marked A (Py.splitlines_keepends text)).
Proof. apply rte_fix_text_is_remove_marked. Qed.

(** X5.  The lines it logs as removed are, from the highest to the
    lowest and each once, the anchored lines that carry the directive
    in the unmodified file. *)
Theorem X5_rte_log (A : list Z) (text : string) :
  snd (RemoveTsExpect.fix_text A text)
    = List.filter (removable (Py.splitlines_keepends text))
        (RemoveTsExpect.sorted_set_desc A)
  /\ descending (RemoveTsExpect.sorted_set_desc A)
  /\ (forall x, x ∈ RemoveTsExpect.sorted_set_desc A <-> x ∈ A).
Proof.
  split; [|split].
  - unfold RemoveTsExpect.fix_text.
    pose proof (RteFacts.pop_fold_log _
                  (DescendingFacts.sorted_set_desc_descending A)
                  (Py.splitlines_keepends text) []) as Hsnd.
    unfold RemoveTsExpect.pop_loop.
    destruct (fold_left RemoveTsExpect.pop_step _ _) as [txt popped].
    simpl in Hsnd. rewrite <- Hsnd. by destruct popped.
  - apply DescendingFacts.sorted_set_desc_descending.
  - intros x. apply RemovalFacts.elem_of_sorted_set_desc.
Qed.

(** X6.  Only the set of anchored lines matters: two anchor lists with
    the same elements, in any order and multiplicity, give the same
    text and the same log. *)
Theorem X6_rte_anchor_set_only (A B : list Z) (text : string) :
  (forall x, x ∈ A <-> x ∈ B) ->
  RemoveTsExpect.fix_text A text = RemoveTsExpect.fix_text B text.
Proof.
  intros H. unfold RemoveTsExpect.fix_text.
  by rewrite (RteFacts.sorted_set_desc_ext A B H).
Qed.

Lemma X6_witness :
  (forall x, x ∈ [10; 20; 10] <-> x ∈ [20; 10])
  /\ RemoveTsExpect.fix_text [10; 20; 10] (text_of lines_21)
     = RemoveTsExpect.fix_text [20; 10] (text_of lines_21).
Proof.
  assert (H : forall x : Z, x ∈ [10; 20; 10] <-> x ∈ [20; 10]).
  { intros x. rewrite !elem_of_cons, !elem_of_nil. tauto. }
  split; [exact H|].
  exact (X6_rte_anchor_set_only [10; 20; 10] [20; 10] (text_of lines_21) H).
Defined.

Lemma group_byfile_keyed (hits : list (string * Z)) (f : string) :
  keyed f (RemoveTsExpect.group_byfile hits)
  = match lines_of f hits with
    | [] => []
    | ls => [(f, ls)]
    end.
Proof.
  unfold RemoveTsExpect.group_byfile.
  induction hits as [|[g l] hits IH] using rev_ind; [done|].
  rewrite fold_left_app. simpl. rewrite RteFacts.lines_of_snoc.
  destruct (String.eqb g f) eqn:E.
  - apply String.eqb_eq in E as ->.
    rewrite RteFacts.keyed_byfile_add_same, IH.
    by destruct (lines_of f hits).
  - rewrite RteFacts.keyed_byfile_add_other by done.
    rewrite IH, app_nil_r. done.
Qed.

(** X7.  The grouping of lines 20-22 holds, for every file name among
    the hits, exactly one entry, with the lines of that file in the
    order of the hits; it holds no entry for other names. *)
Theorem X7_group_byfile (hits : list (string * Z)) (f : string) :
  keyed f (RemoveTsExpect.group_byfile hits)
  = match lines_of f hits with
    | [] => []
    | ls => [(f, ls)]
    end.
Proof. apply group_byfile_keyed. Qed.

Module FileLoopFacts.

Lemma fix_text_unchanged lines text :
  snd (RemoveTsExpect.fix_text lines text) = [] ->
  fst (RemoveTsExpect.fix_text lines text) = text.
Proof.
  unfold RemoveTsExpect.fix_text.
  destruct (RemoveTsExpect.pop_loop _ _) as [txt popped].
  by destruct popped.
Qed.

Lemma file_step_lookup st e p :
  fst (RemoveTsExpect.file_step st e) !! p
  = if bool_decide (entry_path e = p)
    then (fun t => fst (RemoveTsExpect.fix_text (snd e) t)) <$> fst st !! p
    else fst st !! p.
Proof.
  destruct st as [src removed], e as [f lines].
  unfold RemoveTsExpect.file_step, entry_path. cbn [fst snd].
  set (q := Pathlib.joinpath RemoveTsExpect.root f).
  destruct (src !! q) as [text|] eqn:Hq.
  - pose proof (fix_text_unchanged lines text) as Hsame.
    destruct (RemoveTsExpect.fix_text lines text) as [text' popped] eqn:Efix.
    cbn [fst snd] in *. destruct popped as [|x popped]; cbn [fst].
    + case_bool_decide as Hp; [|done]. subst p. rewrite Hq.
      cbn [fmap option_fmap option_map]. rewrite Efix. cbn [fst].
      by rewrite Hsame.
    + case_bool_decide as Hp.
      * subst p. rewrite lookup_insert_eq, Hq.
        cbn [fmap option_fmap option_map]. by rewrite Efix.
      * by rewrite lookup_insert_ne.
  - case_bool_decide as Hp; [|done]. subst p. by rewrite Hq.
Qed.

(** The text of each file after the loop depends on the entries that
    name it only. *)
Lemma file_loop_lookup g src acc p :
  fst (fold_left RemoveTsExpect.file_step g (src, acc)) !! p
  = rte_text (entries_for p g) <$> src !! p.
Proof.
  revert src acc. induction g as [|e g IH]; intros src acc.
  - simpl. by destruct (src !! p).
  - change (fold_left RemoveTsExpect.file_step (e :: g) (src, acc))
      with (fold_left RemoveTsExpect.file_step g (RemoveTsExpect.file_step (src, acc) e)).
    pose proof (file_step_lookup (src, acc) e p) as Hstep.
    destruct (RemoveTsExpect.file_step (src, acc) e) as [src1 acc1].
    rewrite IH. cbn [fst] in Hstep. rewrite Hstep.
    unfold entries_for. simpl. case_bool_decide; [|done].
    by destruct (src !! p).
Qed.

Lemma elem_of_keyed e g : e ∈ g -> e ∈ keyed (fst e) g.
Proof.
  intros H. unfold keyed. apply list_elem_of_In, filter_In.
  split; [by apply list_elem_of_In|]. apply String.eqb_refl.
Qed.

(** Every key of the grouping is the file name of a hit. *)
Lemma group_key_is_hit hits e :
  e ∈ RemoveTsExpect.group_byfile hits -> fst e ∈ map fst hits.
Proof.
  intros He. apply elem_of_keyed in He. rewrite group_byfile_keyed in He.
  destruct (lines_of (fst e) hits) as [|l ls] eqn:E; [by apply elem_of_nil in He|].
  assert (Hin : In l (lines_of (fst e) hits)) by (rewrite E; left; done).
  unfold lines_of in Hin. apply in_map_iff in Hin as (h & _ & Hh).
  apply filter_In in Hh as [Hh Hk]. apply String.eqb_eq in Hk.
  apply list_elem_of_In, in_map_iff. exists h. split; [done|exact Hh].
Qed.

End FileLoopFacts.

(** X8.  End to end: when [f] is the only name among the hits for its
    file, [remove_ts_expect.py] leaves that file with the text of the
    unmodified file minus the lines that the hits for [f] anchor and
    that carry the directive. *)
Theorem X8_rte_file_loop (hits : list (string * Z)) (src : FS) (f text : string) :
  src !! Pathlib.joinpath RemoveTsExpect.root f = Some text ->
  (forall g, g ∈ map fst hits ->
     Pathlib.joinpath RemoveTsExpect.root g = Pathlib.joinpath RemoveTsExpect.root f ->
     g = f) ->
  fst (RemoveTsExpect.file_loop (RemoveTsExpect.group_byfile hits) src)
    !! Pathlib.joinpath RemoveTsExpect.root f
  = Some (Py.join EmptyString
            (Spec.remove_marked (lines_of f hits) (Py.splitlines_keepends text))).
Proof.
  intros Hf Huniq. unfold RemoveTsExpect.file_loop.
  rewrite FileLoopFacts.file_loop_lookup, Hf. cbn [fmap option_fmap option_map].
  f_equal.
  assert (Hes : entries_for (Pathlib.joinpath RemoveTsExpect.root f)
                  (RemoveTsExpect.group_byfile hits)
                = keyed f (RemoveTsExpect.group_byfile hits)).
  { unfold entries_for, keyed. apply filter_ext_in. intros e He.
    apply list_elem_of_In, FileLoopFacts.group_key_is_hit in He.
    case_bool_decide as Hp.
    - symmetry. apply String.eqb_eq. by apply Huniq.
    - symmetry. apply String.eqb_neq. intros Heq. apply Hp.
      unfold entry_path. by rewrite Heq. }
  rewrite Hes, group_byfile_keyed.
  destruct (lines_of f hits) as [|l ls] eqn:E.
  - simpl. unfold Spec.remove_marked.
    rewrite DescendingFacts.remove_marked_from_below.
    + by rewrite PyFacts.join_splitlines_keepends.
    + intros x Hx. by apply elem_of_nil in Hx.
  - simpl. apply rte_fix_text_is_remove_marked.
Qed.

Lemma X8_witness :
  fs world_21 !! Pathlib.joinpath RemoveTsExpect.root "src/a.ts" = Some (text_of lines_21)
  /\ fst (RemoveTsExpect.file_loop
            (RemoveTsExpect.group_byfile [("src/a.ts", 10); ("src/a.ts", 20)])
            (fs world_21))
       !! Pathlib.joinpath RemoveTsExpect.root "src/a.ts"
     = Some (Py.join EmptyString
               (Spec.remove_marked (lines_of "src/a.ts" [("src/a.ts", 10); ("src/a.ts", 20)])
                  (Py.splitlines_keepends (text_of lines_21)))).
Proof.
  assert (H : fs world_21 !! Pathlib.joinpath RemoveTsExpect.root "src/a.ts"
              = Some (text_of lines_21)) by (vm_compute; reflexivity).
  split; [exact H|].
  apply (X8_rte_file_loop [("src/a.ts", 10); ("src/a.ts", 20)] (fs world_21)
           "src/a.ts" (text_of lines_21) H).
  intros g Hg _. simpl in Hg.
  apply elem_of_cons in Hg as [->|Hg]; [done|].
  apply elem_of_cons in Hg as [->|Hg]; [done|]. by apply elem_of_nil in Hg.
Defined.

(** ** [anchor_fix.py]: stage 4A *)

Module Loop4aFacts.

Lemma loop_4a_dom hits src acc :
  dom (fst (fold_left AnchorFix.step_4a hits (src, acc))) = dom src.
Proof.
  apply set_eq. intros p. rewrite !elem_of_dom, loop_4a_lookup.
  by rewrite fmap_is_Some.
Qed.

End Loop4aFacts.

(** X9.  After stage 4A the text of a file is decided by the hits that
    name that file, taken in the order of the checker output; hits for
    other files do not matter. *)
Theorem X9_stage_4a_per_file (hits hits' : list (string * Z)) (src : FS) (p : Path) :
  fst (AnchorFix.loop_4a hits src) !! p
    = AnchorFix.fix_text (AnchorFix.lines_for p hits) <$> src !! p
  /\ (AnchorFix.lines_for p hits = AnchorFix.lines_for p hits' ->
      fst (AnchorFix.loop_4a hits src) !! p = fst (AnchorFix.loop_4a hits' src) !! p).
Proof.
  unfold AnchorFix.loop_4a. split; [apply loop_4a_lookup|].
  intros H. by rewrite !loop_4a_lookup, H.
Qed.

(** X10.  Stage 4A creates no file and deletes none, and no text gets
    longer. *)
Theorem X10_stage_4a_only_shrinks (hits : list (string * Z)) (src : FS) :
  dom (fst (AnchorFix.loop_4a hits src)) = dom src
  /\ forall (p : Path) (t t' : string), src !! p = Some t ->
       fst (AnchorFix.loop_4a hits src) !! p = Some t' ->
       (String.length t' <= String.length t)%nat.
Proof.
  unfold AnchorFix.loop_4a. split; [apply Loop4aFacts.loop_4a_dom|].
  intros p t t' Ht. rewrite loop_4a_lookup, Ht. intros [= <-].
  apply RemovalFacts.af_fix_text_le.
Qed.

(** ** [anchor_fix.py]: stage 4B *)

Module ReplaceFacts.
Import PyFacts.

Lemma str_drop_app p y : MechFixMain.str_drop (String.length p) (p +:+ y) = y.
Proof.
  induction p as [|c p IH]; [by destruct y|].
  rewrite str_app_cons. simpl. exact IH.
Qed.

Lemma replace_from_same old :
  old <> EmptyString ->
  forall s skip, Py.replace_from old old skip s = MechFixMain.str_drop skip s.
Proof.
  intros Hold s. induction s as [|c s IH]; intros skip.
  - by destruct skip.
  - destruct skip as [|k]; [|apply IH].
    change (Py.replace_from old old 0 (String c s))
      with (if String.prefix old (String c s)
            then old +:+ Py.replace_from old old (String.length old - 1) s
            else String c (Py.replace_from old old 0 s)).
    rewrite !IH.
    destruct (String.prefix old (String c s)) eqn:E; [|done].
    apply InsertFacts.prefix_spec in E as [y Hy].
    destruct old as [|o old]; [done|].
    rewrite str_app_cons in Hy. injection Hy as -> ->.
    change (String.length (String o old) - 1)%nat with (String.length old - 0)%nat.
    rewrite Nat.sub_0_r, str_drop_app. reflexivity.
Qed.

(** Replacing a text by itself changes nothing. *)
Lemma replace_same s old : Py.replace s old old = s.
Proof.
  unfold Py.replace. destruct old as [|o old].
  - simpl. induction s as [|c s IH]; [done|]. simpl. by rewrite IH.
  - by rewrite replace_from_same.
Qed.

(** Replacing a text that does not occur changes nothing. *)
Lemma replace_absent s old new :
  Py.contains old s = false -> Py.replace s old new = s.
Proof.
  intros H. unfold Py.replace. destruct old as [|o old].
  - by destruct s.
  - induction s as [|c s IH]; [done|].
    change (Py.contains (String o old) (String c s))
      with (String.prefix (String o old) (String c s) || Py.contains (String o old) s) in H.
    apply orb_false_iff in H as [Hp Hc].
    change (Py.replace_from (String o old) new 0 (String c s))
      with (if String.prefix (String o old) (String c s)
            then new +:+ Py.replace_from (String o old) new
                           (String.length (String o old) - 1) s
            else String c (Py.replace_from (String o old) new 0 s)).
    rewrite Hp. by rewrite IH.
Qed.

Lemma rewrite_text_same ptext m :
  AnchorFix.rewrite_text ptext m m = ptext.
Proof. unfold AnchorFix.rewrite_text. by rewrite !replace_same. Qed.

Lemma rewrite_text_absent ptext m new :
  Py.contains (AnchorFix.quoted "'" m) ptext = false ->
  Py.contains (AnchorFix.quoted DQ m) ptext = false ->
  AnchorFix.rewrite_text ptext m new = ptext.
Proof.
  intros H1 H2. unfold AnchorFix.rewrite_text.
  rewrite (replace_absent ptext _ _ H1). by apply replace_absent.
Qed.

End ReplaceFacts.

Module AttemptFacts.

(** The rewritten specifier always begins with the relative marker. *)
Lemma new_specifier_relative rel :
  Py.startswith (AnchorFix.new_specifier rel) "." = true.
Proof.
  rewrite ImportFacts.new_specifier_unfold. unfold Spec.mark_relative.
  set (x := Spec.strip_index _).
  destruct (Py.startswith x ".") eqn:E; [exact E|reflexivity].
Qed.

Lemma exists_dom (s1 s2 : FS) (p : Path) :
  dom s1 = dom s2 -> exists_ s1 p = exists_ s2 p.
Proof.
  intros Hd. unfold exists_.
  destruct (s1 !! p) eqn:E1, (s2 !! p) eqn:E2; try done.
  - assert (p ∈ dom s1) by (apply elem_of_dom; by eexists).
    rewrite Hd in H. apply elem_of_dom in H as [? ?]. congruence.
  - assert (p ∈ dom s2) by (apply elem_of_dom; by eexists).
    rewrite <- Hd in H. apply elem_of_dom in H as [? ?]. congruence.
Qed.

(** The resolver looks at the tree only through which paths exist. *)
Lemma resolve_dom (s1 s2 : FS) base m :
  dom s1 = dom s2 -> AnchorFix.resolve s1 base m = AnchorFix.resolve s2 base m.
Proof.
  intros Hd. unfold AnchorFix.resolve.
  destruct (AnchorFix.options _) as [opts|]; [|done]. simpl. f_equal.
  apply ResolveFacts.find_ext. intros x _. by apply exists_dom.
Qed.

Lemma attempt_rewritten src file m src' new :
  AnchorFix.attempt_rewrite src file m = AnchorFix.Rewritten src' new ->
  exists ptext,
    src !! Pathlib.joinpath AnchorFix.root file = Some ptext
    /\ src' = <[Pathlib.joinpath AnchorFix.root file :=
                  AnchorFix.rewrite_text ptext m new]> src
    /\ AnchorFix.rewrite_text ptext m new <> ptext
    /\ Py.startswith new "." = true
    /\ new <> m.
Proof.
  unfold AnchorFix.attempt_rewrite.
  destruct (AnchorFix.resolve _ _ _) as [[e|]|]; [|discriminate..].
  destruct (Pathlib.relative_to _ _) as [rel|]; [|discriminate].
  destruct (src !! _) as [ptext|]; [|discriminate].
  destruct (String.eqb _ ptext) eqn:E; [discriminate|].
  intros [= <- <-]. apply String.eqb_neq in E.
  exists ptext. repeat split; [done|apply new_specifier_relative|].
  intros Heq. apply E. rewrite Heq. apply ReplaceFacts.rewrite_text_same.
Qed.

Lemma attempt_target_missing src file m :
  AnchorFix.attempt_rewrite src file m = AnchorFix.TargetMissing ->
  AnchorFix.resolve src (base_of file) m = Some None.
Proof.
  unfold AnchorFix.attempt_rewrite, base_of.
  destruct (AnchorFix.resolve _ _ _) as [[e|]|]; [|done|discriminate].
  destruct (Pathlib.relative_to _ _) as [rel|]; [|discriminate].
  destruct (src !! _) as [ptext|]; [|discriminate].
  by destruct (String.eqb _ ptext).
Qed.

End AttemptFacts.

Module Loop4bInv.

Lemma tm_count_snoc l e :
  length (List.filter is_target_missing (l ++ [e]))
  = (length (List.filter is_target_missing l)
     + if is_target_missing e then 1 else 0)%nat.
Proof.
  rewrite List.filter_app, length_app. simpl.
  by destruct (is_target_missing e).
Qed.

Lemma loop_4b_cons f m hits count st :
  AnchorFix.loop_4b ((f, m) :: hits) count st
  = if negb (Py.startswith m ".") then
      AnchorFix.loop_4b hits count
        (AnchorFix.mkState4b (AnchorFix.b_fs st) (AnchorFix.b_fixed st)
           (AnchorFix.b_skipped st ++ [(f, m, "non-relative")]))
    else if 15 <? count + 1 then (true, st)
    else match AnchorFix.attempt_rewrite (AnchorFix.b_fs st) f m with
         | AnchorFix.Rewritten src' new_mod =>
             AnchorFix.loop_4b hits (count + 1)
               (AnchorFix.mkState4b src' (AnchorFix.b_fixed st ++ [(f, m, new_mod)])
                  (AnchorFix.b_skipped st))
         | AnchorFix.Same => AnchorFix.loop_4b hits (count + 1) st
         | AnchorFix.TargetMissing =>
             AnchorFix.loop_4b hits (count + 1)
               (AnchorFix.mkState4b (AnchorFix.b_fs st) (AnchorFix.b_fixed st)
                  (AnchorFix.b_skipped st ++ [(f, m, "target-missing")]))
         | AnchorFix.Failed => (false, st)
         end.
Proof. reflexivity. Qed.

Lemma rewritten_dom src file m src' new :
  AnchorFix.attempt_rewrite src file m = AnchorFix.Rewritten src' new ->
  dom src' = dom src.
Proof.
  intros (ptext & Hp & -> & _)%AttemptFacts.attempt_rewritten.
  apply dom_insert_lookup_L. by eexists.
Qed.

(** The loop, case by case: [P] holds of the result when it is kept by
    every way a hit can be handled. *)
Lemma loop_4b_rect (P : list (string * string) -> Z -> AnchorFix.state_4b ->
                        bool -> AnchorFix.state_4b -> Prop) :
  (forall count st, P [] count st true st) ->
  (forall f m hits count st, Py.startswith m "." = true -> 15 < count + 1 ->
     P ((f, m) :: hits) count st true st) ->
  (forall f m hits count st, Py.startswith m "." = true -> count + 1 <= 15 ->
     AnchorFix.attempt_rewrite (AnchorFix.b_fs st) f m = AnchorFix.Failed ->
     P ((f, m) :: hits) count st false st) ->
  (forall f m hits count st ok st',
     Py.startswith m "." = false ->
     P hits count
       (AnchorFix.mkState4b (AnchorFix.b_fs st) (AnchorFix.b_fixed st)
          (AnchorFix.b_skipped st ++ [(f, m, "non-relative")])) ok st' ->
     P ((f, m) :: hits) count st ok st') ->
  (forall f m hits count st ok st' src' new,
     Py.startswith m "." = true -> count + 1 <= 15 ->
     AnchorFix.attempt_rewrite (AnchorFix.b_fs st) f m = AnchorFix.Rewritten src' new ->
     P hits (count + 1)
       (AnchorFix.mkState4b src' (AnchorFix.b_fixed st ++ [(f, m, new)])
          (AnchorFix.b_skipped st)) ok st' ->
     P ((f, m) :: hits) count st ok st') ->
  (forall f m hits count st ok st',
     Py.startswith m "." = true -> count + 1 <= 15 ->
     AnchorFix.attempt_rewrite (AnchorFix.b_fs st) f m = AnchorFix.Same ->
     P hits (count + 1) st ok st' ->
     P ((f, m) :: hits) count st ok st') ->
  (forall f m hits count st ok st',
     Py.startswith m "." = true -> count + 1 <= 15 ->
     AnchorFix.attempt_rewrite (AnchorFix.b_fs st) f m = AnchorFix.TargetMissing ->
     P hits (count + 1)
       (AnchorFix.mkState4b (AnchorFix.b_fs st) (AnchorFix.b_fixed st)
          (AnchorFix.b_skipped st ++ [(f, m, "target-missing")])) ok st' ->
     P ((f, m) :: hits) count st ok st') ->
  forall hits count st,
    P hits count st (fst (AnchorFix.loop_4b hits count st))
      (snd (AnchorFix.loop_4b hits count st)).
Proof.
  intros Hnil Hbreak Hfail Hpkg Hfix Hsame Hmiss hits.
  induction hits as [|[f m] hits IH]; intros count st; [apply Hnil|].
  rewrite loop_4b_cons.
  destruct (Py.startswith m ".") eqn:Em; cbn [negb].
  - destruct (15 <? count + 1) eqn:Ec.
    + apply Z.ltb_lt in Ec. by apply Hbreak.
    + apply Z.ltb_ge in Ec.
      destruct (AnchorFix.attempt_rewrite (AnchorFix.b_fs st) f m) eqn:Ea.
      * eapply Hfix; [done..|apply IH].
      * apply Hsame; [done..|apply IH].
      * apply Hmiss; [done..|apply IH].
      * by apply Hfail.
  - apply Hpkg; [done|apply IH].
Qed.

(** What a logged fix says about the tree the attempt saw. *)
Lemma rewritten_target src file m src' new :
  AnchorFix.attempt_rewrite src file m = AnchorFix.Rewritten src' new ->
  exists e rel,
    AnchorFix.resolve src (base_of file) m = Some (Some e)
    /\ exists_ src e = true
    /\ Pathlib.relative_to e (base_of file) = Some rel
    /\ new = AnchorFix.new_specifier (Pathlib.str_rel rel).
Proof.
  unfold AnchorFix.attempt_rewrite, base_of.
  destruct (AnchorFix.resolve _ _ _) as [[e|]|] eqn:Er; [|discriminate..].
  destruct (Pathlib.relative_to _ _) as [rel|] eqn:Erel; [|discriminate].
  destruct (src !! _) as [ptext|]; [|discriminate].
  destruct (String.eqb _ ptext); [discriminate|].
  intros [= _ <-]. exists e, rel. split_and!; try done.
  unfold AnchorFix.resolve in Er.
  destruct (AnchorFix.options _) as [opts|]; [|discriminate].
  simpl in Er. injection Er as Er. unfold AnchorFix.first_existing in Er.
  apply ResolveFacts.find_first in Er as (i & _ & He & _). exact He.
Qed.

Lemma loop_4b_dom hits count st :
  dom (AnchorFix.b_fs (snd (AnchorFix.loop_4b hits count st)))
  = dom (AnchorFix.b_fs st).
Proof.
  apply (loop_4b_rect (fun _ _ st _ st' =>
           dom (AnchorFix.b_fs st') = dom (AnchorFix.b_fs st))); try done.
  intros f m hs c s ok s' src' new _ _ Ha IH. simpl in IH.
  rewrite IH. by eapply rewritten_dom.
Qed.

Lemma loop_4b_cap hits count st :
  (length (AnchorFix.b_fixed (snd (AnchorFix.loop_4b hits count st)))
   + length (List.filter is_target_missing
               (AnchorFix.b_skipped (snd (AnchorFix.loop_4b hits count st))))
   <= length (AnchorFix.b_fixed st)
      + length (List.filter is_target_missing (AnchorFix.b_skipped st))
      + Z.to_nat (15 - count))%nat.
Proof.
  apply (loop_4b_rect (fun _ count st _ st' =>
    (length (AnchorFix.b_fixed st')
     + length (List.filter is_target_missing (AnchorFix.b_skipped st'))
     <= length (AnchorFix.b_fixed st)
        + length (List.filter is_target_missing (AnchorFix.b_skipped st))
        + Z.to_nat (15 - count))%nat)); clear.
  - intros; lia.
  - intros; lia.
  - intros; lia.
  - intros f m hs c s ok s' _ IH. cbn [AnchorFix.b_fs AnchorFix.b_fixed AnchorFix.b_skipped] in IH.
    rewrite tm_count_snoc in IH.
    change (is_target_missing (f, m, "non-relative")) with false in IH. cbv iota in IH. lia.
  - intros f m hs c s ok s' src' new _ Hc _ IH. cbn [AnchorFix.b_fs AnchorFix.b_fixed AnchorFix.b_skipped] in IH.
    rewrite length_app in IH. cbn [length] in IH. lia.
  - intros f m hs c s ok s' _ Hc _ IH. lia.
  - intros f m hs c s ok s' _ Hc _ IH. cbn [AnchorFix.b_fs AnchorFix.b_fixed AnchorFix.b_skipped] in IH.
    rewrite tm_count_snoc in IH.
    change (is_target_missing (f, m, "target-missing")) with true in IH. cbv iota in IH. lia.
Qed.

(** Every skip entry comes from a hit, with the reason the code gives. *)
Lemma loop_4b_skipped hits count st e :
  e ∈ AnchorFix.b_skipped (snd (AnchorFix.loop_4b hits count st)) ->
  e ∈ AnchorFix.b_skipped st
  \/ exists f m,
       (f, m) ∈ hits
       /\ ((e = (f, m, "non-relative") /\ Py.startswith m "." = false)
           \/ (e = (f, m, "target-missing") /\ Py.startswith m "." = true
               /\ AnchorFix.resolve (AnchorFix.b_fs st) (base_of f) m = Some None)).
Proof.
  apply (loop_4b_rect (fun hits _ st _ st' =>
    e ∈ AnchorFix.b_skipped st' ->
    e ∈ AnchorFix.b_skipped st
    \/ exists f m,
         (f, m) ∈ hits
         /\ ((e = (f, m, "non-relative") /\ Py.startswith m "." = false)
             \/ (e = (f, m, "target-missing") /\ Py.startswith m "." = true
                 /\ AnchorFix.resolve (AnchorFix.b_fs st) (base_of f) m = Some None))));
    clear hits count st.
  - by left.
  - by left.
  - by left.
  - intros f m hs c s ok s' Hm IH He. destruct (IH He) as [Hin|(f' & m' & Hin & Hr)].
    + simpl in Hin. apply elem_of_app in Hin as [Hin|Hin]; [by left|].
      apply list_elem_of_singleton in Hin as ->. right. exists f, m.
      split; [left|by left].
    + right. exists f', m'. split; [by right|exact Hr].
  - intros f m hs c s ok s' src' new Hm _ Ha IH He.
    destruct (IH He) as [Hin|(f' & m' & Hin & Hr)]; [by left|].
    right. exists f', m'. split; [by right|].
    destruct Hr as [Hr|(-> & Hm' & Hr)]; [by left|right].
    split_and!; try done. simpl in Hr. rewrite <- Hr.
    apply AttemptFacts.resolve_dom. symmetry. by eapply rewritten_dom.
  - intros f m hs c s ok s' Hm _ Ha IH He.
    destruct (IH He) as [Hin|(f' & m' & Hin & Hr)]; [by left|].
    right. exists f', m'. split; [by right|exact Hr].
  - intros f m hs c s ok s' Hm _ Ha IH He.
    destruct (IH He) as [Hin|(f' & m' & Hin & Hr)].
    + simpl in Hin. apply elem_of_app in Hin as [Hin|Hin]; [by left|].
      apply list_elem_of_singleton in Hin as ->. right. exists f, m.
      split; [left|]. right. split_and!; try done.
      by apply AttemptFacts.attempt_target_missing.
    + right. exists f', m'. split; [by right|exact Hr].
Qed.

(** Every fix entry comes from a relative hit whose target the probe
    found. *)
Lemma loop_4b_fixed hits count st e :
  e ∈ AnchorFix.b_fixed (snd (AnchorFix.loop_4b hits count st)) ->
  e ∈ AnchorFix.b_fixed st
  \/ exists f m new target rel,
       e = (f, m, new) /\ (f, m) ∈ hits
       /\ Py.startswith m "." = true
       /\ AnchorFix.resolve (AnchorFix.b_fs st) (base_of f) m = Some (Some target)
       /\ exists_ (AnchorFix.b_fs st) target = true
       /\ Pathlib.relative_to target (base_of f) = Some rel
       /\ new = AnchorFix.new_specifier (Pathlib.str_rel rel)
       /\ new <> m
       /\ is_Some (AnchorFix.b_fs st !! Pathlib.joinpath AnchorFix.root f).
Proof.
  apply (loop_4b_rect (fun hits _ st _ st' =>
    e ∈ AnchorFix.b_fixed st' ->
    e ∈ AnchorFix.b_fixed st
    \/ exists f m new target rel,
         e = (f, m, new) /\ (f, m) ∈ hits
         /\ Py.startswith m "." = true
         /\ AnchorFix.resolve (AnchorFix.b_fs st) (base_of f) m = Some (Some target)
         /\ exists_ (AnchorFix.b_fs st) target = true
         /\ Pathlib.relative_to target (base_of f) = Some rel
         /\ new = AnchorFix.new_specifier (Pathlib.str_rel rel)
         /\ new <> m
         /\ is_Some (AnchorFix.b_fs st !! Pathlib.joinpath AnchorFix.root f)));
    clear hits count st.
  - by left.
  - by left.
  - by left.
  - intros f m hs c s ok s' Hm IH He.
    destruct (IH He) as [Hin|(f' & m' & new & t & rel & -> & Hin & Hr)]; [by left|].
    right. exists f', m', new, t, rel. split_and!; [done|by right|apply Hr..].
  - intros f m hs c s ok s' src' new Hm _ Ha IH He.
    pose proof (rewritten_dom _ _ _ _ _ Ha) as Hd.
    destruct (IH He) as [Hin|(f' & m' & new' & t & rel & -> & Hin & Hm' & Hr & Hex & Hrel & Hn & Hne & Hs)].
    + simpl in Hin. apply elem_of_app in Hin as [Hin|Hin]; [by left|].
      apply list_elem_of_singleton in Hin as ->. right.
      destruct (rewritten_target _ _ _ _ _ Ha) as (t & rel & Hr & Hex & Hrel & Hn).
      destruct (AttemptFacts.attempt_rewritten _ _ _ _ _ Ha)
        as (ptext & Hp & _ & _ & _ & Hne).
      exists f, m, new, t, rel. split_and!; try done; try (by left); by eexists.
    + right. exists f', m', new', t, rel. simpl in Hr, Hex, Hs.
      split_and!; try done; [by right| | |].
      * rewrite <- Hr. apply AttemptFacts.resolve_dom. by symmetry.
      * rewrite <- Hex. apply AttemptFacts.exists_dom. by symmetry.
      * apply elem_of_dom. rewrite <- Hd. by apply elem_of_dom.
  - intros f m hs c s ok s' Hm _ Ha IH He.
    destruct (IH He) as [Hin|(f' & m' & new & t & rel & -> & Hin & Hr)]; [by left|].
    right. exists f', m', new, t, rel. split_and!; [done|by right|apply Hr..].
  - intros f m hs c s ok s' Hm _ Ha IH He.
    destruct (IH He) as [Hin|(f' & m' & new & t & rel & -> & Hin & Hr)]; [by left|].
    right. exists f', m', new, t, rel. split_and!; [done|by right|apply Hr..].
Qed.

(** The fixes are logged in order, and a file for which none is logged
    keeps its text. *)
Lemma loop_4b_lookup hits count st (p : Path) :
  exists added,
    AnchorFix.b_fixed (snd (AnchorFix.loop_4b hits count st))
    = AnchorFix.b_fixed st ++ added
    /\ ((forall f m new, (f, m, new) ∈ added ->
           Pathlib.joinpath AnchorFix.root f <> p) ->
        AnchorFix.b_fs (snd (AnchorFix.loop_4b hits count st)) !! p
        = AnchorFix.b_fs st !! p).
Proof.
  apply (loop_4b_rect (fun _ _ st _ st' =>
    exists added,
      AnchorFix.b_fixed st' = AnchorFix.b_fixed st ++ added
      /\ ((forall f m new, (f, m, new) ∈ added ->
             Pathlib.joinpath AnchorFix.root f <> p) ->
          AnchorFix.b_fs st' !! p = AnchorFix.b_fs st !! p))); clear - p.
  - intros. exists []. by rewrite app_nil_r.
  - intros. exists []. by rewrite app_nil_r.
  - intros. exists []. by rewrite app_nil_r.
  - intros f m hs c s ok s' _ (added & Hf & Hl). by exists added.
  - intros f m hs c s ok s' src' new _ _ Ha (added & Hf & Hl). simpl in Hf, Hl.
    exists ((f, m, new) :: added). split.
    + by rewrite Hf, <- app_assoc.
    + intros Hp. rewrite Hl.
      * destruct (AttemptFacts.attempt_rewritten _ _ _ _ _ Ha) as (ptext & _ & -> & _).
        apply lookup_insert_ne. apply (Hp f m new). left.
      * intros f' m' new' Hin. apply (Hp f' m' new'). by right.
  - intros f m hs c s ok s' _ _ _ (added & Hf & Hl). by exists added.
  - intros f m hs c s ok s' _ _ _ (added & Hf & Hl). by exists added.
Qed.

End Loop4bInv.

(** X11. Stage 4B of [anchor_fix.py] attempts at most fifteen relative
    specifiers in a run: the fixes it logs and the skips it logs as
    [target-missing] are together at most 15, however many diagnostics
    the checker printed. *)
Theorem X11_stage_4b_cap (hits : list (string * string)) (src : FS) :
  (length (AnchorFix.b_fixed (run_4b hits src))
   + length (List.filter is_target_missing (AnchorFix.b_skipped (run_4b hits src)))
   <= 15)%nat.
Proof.
  pose proof (Loop4bInv.loop_4b_cap hits 0 (init_4b src)) as H.
  unfold run_4b. simpl in H. lia.
Qed.

(** X12. Every skip that stage 4B logs names a specifier of a TS2307
    hit, with the reason the code gives: [non-relative] exactly for a
    specifier that does not start with a dot, [target-missing] for a
    relative specifier none of whose four candidates exists in the tree
    the run started with. *)
Theorem X12_stage_4b_skip_reasons
    (hits : list (string * string)) (src : FS) (f m reason : string) :
  (f, m, reason) ∈ AnchorFix.b_skipped (run_4b hits src) ->
  (f, m) ∈ hits
  /\ ((reason = "non-relative" /\ Py.startswith m "." = false)
      \/ (reason = "target-missing" /\ Py.startswith m "." = true
          /\ AnchorFix.resolve src (base_of f) m = Some None)).
Proof.
  intros H. apply Loop4bInv.loop_4b_skipped in H.
  destruct H as [H|(f' & m' & Hin & [[E Hm]|(E & Hm & Hr)])].
  - by apply elem_of_nil in H.
  - injection E as -> -> ->. split; [done|by left].
  - injection E as -> -> ->. split; [done|by right].
Qed.

Lemma X12_witness :
  ("src/a.ts", "./missing", "target-missing")
    ∈ AnchorFix.b_skipped (run_4b [("src/a.ts", "react"); ("src/a.ts", "./missing")] ∅)
  /\ (("src/a.ts", "./missing") ∈ [("src/a.ts", "react"); ("src/a.ts", "./missing")]
      /\ (("target-missing" = "non-relative" /\ Py.startswith "./missing" "." = false)
          \/ ("target-missing" = "target-missing" /\ Py.startswith "./missing" "." = true
              /\ AnchorFix.resolve ∅ (base_of "src/a.ts") "./missing" = Some None))).
Proof.
  assert (H : ("src/a.ts", "./missing", "target-missing")
                ∈ AnchorFix.b_skipped
                    (run_4b [("src/a.ts", "react"); ("src/a.ts", "./missing")] ∅)).
  { vm_compute. right. left. }
  split; [exact H|].
  exact (X12_stage_4b_skip_reasons
           [("src/a.ts", "react"); ("src/a.ts", "./missing")] ∅
           "src/a.ts" "./missing" "target-missing" H).
Defined.

(** X13. Every fix that stage 4B logs comes from a TS2307 hit with a
    relative specifier: the diagnosed file exists, the probe found an
    existing target in the tree the run started with, the new specifier
    is computed from that target's path relative to the importing
    directory, and it differs from the old one. *)
Theorem X13_stage_4b_fix_entries
    (hits : list (string * string)) (src : FS) (f m new : string) :
  (f, m, new) ∈ AnchorFix.b_fixed (run_4b hits src) ->
  (f, m) ∈ hits
  /\ Py.startswith m "." = true
  /\ is_Some (src !! Pathlib.joinpath AnchorFix.root f)
  /\ new <> m
  /\ exists target rel,
       AnchorFix.resolve src (base_of f) m = Some (Some target)
       /\ exists_ src target = true
       /\ Pathlib.relative_to target (base_of f) = Some rel
       /\ new = AnchorFix.new_specifier (Pathlib.str_rel rel).
Proof.
  intros H. apply Loop4bInv.loop_4b_fixed in H.
  destruct H as [H|(f' & m' & new' & t & rel & E & Hin & Hm & Hr & Hex & Hrel & Hn & Hne & Hs)].
  - by apply elem_of_nil in H.
  - injection E as -> -> ->. split_and!; try done. by exists t, rel.
Qed.

Lemma X13_witness :
  ("src/a.ts", "./util.js", "./util")
    ∈ AnchorFix.b_fixed (run_4b [("src/a.ts", "./util.js")] tree_util)
  /\ (("src/a.ts", "./util.js") ∈ [("src/a.ts", "./util.js")]
      /\ Py.startswith "./util.js" "." = true
      /\ is_Some (tree_util !! Pathlib.joinpath AnchorFix.root "src/a.ts")
      /\ "./util" <> "./util.js"
      /\ exists target rel,
           AnchorFix.resolve tree_util (base_of "src/a.ts") "./util.js"
             = Some (Some target)
           /\ exists_ tree_util target = true
           /\ Pathlib.relative_to target (base_of "src/a.ts") = Some rel
           /\ "./util" = AnchorFix.new_specifier (Pathlib.str_rel rel)).
Proof.
  assert (H : ("src/a.ts", "./util.js", "./util")
                ∈ AnchorFix.b_fixed (run_4b [("src/a.ts", "./util.js")] tree_util)).
  { vm_compute. left. }
  split; [exact H|].
  exact (X13_stage_4b_fix_entries [("src/a.ts", "./util.js")] tree_util
           "src/a.ts" "./util.js" "./util" H).
Defined.

(** X14. Stage 4B creates and deletes no file: the tree it leaves has
    exactly the paths of the tree it started with. *)
Theorem X14_stage_4b_keeps_file_set (hits : list (string * string)) (src : FS) :
  dom (AnchorFix.b_fs (run_4b hits src)) = dom src.
Proof. apply (Loop4bInv.loop_4b_dom hits 0 (init_4b src)). Qed.

(** X15. Stage 4B changes only files for which it logs a fix: a path
    that no logged fix names holds, after the stage, what it held
    before. *)
Theorem X15_stage_4b_changes_only_fixed
    (hits : list (string * string)) (src : FS) (p : Path) :
  (forall f m new, (f, m, new) ∈ AnchorFix.b_fixed (run_4b hits src) ->
     Pathlib.joinpath AnchorFix.root f <> p) ->
  AnchorFix.b_fs (run_4b hits src) !! p = src !! p.
Proof.
  intros H.
  destruct (Loop4bInv.loop_4b_lookup hits 0 (init_4b src) p) as (added & Hf & Hl).
  apply Hl. intros f m new Hin. apply (H f m new). unfold run_4b. by rewrite Hf.
Qed.

Lemma X15_witness :
  (forall f m new,
     (f, m, new) ∈ AnchorFix.b_fixed (run_4b [("src/a.ts", "./util.js")] tree_util) ->
     Pathlib.joinpath AnchorFix.root f <> Pathlib.joinpath AnchorFix.root "src/util.ts")
  /\ AnchorFix.b_fs (run_4b [("src/a.ts", "./util.js")] tree_util)
       !! Pathlib.joinpath AnchorFix.root "src/util.ts"
     = tree_util !! Pathlib.joinpath AnchorFix.root "src/util.ts".
Proof.
  assert (H : forall f m new,
     (f, m, new) ∈ AnchorFix.b_fixed (run_4b [("src/a.ts", "./util.js")] tree_util) ->
     Pathlib.joinpath AnchorFix.root f <> Pathlib.joinpath AnchorFix.root "src/util.ts").
  { intros f m new Hin.
    assert (E : AnchorFix.b_fixed (run_4b [("src/a.ts", "./util.js")] tree_util)
                = [("src/a.ts", "./util.js", "./util")]) by (vm_compute; reflexivity).
    rewrite E in Hin. apply list_elem_of_singleton in Hin. injection Hin as -> _ _.
    vm_compute. discriminate. }
  split; [exact H|].
  exact (X15_stage_4b_changes_only_fixed [("src/a.ts", "./util.js")] tree_util
           (Pathlib.joinpath AnchorFix.root "src/util.ts") H).
Defined.

(** X16. Stage 4B rewrites a file only where the old specifier stands
    in quotes: when the text of the diagnosed file holds the specifier
    neither in single nor in double quotes, the attempt writes nothing
    and logs no fix. *)
Theorem X16_unquoted_specifier_not_rewritten
    (src : FS) (file m ptext : string) :
  src !! Pathlib.joinpath AnchorFix.root file = Some ptext ->
  Py.contains (AnchorFix.quoted "'" m) ptext = false ->
  Py.contains (AnchorFix.quoted DQ m) ptext = false ->
  forall src' new, AnchorFix.attempt_rewrite src file m <> AnchorFix.Rewritten src' new.
Proof.
  intros Hp H1 H2 src' new Ha.
  destruct (AttemptFacts.attempt_rewritten _ _ _ _ _ Ha) as (pt & Hpt & _ & Hne & _).
  rewrite Hp in Hpt. injection Hpt as <-.
  apply Hne. by apply ReplaceFacts.rewrite_text_absent.
Qed.

Lemma X16_witness :
  let src : FS :=
    {[ a_ts := "import x from `./util.js`;";
       Pathlib.joinpath AnchorFix.root "src/util.ts" := EmptyString ]} in
  src !! Pathlib.joinpath AnchorFix.root "src/a.ts" = Some "import x from `./util.js`;"
  /\ Py.contains (AnchorFix.quoted "'" "./util.js") "import x from `./util.js`;" = false
  /\ Py.contains (AnchorFix.quoted DQ "./util.js") "import x from `./util.js`;" = false
  /\ forall src' new,
       AnchorFix.attempt_rewrite src "src/a.ts" "./util.js"
       <> AnchorFix.Rewritten src' new.
Proof.
  intros src.
  assert (H0 : src !! Pathlib.joinpath AnchorFix.root "src/a.ts"
               = Some "import x from `./util.js`;") by (vm_compute; reflexivity).
  assert (H1 : Py.contains (AnchorFix.quoted "'" "./util.js")
                 "import x from `./util.js`;" = false) by (vm_compute; reflexivity).
  assert (H2 : Py.contains (AnchorFix.quoted DQ "./util.js")
                 "import x from `./util.js`;" = false) by (vm_compute; reflexivity).
  split; [exact H0|]. split; [exact H1|]. split; [exact H2|].
  exact (X16_unquoted_specifier_not_rewritten src "src/a.ts" "./util.js"
           "import x from `./util.js`;" H0 H1 H2).
Defined.

(** ** [anchor_fix.py]: how a run can end *)

Module ExitFacts.

Lemma guard_passes env w s :
  fs w !! AnchorFix.shim = Some s ->
  Re.matches AnchorFix.forbidden_alt s = false ->
  Re.matches AnchorFix.decl_re s = true ->
  AnchorFix.shim_guard (at_guard env w) = Ok tt (at_guard env w).
Proof.
  intros Hs Hf Hd. unfold AnchorFix.shim_guard, mbind, M_bind, get_fs.
  cbn [fs at_guard]. by rewrite Hs, Hf, Hd.
Qed.

Lemma after_guard_no_exit env w code w' :
  AnchorFix.after_guard env w <> Exited code w'.
Proof.
  rewrite StageFacts.after_guard_spec. by destruct (fst (result_4b env w)).
Qed.

End ExitFacts.

(** X17. [anchor_fix.py] leaves through [sys.exit] in three cases only:
    with code 1 when no output directory is given, with code 2 when the
    shim exists and holds a forbidden pattern, with code 3 when the shim
    exists, holds none and has no line that starts a module declaration.
    In each of them the working tree is untouched.  A run that gets past
    the guard never exits this way. *)
Theorem X17_exit_only_at_usage_or_guard
    (env : Env) (argv : list string) (w w' : World) (code : Z) :
  AnchorFix.main env argv w = Exited code w' ->
  fs w' = fs w
  /\ ((code = 1 /\ (length argv < 2)%nat)
      \/ ((2 <= length argv)%nat
          /\ exists s,
               fs w !! AnchorFix.shim = Some s
               /\ ((code = 2 /\ Re.matches AnchorFix.forbidden_alt s = true)
                   \/ (code = 3 /\ Re.matches AnchorFix.forbidden_alt s = false
                       /\ Re.matches AnchorFix.decl_re s = false)))).
Proof.
  intros H. destruct (decide (length argv < 2)%nat) as [Hlt|Hge].
  - rewrite RunFacts.main_usage in H by done. injection H as <- <-.
    split; [done|]. left. by split.
  - assert (Hl : (2 <= length argv)%nat) by lia.
    rewrite RunFacts.main_to_guard in H by done.
    destruct (fs w !! AnchorFix.shim) as [s|] eqn:Hs.
    + destruct (Re.matches AnchorFix.forbidden_alt s) eqn:Hf.
      * rewrite (RunFacts.guard_forbidden env w s Hs Hf) in H.
        injection H as <- <-. split; [done|]. right. split; [done|].
        exists s. split; [done|]. left. by split.
      * destruct (Re.matches AnchorFix.decl_re s) eqn:Hd.
        -- rewrite (ExitFacts.guard_passes env w s Hs Hf Hd) in H.
           by apply ExitFacts.after_guard_no_exit in H.
        -- rewrite (RunFacts.guard_nodecl env w s Hs Hf Hd) in H.
           injection H as <- <-. split; [done|]. right. split; [done|].
           exists s. split; [done|]. right. by split.
    + rewrite (RunFacts.guard_absent env w Hs) in H.
      by apply ExitFacts.after_guard_no_exit in H.
Qed.

Lemma X17_witness :
  let env := env_printing output_10_20 in
  let w := world_shim shim_empty in
  let w' := final (AnchorFix.main env argv_anchor_fix w) in
  AnchorFix.main env argv_anchor_fix w = Exited 3 w'
  /\ (fs w' = fs w
      /\ ((3 = 1 /\ (length argv_anchor_fix < 2)%nat)
          \/ ((2 <= length argv_anchor_fix)%nat
              /\ exists s,
                   fs w !! AnchorFix.shim = Some s
                   /\ ((3 = 2 /\ Re.matches AnchorFix.forbidden_alt s = true)
                       \/ (3 = 3 /\ Re.matches AnchorFix.forbidden_alt s = false
                           /\ Re.matches AnchorFix.decl_re s = false))))).
Proof.
  intros env w w'.
  assert (H : AnchorFix.main env argv_anchor_fix w = Exited 3 w')
    by (vm_compute; reflexivity).
  split; [exact H|].
  exact (X17_exit_only_at_usage_or_guard env argv_anchor_fix w w' 3 H).
Defined.

(** ** The anchor filter and the diagnostics the fixes act on *)

Module CursorFacts.

Lemma ahead_refl cur : ahead cur cur.
Proof. by exists 0%nat. Qed.

Lemma ahead_step ps pv c r cur' :
  ahead (Re.Cursor (S ps) (Some c) r) cur' ->
  ahead (Re.Cursor ps pv (String c r)) cur'.
Proof. intros [n H]. by exists (S n). Qed.

Lemma ahead_trans c1 c2 c3 : ahead c1 c2 -> ahead c2 c3 -> ahead c1 c3.
Proof.
  intros [n H]. revert c1 H. induction n as [|n IH]; intros c1 H H23.
  - simpl in H. by injection H as ->.
  - simpl in H. destruct c1 as [ps pv [|c r]]; simpl in H; [discriminate|].
    apply ahead_step. by apply IH.
Qed.

Lemma lit_ahead s cur cur' : Re.lit s cur = Some cur' -> ahead cur cur'.
Proof.
  revert cur. induction s as [|c s IH]; intros [ps pv rs]; simpl.
  - intros [= <-]. apply ahead_refl.
  - destruct rs as [|d r]; [discriminate|].
    destruct (Ascii.eqb c d); [|discriminate].
    intros H. apply ahead_step. by apply IH.
Qed.

Lemma rep_ahead {A} p lo hi ps pv rs (k : Re.cursor -> option A) x :
  Re.rep p lo hi ps pv rs k = Some x ->
  exists cur', ahead (Re.Cursor ps pv rs) cur' /\ k cur' = Some x.
Proof.
  revert lo hi ps pv. induction rs as [|c r IH]; intros lo hi ps pv; simpl.
  - destruct lo; [|discriminate]. intros H. eexists. split; [apply ahead_refl|done].
  - assert (Hstop : match lo with
                    | O => k (Re.Cursor ps pv (String c r))
                    | S _ => None
                    end = Some x ->
                    exists cur', ahead (Re.Cursor ps pv (String c r)) cur'
                                 /\ k cur' = Some x).
    { destruct lo; [|discriminate]. intros H. eexists. split; [apply ahead_refl|done]. }
    destruct (p c && Re.hi_open hi); [|exact Hstop].
    destruct (Re.rep p _ _ _ _ r k) as [y|] eqn:E; [|exact Hstop].
    intros [= ->]. destruct (IH _ _ _ _ E) as (cur' & Ha & Hk).
    exists cur'. split; [by apply ahead_step|done].
Qed.

(** A match runs its continuation at a cursor further on. *)
Lemma exec_ahead {A} r :
  forall cur caps (k : Re.cursor -> Re.captures -> option A) x,
    Re.exec r cur caps k = Some x ->
    exists cur' caps', ahead cur cur' /\ k cur' caps' = Some x.
Proof.
  induction r as [s|p|p lo hi|r1 IH1 r2 IH2|r1 IH1 r2 IH2|m| |n r IH];
    intros cur caps k x; simpl.
  - destruct (Re.lit s cur) as [cur'|] eqn:E; [|discriminate].
    intros H. exists cur', caps. split; [by eapply lit_ahead|done].
  - destruct cur as [ps pv [|c r']]; simpl; [discriminate|].
    destruct (p c); [|discriminate]. intros H.
    eexists _, caps. split; [|exact H]. apply ahead_step, ahead_refl.
  - intros H. apply rep_ahead in H as (cur' & Ha & Hk).
    destruct cur. by exists cur', caps.
  - intros H. apply IH1 in H as (c1 & cp1 & Ha1 & H).
    apply IH2 in H as (c2 & cp2 & Ha2 & H).
    exists c2, cp2. split; [by eapply ahead_trans|done].
  - destruct (Re.exec r1 cur caps k) as [y|] eqn:E.
    + intros [= ->]. by apply IH1 in E.
    + apply IH2.
  - destruct (Re.prev cur) as [c|].
    + destruct (m && Ascii.eqb c Py.LF); [|discriminate].
      intros H. exists cur, caps. split; [apply ahead_refl|done].
    + intros H. exists cur, caps. split; [apply ahead_refl|done].
  - destruct (xorb _ _); [|discriminate].
    intros H. exists cur, caps. split; [apply ahead_refl|done].
  - intros H. apply IH in H as (c1 & cp1 & Ha & H). by eexists _, _.
Qed.

Lemma search_ahead r ps pv rs m :
  Re.search_from r ps pv rs = Some m ->
  exists cur, ahead (Re.Cursor ps pv rs) cur /\ Re.match_at r cur = Some m.
Proof.
  revert ps pv. induction rs as [|c rs IH]; intros ps pv; simpl.
  - destruct (Re.match_at r _) eqn:E; [|discriminate].
    intros [= ->]. eexists. split; [apply ahead_refl|done].
  - destruct (Re.match_at r _) eqn:E.
    + intros [= ->]. eexists. split; [apply ahead_refl|done].
    + intros H. apply IH in H as (cur & Ha & H).
      exists cur. split; [by apply ahead_step|done].
Qed.

(** The search finds a match when the pattern matches anywhere further
    on. *)
Lemma search_complete r cur cur' :
  ahead cur cur' -> is_Some (Re.match_at r cur') ->
  is_Some (Re.search_from r (Re.pos cur) (Re.prev cur) (Re.rest cur)).
Proof.
  intros [n H]. revert cur H. induction n as [|n IH]; intros [ps pv rs] H Hm.
  - simpl in H. injection H as <-. destruct Hm as [m Hm].
    destruct rs; simpl; rewrite Hm; by eexists.
  - simpl in H. destruct rs as [|c rs]; [discriminate|]. simpl.
    destruct (Re.match_at r (Re.Cursor ps pv (String c rs))); [by eexists|].
    apply (IH _ H Hm).
Qed.

Lemma alt_some_l {A} r1 r2 cur caps (k : Re.cursor -> Re.captures -> option A) :
  is_Some (Re.exec r1 cur caps k) -> is_Some (Re.exec (Re.Alt r1 r2) cur caps k).
Proof. simpl. by destruct (Re.exec r1 cur caps k). Qed.

Lemma alt_some_r {A} r1 r2 cur caps (k : Re.cursor -> Re.captures -> option A) :
  is_Some (Re.exec r2 cur caps k) -> is_Some (Re.exec (Re.Alt r1 r2) cur caps k).
Proof. simpl. by destruct (Re.exec r1 cur caps k); [eexists|]. Qed.

Lemma lit_match_at s cur : is_Some (Re.lit s cur) -> is_Some (Re.match_at (Re.Lit s) cur).
Proof. unfold Re.match_at. simpl. intros [c ->]. by eexists. Qed.

(** A literal matches where a longer one does. *)
Lemma lit_app s1 s2 cur :
  is_Some (Re.lit (s1 +:+ s2) cur) -> is_Some (Re.lit s1 cur).
Proof.
  revert cur. induction s1 as [|c s1 IH]; intros [ps pv rs].
  - intros _. by eexists.
  - rewrite PyFacts.str_app_cons. simpl.
    destruct rs as [|d r]; [done|]. destruct (Ascii.eqb c d); [|done]. apply IH.
Qed.

End CursorFacts.

Module AnchorFacts.

Lemma exec_seq {A} r1 r2 cur caps (k : Re.cursor -> Re.captures -> option A) :
  Re.exec (Re.Seq r1 r2) cur caps k
  = Re.exec r1 cur caps (fun cur' caps' => Re.exec r2 cur' caps' k).
Proof. reflexivity. Qed.

Lemma exec_lit_some {A} s cur caps (k : Re.cursor -> Re.captures -> option A) x :
  Re.exec (Re.Lit s) cur caps k = Some x -> is_Some (Re.lit s cur).
Proof. simpl. destruct (Re.lit s cur); [by eexists|discriminate]. Qed.

(** The anchor pattern matches at a cursor where one of its literals
    [TS2578] and [TS2307] stands. *)
Lemma anchor_at_2578 cur :
  is_Some (Re.lit "TS2578" cur) -> is_Some (Re.match_at AnchorFix.anchor_re cur).
Proof.
  intros H. unfold Re.match_at.
  change AnchorFix.anchor_re
    with (Re.Alt (Re.Alt (Re.Alt (Re.Alt
            (Re.Alt (Re.Alt (Re.Lit "error TS") (Re.Lit "Cannot find module"))
                    (Re.Lit "TS2578"))
            (Re.Lit "TS2307")) (Re.Lit "TS2362")) (Re.Lit "TS2552")) (Re.Lit "TS6133")).
  do 4 apply CursorFacts.alt_some_l. apply CursorFacts.alt_some_r.
  by apply CursorFacts.lit_match_at.
Qed.

Lemma anchor_at_2307 cur :
  is_Some (Re.lit "TS2307" cur) -> is_Some (Re.match_at AnchorFix.anchor_re cur).
Proof.
  intros H. unfold Re.match_at.
  change AnchorFix.anchor_re
    with (Re.Alt (Re.Alt (Re.Alt (Re.Alt
            (Re.Alt (Re.Alt (Re.Lit "error TS") (Re.Lit "Cannot find module"))
                    (Re.Lit "TS2578"))
            (Re.Lit "TS2307")) (Re.Lit "TS2362")) (Re.Lit "TS2552")) (Re.Lit "TS6133")).
  do 3 apply CursorFacts.alt_some_l. apply CursorFacts.alt_some_r.
  by apply CursorFacts.lit_match_at.
Qed.

Lemma matches_ahead r s cur :
  ahead (Re.Cursor 0 None s) cur -> is_Some (Re.match_at r cur) ->
  Re.matches r s = true.
Proof.
  intros Ha Hm. unfold Re.matches, Re.search.
  destruct (CursorFacts.search_complete r _ _ Ha Hm) as [m Hs].
  simpl in Hs. by rewrite Hs.
Qed.

Lemma anchor_of_2578 (l : string) :
  is_Some (parse_2578 l) -> Re.matches AnchorFix.anchor_re l = true.
Proof.
  unfold parse_2578, Re.search.
  destruct (Re.search_from pattern_2578 0 None l) as [m|] eqn:E; [|by intros [? ?]].
  intros _. apply CursorFacts.search_ahead in E as (cur & Ha & Hm).
  unfold Re.match_at, pattern_2578 in Hm. rewrite exec_seq in Hm.
  apply CursorFacts.exec_ahead in Hm as (c' & cp' & Ha' & Hm).
  apply exec_lit_some in Hm.
  apply (matches_ahead _ _ c'); [by eapply CursorFacts.ahead_trans|].
  by apply anchor_at_2578.
Qed.

Lemma anchor_of_2307 (l : string) :
  is_Some (AnchorFix.parse_2307 l) -> Re.matches AnchorFix.anchor_re l = true.
Proof.
  unfold AnchorFix.parse_2307, Re.search.
  destruct (Re.search_from AnchorFix.pattern_2307 0 None l) as [m|] eqn:E;
    [|by intros [? ?]].
  intros _. apply CursorFacts.search_ahead in E as (cur & Ha & Hm).
  unfold Re.match_at in Hm.
  change AnchorFix.pattern_2307
    with (Re.Seq (Re.Seq (Re.Seq diag_head (Re.Lit "TS2307: Cannot find module '"))
                         (Re.Group 4 (Re.Rep (Re.none_of "'") 1 None)))
                 (Re.Lit "'")) in Hm.
  rewrite !exec_seq in Hm.
  apply CursorFacts.exec_ahead in Hm as (c' & cp' & Ha' & Hm).
  apply exec_lit_some in Hm.
  apply (matches_ahead _ _ c'); [by eapply CursorFacts.ahead_trans|].
  apply anchor_at_2307.
  by apply (CursorFacts.lit_app "TS2307" ": Cannot find module '").
Qed.

Lemma omap_filter {A B} (f : A -> option B) (P : A -> bool) (l : list A) :
  (forall x, is_Some (f x) -> P x = true) ->
  omap f (List.filter P l) = omap f l.
Proof.
  intros H. induction l as [|x l IH]; [done|].
  cbn [List.filter]. destruct (P x) eqn:E.
  - cbn [omap list_omap]. fold (omap f (List.filter P l)). fold (omap f l).
    by rewrite IH.
  - cbn [omap list_omap]. fold (omap f l). rewrite IH.
    destruct (f x) eqn:Ef; [|done].
    rewrite H in E; [discriminate|by eexists].
Qed.

End AnchorFacts.

(** X18. The anchor filter of stage 3 drops no diagnostic that the fixes
    act on: the TS2578 hits of stage 4A are the first twenty such
    diagnostics of the whole checker output, which are also the first
    twenty hits that [remove_ts_expect.py] finds in the same output, and
    the TS2307 hits of stage 4B are all such diagnostics of the
    output. *)
Theorem X18_anchor_filter_keeps_hits (text : string) :
  AnchorFix.hits_2578 (AnchorFix.anchor_lines text)
    = firstn 20 (omap parse_2578 (Py.splitlines text))
  /\ AnchorFix.hits_2578 (AnchorFix.anchor_lines text)
    = firstn 20 (RemoveTsExpect.hits (Py.splitlines text))
  /\ AnchorFix.hits_2307 (AnchorFix.anchor_lines text)
    = omap AnchorFix.parse_2307 (Py.splitlines text).
Proof.
  unfold AnchorFix.hits_2578, AnchorFix.hits_2307, AnchorFix.anchor_lines,
    RemoveTsExpect.hits.
  rewrite (AnchorFacts.omap_filter parse_2578) by apply AnchorFacts.anchor_of_2578.
  rewrite (AnchorFacts.omap_filter AnchorFix.parse_2307)
    by apply AnchorFacts.anchor_of_2307.
  split; [done|]. split; [|done].
  by rewrite take_take.
Qed.

(** ** [mech_fix.py]: the TS2362 context report *)

Module SelectFacts.

Lemma select_loop_spec hits : forall (seen : gset string) (seenl : list string) sel,
  (forall f, f ∈ seen <-> f ∈ seenl) -> (length sel < 3)%nat ->
  MechFixMain.select_loop hits seen sel
  = sel ++ firstn (3 - length sel) (firsts_from seenl hits).
Proof.
  induction hits as [|[f ln] hits IH]; intros seen seenl sel Hs Hl.
  - simpl. by rewrite firstn_nil, app_nil_r.
  - cbn [MechFixMain.select_loop firsts_from].
    destruct (bool_decide (f ∈ seen)) eqn:E.
    + apply bool_decide_eq_true in E.
      rewrite (bool_decide_eq_true_2 (f ∈ seenl)) by by apply Hs.
      assert ((length sel =? 3)%nat = false) as -> by (apply Nat.eqb_neq; lia).
      by apply IH.
    + apply bool_decide_eq_false in E.
      rewrite (bool_decide_eq_false_2 (f ∈ seenl)) by (by rewrite <- Hs).
      destruct (length (sel ++ [(f, ln)]) =? 3)%nat eqn:E3.
      * apply Nat.eqb_eq in E3. rewrite length_app in E3. simpl in E3.
        replace (3 - length sel)%nat with 1%nat by lia. simpl.
        by rewrite firstn_O.
      * apply Nat.eqb_neq in E3. rewrite length_app in E3. simpl in E3.
        rewrite (IH _ (f :: seenl)).
        -- rewrite length_app. simpl.
           replace (3 - length sel)%nat with (S (3 - (length sel + 1)))%nat by lia.
           simpl. by rewrite <- app_assoc.
        -- intros g. rewrite elem_of_union, elem_of_singleton, elem_of_cons, Hs. done.
        -- rewrite length_app. simpl. lia.
Qed.

Lemma firsts_from_fresh seen hits f ln :
  (f, ln) ∈ firsts_from seen hits -> f ∉ seen.
Proof.
  revert seen. induction hits as [|[g l] hits IH]; intros seen; simpl.
  - by intros H%elem_of_nil.
  - case_bool_decide as E; [apply IH|].
    intros [H|H]%elem_of_cons.
    + by injection H as -> ->.
    + apply IH in H. intros Hin. apply H. by right.
Qed.

Lemma firsts_from_NoDup seen hits : NoDup (map fst (firsts_from seen hits)).
Proof.
  revert seen. induction hits as [|[g l] hits IH]; intros seen; simpl.
  - constructor.
  - case_bool_decide as E; [apply IH|].
    simpl. constructor; [|apply IH].
    intros Hin. apply list_elem_of_fmap in Hin as ([g' l'] & Hg & Hin). simpl in Hg. subst g'.
    apply firsts_from_fresh in Hin. apply Hin. left.
Qed.

(** A selected hit is the first hit of its file. *)
Lemma firsts_from_first seen hits f ln :
  (f, ln) ∈ firsts_from seen hits ->
  exists i, hits !! i = Some (f, ln)
            /\ forall j g l, (j < i)%nat -> hits !! j = Some (g, l) -> g <> f.
Proof.
  revert seen. induction hits as [|[g l] hits IH]; intros seen; simpl.
  - by intros H%elem_of_nil.
  - case_bool_decide as E.
    + intros H. pose proof (firsts_from_fresh _ _ _ _ H) as Hf.
      apply IH in H as (i & Hi & Hj). exists (S i). split; [done|].
      intros [|j] g' l' Hlt Hg'; simpl in Hg'.
      * injection Hg' as <- <-. by intros ->.
      * apply (Hj j g' l'); [lia|done].
    + intros [H|H]%elem_of_cons.
      * injection H as -> ->. exists 0%nat. split; [done|]. intros; lia.
      * pose proof (firsts_from_fresh _ _ _ _ H) as Hf.
        apply IH in H as (i & Hi & Hj). exists (S i). split; [done|].
        intros [|j] g' l' Hlt Hg'; simpl in Hg'.
        -- injection Hg' as <- <-. intros ->. apply Hf. left.
        -- apply (Hj j g' l'); [lia|done].
Qed.

(** Every file of the hits is seen or among the first hits. *)
Lemma firsts_from_all seen hits f ln :
  (f, ln) ∈ hits -> f ∈ seen \/ f ∈ map fst (firsts_from seen hits).
Proof.
  revert seen. induction hits as [|[g l] hits IH]; intros seen.
  - by intros H%elem_of_nil.
  - intros [H|H]%elem_of_cons.
    + injection H as -> ->. simpl. case_bool_decide as E; [by left|].
      right. simpl. left.
    + simpl. case_bool_decide as E; [by apply IH|].
      destruct (IH (g :: seen) H) as [Hs|Hs].
      * apply elem_of_cons in Hs as [->|Hs]; [|by left]. right. simpl. left.
      * right. simpl. by right.
Qed.

End SelectFacts.

(** X19. The hits that [mech_fix.py] selects for the TS2362 context
    report are at most three, of pairwise different files, and each is
    the first TS2362 hit of its file; when fewer than three are
    selected, every file with a TS2362 hit is among them. *)
Theorem X19_select_first_three_files (hits : list (string * Z)) :
  (length (MechFixMain.select hits) <= 3)%nat
  /\ NoDup (map fst (MechFixMain.select hits))
  /\ (forall f ln, (f, ln) ∈ MechFixMain.select hits ->
        exists i, hits !! i = Some (f, ln)
                  /\ forall j g l, (j < i)%nat -> hits !! j = Some (g, l) -> g <> f)
  /\ ((length (MechFixMain.select hits) < 3)%nat ->
        forall f ln, (f, ln) ∈ hits -> f ∈ map fst (MechFixMain.select hits)).
Proof.
  assert (E : MechFixMain.select hits = firstn 3 (firsts hits)).
  { unfold MechFixMain.select, firsts.
    rewrite (SelectFacts.select_loop_spec hits ∅ [] []); [done| |simpl; lia].
    intros f. split; [by intros H%elem_of_empty|by intros H%elem_of_nil]. }
  rewrite E. split_and!.
  - rewrite length_take. lia.
  - change (map fst (take 3 (firsts hits))) with (fst <$> take 3 (firsts hits)).
    rewrite fmap_take. eapply sublist_NoDup; [|apply sublist_take].
    apply SelectFacts.firsts_from_NoDup.
  - intros f ln Hin. apply (SelectFacts.firsts_from_first [] hits).
    apply elem_of_take in Hin as (i & Hi & _). by eapply list_elem_of_lookup_2.
  - intros Hl f ln Hin. rewrite length_take in Hl.
    rewrite take_ge by lia.
    destruct (SelectFacts.firsts_from_all [] hits f ln Hin) as [H|H]; [|done].
    by apply elem_of_nil in H.
Qed.

Module ContextFacts.

Lemma range_lookup a b k :
  (k < Z.to_nat (b - a))%nat -> MechFixMain.range a b !! k = Some (a + Z.of_nat k).
Proof.
  intros H. unfold MechFixMain.range.
  change (map ?f ?l) with (f <$> l).
  rewrite list_lookup_fmap, lookup_seq_lt by done. done.
Qed.

Lemma range_length a b : length (MechFixMain.range a b) = Z.to_nat (b - a).
Proof. unfold MechFixMain.range. by rewrite length_map, length_seq. Qed.

Lemma range_elem a b i : i ∈ MechFixMain.range a b -> a <= i < b.
Proof.
  unfold MechFixMain.range. change (map ?f ?l) with (f <$> l).
  intros (k & -> & Hk)%list_elem_of_fmap. apply elem_of_seq in Hk. lia.
Qed.

(** Within the bounds of the context window the index is in range. *)
Lemma index_in_range {A} (lines : list A) i :
  1 <= i <= Z.of_nat (length lines) ->
  MechFixMain.index lines (i - 1) = lines !! Z.to_nat (i - 1)
  /\ is_Some (lines !! Z.to_nat (i - 1)).
Proof.
  intros H. unfold MechFixMain.index.
  destruct (0 <=? i - 1) eqn:E; [|apply Z.leb_gt in E; lia].
  split; [done|]. apply lookup_lt_is_Some. lia.
Qed.

Lemma context_line_some lines i :
  1 <= i <= Z.of_nat (length lines) ->
  exists l, lines !! Z.to_nat (i - 1) = Some l
            /\ MechFixMain.context_line lines i
               = Some (MechFixMain.rjust4 (Py.str_int i) +:+ " " +:+ l +:+ NL).
Proof.
  intros H. destruct (index_in_range lines i H) as [E [l Hl]].
  exists l. split; [done|]. unfold MechFixMain.context_line. by rewrite E, Hl.
Qed.

Lemma context_lines_some lines ln :
  is_Some (MechFixMain.context_lines lines ln).
Proof.
  unfold MechFixMain.context_lines, MechFixMain.context_bounds.
  apply mapM_is_Some_2, Forall_forall. intros i Hi%range_elem.
  unfold compose.
  destruct (context_line_some lines i) as (l & _ & ->); [lia|]. by eexists.
Qed.

Lemma context_block_some src hit : is_Some (MechFixMain.context_block src hit).
Proof.
  destruct hit as [fpath ln]. unfold MechFixMain.context_block.
  destruct (src !! _) as [text|]; [|by eexists].
  destruct (context_lines_some (Py.splitlines text) ln) as [body ->].
  unfold MechFixMain.context_bounds. by eexists.
Qed.

Lemma report_2362_some src text : is_Some (MechFixMain.report_2362 src text).
Proof.
  unfold MechFixMain.report_2362.
  destruct (mapM_is_Some_2 (MechFixMain.context_block src)
              (MechFixMain.select (MechFixMain.hits_2362 text))) as [blocks ->].
  - apply Forall_forall. intros hit _. unfold compose. apply context_block_some.
  - by eexists.
Qed.

End ContextFacts.

(** X20. The context window that [mech_fix.py] prints around a TS2362
    hit never indexes outside the file, whatever line number the
    diagnostic carries: it holds the lines numbered from [max(1, ln-30)]
    to [min(len, ln+30)], at most 61, each printed with its 1-based
    number and its own text.  The report is therefore always written
    in full. *)
Theorem X20_context_window_in_range (src : FS) (text : string)
    (lines : list string) (ln : Z) :
  is_Some (MechFixMain.report_2362 src text)
  /\ exists body,
       MechFixMain.context_lines lines ln = Some body
       /\ length body
          = Z.to_nat (Z.min (Z.of_nat (length lines)) (ln + 30) + 1 - Z.max 1 (ln - 30))
       /\ (length body <= 61)%nat
       /\ forall k l, body !! k = Some l ->
            exists src_line,
              lines !! (Z.to_nat (Z.max 1 (ln - 30) - 1) + k)%nat = Some src_line
              /\ l = MechFixMain.rjust4 (Py.str_int (Z.max 1 (ln - 30) + Z.of_nat k))
                       +:+ " " +:+ src_line +:+ NL.
Proof.
  split; [apply ContextFacts.report_2362_some|].
  destruct (ContextFacts.context_lines_some lines ln) as [body Hb].
  exists body. split; [done|].
  unfold MechFixMain.context_lines, MechFixMain.context_bounds in Hb.
  pose proof (length_mapM _ _ _ Hb) as Hlen.
  rewrite ContextFacts.range_length in Hlen.
  split; [by rewrite <- Hlen|]. split; [lia|].
  intros k l Hk. apply mapM_Some_1 in Hb.
  destruct (Forall2_lookup_r _ _ _ _ _ Hb Hk) as (i & Hi & Hl).
  assert (Hklt : (k < length body)%nat) by (by eapply lookup_lt_Some).
  rewrite ContextFacts.range_lookup in Hi by lia. injection Hi as <-.
  destruct (ContextFacts.context_line_some lines (Z.max 1 (ln - 30) + Z.of_nat k))
    as (sl & Hsl & Hcl); [lia|].
  rewrite Hcl in Hl. injection Hl as <-. exists sl. split; [|done].
  rewrite <- Hsl. f_equal. lia.
Qed.

(** ** [mech_fix.py]: the missing-module report *)

Module ModuleFacts.




End ModuleFacts.

(** ** [mech_fix.py]: the import-fix loop *)

Module ImportLoopFacts.

Lemma import_step_cases st rel :
  let p := Pathlib.joinpath MechFixMain.root rel in
  (MechFixMain.import_step st rel = st)
  \/ exists txt,
       fst st !! p = Some txt
       /\ (String.eqb (Pathlib.suffix_of (Pathlib.name p)) ".ts"
           || String.eqb (Pathlib.suffix_of (Pathlib.name p)) ".tsx") = true
       /\ MechFix.fix_imports (Pathlib.suffix_of (Pathlib.name p)) (Pathlib.str_abs p) txt
          <> txt
       /\ MechFixMain.import_step st rel
          = (<[p := MechFix.fix_imports (Pathlib.suffix_of (Pathlib.name p))
                      (Pathlib.str_abs p) txt]> (fst st),
             snd st ++ [rel]).
Proof.
  intros p. unfold MechFixMain.import_step. fold p.
  destruct (fst st !! p) as [txt|] eqn:Ep; [|by left].
  destruct (String.eqb _ ".ts" || String.eqb _ ".tsx") eqn:Es; [|by left].
  cbn [negb].
  destruct (String.eqb _ txt) eqn:Et; [by left|].
  right. exists txt. split_and!; try done. by apply String.eqb_neq.
Qed.

Lemma import_loop_inv files : forall st,
  let r := fold_left MechFixMain.import_step files st in
  dom (fst r) = dom (fst st)
  /\ exists added,
       snd r = snd st ++ added
       /\ (forall rel, rel ∈ added -> rel ∈ files)
       /\ forall p : Path,
            (forall rel, rel ∈ added -> Pathlib.joinpath MechFixMain.root rel <> p) ->
            fst r !! p = fst st !! p.
Proof.
  induction files as [|rel files IH]; intros st r.
  - split; [done|]. exists []. split; [by rewrite app_nil_r|].
    split; [by intros ? ?%elem_of_nil|done].
  - subst r. change (fold_left ?f (rel :: files) st)
      with (fold_left f files (f st rel)).
    destruct (IH (MechFixMain.import_step st rel)) as (Hd & added & Hs & Hin & Hl).
    destruct (import_step_cases st rel) as [E|(txt & Ht & Hsuf & Hne & E)].
    + rewrite E in *. split; [done|]. exists added. split; [done|].
      split; [|done]. intros x Hx. right. by apply Hin.
    + rewrite E in *. cbn [fst snd] in Hd, Hs, Hl.
      split.
      * rewrite Hd. apply dom_insert_lookup_L. by eexists.
      * exists (rel :: added). split; [by rewrite Hs, <- app_assoc|]. split.
        -- intros x [->|Hx]%elem_of_cons; [left|right; by apply Hin].
        -- intros p Hp. rewrite Hl.
           ++ apply lookup_insert_ne. apply Hp. left.
           ++ intros x Hx. apply Hp. by right.
Qed.

(** With one name per path, a named file is fixed once. *)
Lemma import_loop_named files : forall st rel,
  NoDup (map (Pathlib.joinpath MechFixMain.root) files) ->
  rel ∈ files ->
  let p := Pathlib.joinpath MechFixMain.root rel in
  let suf := Pathlib.suffix_of (Pathlib.name p) in
  fst (fold_left MechFixMain.import_step files st) !! p
  = match fst st !! p with
    | Some txt =>
        Some (if String.eqb suf ".ts" || String.eqb suf ".tsx"
              then MechFix.fix_imports suf (Pathlib.str_abs p) txt else txt)
    | None => None
    end.
Proof.
  induction files as [|x files IH]; intros st rel Hnd Hin p suf.
  - by apply elem_of_nil in Hin.
  - change (fold_left ?f (x :: files) st) with (fold_left f files (f st x)).
    cbn [map] in Hnd. apply NoDup_cons in Hnd as [Hx Hnd].
    apply elem_of_cons in Hin as [->|Hin].
    + destruct (import_loop_inv files (MechFixMain.import_step st x))
        as (_ & added & _ & Hadd & Hl).
      rewrite Hl.
      * fold p. destruct (import_step_cases st x) as [E|(txt & Ht & Hsuf & Hne & E)].
        -- rewrite E. unfold MechFixMain.import_step in E. fold p in E.
           destruct (fst st !! p) as [txt|] eqn:Ep; [|done]. fold suf in E.
           destruct (String.eqb suf ".ts" || String.eqb suf ".tsx") eqn:Es; [|done].
           cbn [negb] in E.
           destruct (String.eqb _ txt) eqn:Et.
           ++ apply String.eqb_eq in Et. by rewrite Et.
           ++ exfalso. cbn [negb] in E.
              assert (Hsnd : snd st ++ [x] = snd st) by (by rewrite <- E at 2).
              apply (f_equal length) in Hsnd. rewrite length_app in Hsnd.
              simpl in Hsnd. lia.
        -- rewrite E. cbn [fst]. fold p. rewrite lookup_insert_eq.
           fold p in Ht. rewrite Ht. fold p suf in Hsuf. by rewrite Hsuf.
      * intros y Hy Heq. apply Hx. unfold p in Heq. rewrite <- Heq.
        apply list_elem_of_fmap. exists y. split; [done|by apply Hadd].
    + rewrite (IH _ rel Hnd Hin). fold p suf.
      assert (Hne : Pathlib.joinpath MechFixMain.root x <> p).
      { intros Heq. apply Hx. rewrite Heq. unfold p. apply list_elem_of_fmap. by exists rel. }
      destruct (import_step_cases st x) as [E|(txt & Ht & Hsuf & Hne' & E)].
      * by rewrite E.
      * rewrite E. cbn [fst]. by rewrite lookup_insert_ne.
Qed.

End ImportLoopFacts.

(** X22. The import-fix loop of [mech_fix.py] creates and deletes no
    file, reports as updated only names from the list it was given, and
    leaves every path it does not report with the text it had. *)
Theorem X22_import_loop_scope (files : list string) (src : FS) :
  dom (fst (MechFixMain.import_loop files src)) = dom src
  /\ (forall rel, rel ∈ snd (MechFixMain.import_loop files src) -> rel ∈ files)
  /\ (forall p : Path,
        (forall rel, rel ∈ snd (MechFixMain.import_loop files src) ->
           Pathlib.joinpath MechFixMain.root rel <> p) ->
        fst (MechFixMain.import_loop files src) !! p = src !! p).
Proof.
  destruct (ImportLoopFacts.import_loop_inv files (src, []))
    as (Hd & added & Hs & Hin & Hl).
  unfold MechFixMain.import_loop. cbn [fst snd app] in *.
  rewrite Hs. by split_and!.
Qed.

(** X23. When the listed names denote pairwise different paths, each
    listed file that exists ends with the text [fix_imports] gives for
    its original text if its suffix is [.ts] or [.tsx], and with its
    original text otherwise; a listed file that does not exist is not
    created. *)
Theorem X23_import_loop_fixes_each_file_once
    (files : list string) (src : FS) (rel : string) :
  NoDup (map (Pathlib.joinpath MechFixMain.root) files) ->
  rel ∈ files ->
  let p := Pathlib.joinpath MechFixMain.root rel in
  let suf := Pathlib.suffix_of (Pathlib.name p) in
  fst (MechFixMain.import_loop files src) !! p
  = match src !! p with
    | Some txt =>
        Some (if String.eqb suf ".ts" || String.eqb suf ".tsx"
              then MechFix.fix_imports suf (Pathlib.str_abs p) txt else txt)
    | None => None
    end.
Proof.
  intros Hnd Hin. apply (ImportLoopFacts.import_loop_named files (src, []) rel Hnd Hin).
Qed.

Lemma X23_witness :
  let files := ["src/a.ts"; "src/b.md"] in
  let src : FS := {[ a_ts := "export const v = view(1);";
                     Pathlib.joinpath MechFixMain.root "src/b.md" := "view(" ]} in
  NoDup (map (Pathlib.joinpath MechFixMain.root) files)
  /\ "src/a.ts" ∈ files
  /\ fst (MechFixMain.import_loop files src) !! Pathlib.joinpath MechFixMain.root "src/a.ts"
     = match src !! Pathlib.joinpath MechFixMain.root "src/a.ts" with
       | Some txt =>
           Some (if String.eqb
                      (Pathlib.suffix_of
                         (Pathlib.name (Pathlib.joinpath MechFixMain.root "src/a.ts")))
                      ".ts"
                    || String.eqb
                         (Pathlib.suffix_of
                            (Pathlib.name (Pathlib.joinpath MechFixMain.root "src/a.ts")))
                         ".tsx"
                 then MechFix.fix_imports
                        (Pathlib.suffix_of
                           (Pathlib.name (Pathlib.joinpath MechFixMain.root "src/a.ts")))
                        (Pathlib.str_abs (Pathlib.joinpath MechFixMain.root "src/a.ts"))
                        txt
                 else txt)
       | None => None
       end.
Proof.
  intros files src.
  assert (H1 : NoDup (map (Pathlib.joinpath MechFixMain.root) files)).
  { vm_compute. repeat constructor; [|by intros ?%elem_of_nil].
    intros [E|E%elem_of_nil]%elem_of_cons; [discriminate|done]. }
  assert (H2 : "src/a.ts" ∈ files) by left.
  split; [exact H1|]. split; [exact H2|].
  exact (X23_import_loop_fixes_each_file_once files src "src/a.ts" H1 H2).
Defined.

(** ** [remove_ts_expect.py]: what the run logs *)

Module RteLogFacts.

Lemma fix_text_log lines text l :
  l ∈ snd (RemoveTsExpect.fix_text lines text) -> l ∈ lines.
Proof.
  unfold RemoveTsExpect.fix_text, RemoveTsExpect.pop_loop.
  pose proof (RteFacts.pop_fold_log _
                (DescendingFacts.sorted_set_desc_descending lines)
                (Py.splitlines_keepends text) []) as Hsnd.
  destruct (fold_left RemoveTsExpect.pop_step _ _) as [txt popped].
  cbn [snd app] in Hsnd. subst popped.
  intros H.
  assert (Hin : l ∈ List.filter (removable (Py.splitlines_keepends text))
                      (RemoveTsExpect.sorted_set_desc lines)).
  { destruct (List.filter _ _); [by apply elem_of_nil in H|exact H]. }
  apply list_elem_of_In, filter_In in Hin as [Hin _].
  by apply RemovalFacts.elem_of_sorted_set_desc, list_elem_of_In.
Qed.

Lemma group_entry_hit hits f ls ln :
  (f, ls) ∈ RemoveTsExpect.group_byfile hits -> ln ∈ ls -> (f, ln) ∈ hits.
Proof.
  intros He Hl. apply FileLoopFacts.elem_of_keyed in He. cbn [fst] in He.
  rewrite group_byfile_keyed in He.
  assert (ls = lines_of f hits) as ->.
  { destruct (lines_of f hits); [by apply elem_of_nil in He|].
    apply list_elem_of_singleton in He. by injection He. }
  unfold lines_of in Hl. apply list_elem_of_In, in_map_iff in Hl as ([g l] & <- & Hh).
  apply filter_In in Hh as [Hh Hg]. cbn [fst snd] in *.
  apply String.eqb_eq in Hg as ->. by apply list_elem_of_In.
Qed.

Lemma file_loop_inv (src0 : FS) g : forall st,
  dom (fst st) = dom src0 ->
  let r := fold_left RemoveTsExpect.file_step g st in
  dom (fst r) = dom src0
  /\ exists added,
       snd r = snd st ++ added
       /\ (forall f ln, (f, ln) ∈ added ->
             is_Some (src0 !! Pathlib.joinpath RemoveTsExpect.root f)
             /\ exists ls, (f, ls) ∈ g /\ ln ∈ ls)
       /\ forall p : Path,
            (forall f ln, (f, ln) ∈ added ->
               Pathlib.joinpath RemoveTsExpect.root f <> p) ->
            fst r !! p = fst st !! p.
Proof.
  induction g as [|[f lines] g IH]; intros [src removed] Hd r.
  - split; [done|]. exists []. split; [by rewrite app_nil_r|].
    split; [by intros ? ? ?%elem_of_nil|done].
  - subst r. change (fold_left ?h ((f, lines) :: g) ?s) with (fold_left h g (h s (f, lines))).
    cbn [fst snd] in Hd.
    assert (Hlift : forall added : list (string * Z),
              (forall f' ln, (f', ln) ∈ added ->
                 is_Some (src0 !! Pathlib.joinpath RemoveTsExpect.root f')
                 /\ exists ls, (f', ls) ∈ g /\ ln ∈ ls) ->
              forall f' ln, (f', ln) ∈ added ->
                 is_Some (src0 !! Pathlib.joinpath RemoveTsExpect.root f')
                 /\ exists ls, (f', ls) ∈ (f, lines) :: g /\ ln ∈ ls).
    { intros added H f' ln Hin. destruct (H f' ln Hin) as (Hs & ls & Hls & Hln).
      split; [done|]. exists ls. split; [by right|done]. }
    unfold RemoveTsExpect.file_step at 2 4 6. cbn [fst snd].
    set (p := Pathlib.joinpath RemoveTsExpect.root f).
    destruct (src !! p) as [text|] eqn:Hp.
    + destruct (RemoveTsExpect.fix_text lines text) as [text' popped] eqn:Efix.
      destruct popped as [|x popped].
      * destruct (IH (src, removed) Hd) as (Hd' & added & Hs & Hin & Hl).
        split; [done|]. exists added. split; [done|]. split; [by apply Hlift|done].
      * assert (Hd1 : dom (<[p := text']> src) = dom src0).
        { rewrite <- Hd. apply dom_insert_lookup_L. by eexists. }
        destruct (IH (<[p := text']> src, removed ++ map (pair f) (x :: popped)) Hd1)
          as (Hd' & added & Hs & Hin & Hl).
        split; [done|]. cbn [fst snd] in *.
        exists (map (pair f) (x :: popped) ++ added).
        split; [by rewrite Hs, <- app_assoc|]. split.
        -- intros f' ln [Hh|Hh]%elem_of_app; [|by apply (Hlift added)].
           apply list_elem_of_In, in_map_iff in Hh as (l & E & Hl').
           injection E as <- <-. split.
           ++ apply elem_of_dom. rewrite <- Hd. apply elem_of_dom. by eexists.
           ++ exists lines. split; [left|].
              apply (fix_text_log lines text). rewrite Efix. by apply list_elem_of_In.
        -- intros q Hq. rewrite Hl.
           ++ apply lookup_insert_ne. apply (Hq f x). apply elem_of_app. left.
              simpl. left.
           ++ intros f' ln Hin'. apply (Hq f' ln). apply elem_of_app. by right.
    + destruct (IH (src, removed) Hd) as (Hd' & added & Hs & Hin & Hl).
      split; [done|]. exists added. split; [done|]. split; [by apply Hlift|done].
Qed.

End RteLogFacts.

(** X28. [remove_ts_expect.py] creates and deletes no file; every
    removal it logs is a TS2578 hit for a file that exists; and a file
    for which it logs no removal keeps its text. *)
Theorem X28_rte_log_sound (hits : list (string * Z)) (src : FS) :
  let r := RemoveTsExpect.file_loop (RemoveTsExpect.group_byfile hits) src in
  dom (fst r) = dom src
  /\ (forall f ln, (f, ln) ∈ snd r ->
        (f, ln) ∈ hits /\ is_Some (src !! Pathlib.joinpath RemoveTsExpect.root f))
  /\ (forall p : Path,
        (forall f ln, (f, ln) ∈ snd r -> Pathlib.joinpath RemoveTsExpect.root f <> p) ->
        fst r !! p = src !! p).
Proof.
  intros r. subst r. unfold RemoveTsExpect.file_loop.
  destruct (RteLogFacts.file_loop_inv src (RemoveTsExpect.group_byfile hits) (src, [])
              eq_refl) as (Hd & added & Hs & Hin & Hl).
  cbn [fst snd app] in *. rewrite Hs. split; [done|]. split; [|done].
  intros f ln Hfl. destruct (Hin f ln Hfl) as (Hsome & ls & Hls & Hln).
  split; [|done]. by eapply RteLogFacts.group_entry_hit.
Qed.

(** ** The diagnostic patterns *)

Module SemFacts.

Lemma cursor_eta cur : Re.Cursor (Re.pos cur) (Re.prev cur) (Re.rest cur) = cur.
Proof. by destruct cur. Qed.

Lemma lit_cons c t ps pv d r :
  Re.lit (String c t) (Re.Cursor ps pv (String d r))
  = if Ascii.eqb c d then Re.lit t (Re.Cursor (S ps) (Some d) r) else None.
Proof. reflexivity. Qed.

Lemma lit_nil cur : Re.lit EmptyString cur = Some cur.
Proof. reflexivity. Qed.

(** A literal that matches is the text between the two cursors. *)
Lemma lit_rest t : forall cur cur',
  Re.lit t cur = Some cur' ->
  Re.rest cur = t +:+ Re.rest cur'
  /\ Re.pos cur' = (Re.pos cur + String.length t)%nat.
Proof.
  induction t as [|c t IH]; intros [ps pv rs] cur'.
  - rewrite lit_nil. intros [= <-]. simpl. split; [done|lia].
  - destruct rs as [|d r]; [discriminate|]. rewrite lit_cons.
    destruct (Ascii.eqb c d) eqn:E; [|discriminate].
    apply Ascii.eqb_eq in E as ->. intros H. apply IH in H as [Hr Hp].
    cbn [Re.rest Re.pos] in *. rewrite PyFacts.str_app_cons, Hr, Hp.
    split; [done|]. simpl. lia.
Qed.

Lemma lit_app_intro t1 t2 : forall cur c1 c2,
  Re.lit t1 cur = Some c1 -> Re.lit t2 c1 = Some c2 ->
  Re.lit (t1 +:+ t2) cur = Some c2.
Proof.
  induction t1 as [|c t1 IH]; intros [ps pv rs] c1 c2.
  - rewrite lit_nil. by intros [= <-].
  - destruct rs as [|d r]; [discriminate|].
    rewrite PyFacts.str_app_cons, !lit_cons.
    destruct (Ascii.eqb c d); [|discriminate]. apply IH.
Qed.

Lemma lit_app_inv t1 t2 : forall cur c2,
  Re.lit (t1 +:+ t2) cur = Some c2 ->
  exists c1, Re.lit t1 cur = Some c1 /\ Re.lit t2 c1 = Some c2.
Proof.
  induction t1 as [|c t1 IH]; intros [ps pv rs] c2.
  - intros H. eexists. by rewrite lit_nil.
  - destruct rs as [|d r]; [discriminate|].
    rewrite PyFacts.str_app_cons, !lit_cons.
    destruct (Ascii.eqb c d); [|discriminate]. apply IH.
Qed.

(** A text that stands at a cursor matches as a literal. *)
Lemma lit_of_rest t : forall cur r,
  Re.rest cur = t +:+ r ->
  exists cur', Re.lit t cur = Some cur' /\ Re.rest cur' = r.
Proof.
  induction t as [|c t IH]; intros [ps pv rs] r; cbn [Re.rest].
  - intros ->. eexists. by rewrite lit_nil.
  - rewrite PyFacts.str_app_cons. intros ->. rewrite lit_cons, Ascii.eqb_refl.
    by apply IH.
Qed.

Lemma rep_sound {A} p rs : forall lo hi ps pv (k : Re.cursor -> option A) x,
  Re.rep p lo hi ps pv rs k = Some x ->
  exists t c',
    Re.lit t (Re.Cursor ps pv rs) = Some c' /\ all_chars p t = true
    /\ (lo <= String.length t)%nat /\ hi_ok hi (String.length t)
    /\ k c' = Some x.
Proof.
  assert (Hstop : forall lo hi ps pv rs (k : Re.cursor -> option A) x,
            match lo with O => k (Re.Cursor ps pv rs) | S _ => None end = Some x ->
            exists t c',
              Re.lit t (Re.Cursor ps pv rs) = Some c' /\ all_chars p t = true
              /\ (lo <= String.length t)%nat /\ hi_ok hi (String.length t)
              /\ k c' = Some x).
  { intros [|lo] hi ps pv rs0 k x H; [|discriminate].
    exists EmptyString, (Re.Cursor ps pv rs0). rewrite lit_nil.
    split_and!; try done. destruct hi; simpl; [lia|done]. }
  induction rs as [|c r IH]; intros lo hi ps pv k x; simpl.
  - apply Hstop.
  - destruct (p c && Re.hi_open hi) eqn:E; [|apply Hstop].
    destruct (Re.rep p _ _ _ _ r k) as [y|] eqn:Er; [|apply Hstop].
    intros [= ->]. apply IH in Er as (t & c' & Hl & Ha & Hlo & Hhi & Hk).
    apply andb_true_iff in E as [Hp Ho].
    exists (String c t), c'. rewrite lit_cons, Ascii.eqb_refl.
    split_and!; try done.
    + simpl. by rewrite Hp.
    + simpl. lia.
    + destruct hi as [[|h]|]; simpl in *; try done. lia.
Qed.

Lemma rep_complete {A} p t : forall lo hi ps pv rs (k : Re.cursor -> option A) c',
  Re.lit t (Re.Cursor ps pv rs) = Some c' -> all_chars p t = true ->
  (lo <= String.length t)%nat -> hi_ok hi (String.length t) ->
  is_Some (k c') ->
  is_Some (Re.rep p lo hi ps pv rs k).
Proof.
  induction t as [|c t IH]; intros lo hi ps pv rs k c' Hl Ha Hlo Hhi Hk.
  - rewrite lit_nil in Hl. injection Hl as <-. simpl in Hlo.
    assert (lo = 0%nat) as -> by lia. by apply ReFacts.rep_zero.
  - destruct rs as [|d r]; [discriminate|]. rewrite lit_cons in Hl.
    destruct (Ascii.eqb c d) eqn:E; [|discriminate].
    apply Ascii.eqb_eq in E as <-. simpl in Ha.
    apply andb_true_iff in Ha as [Hp Ha]. simpl.
    assert (Ho : Re.hi_open hi = true).
    { destruct hi as [[|h]|]; simpl in *; try done. lia. }
    rewrite Hp, Ho. simpl.
    destruct (IH (Nat.pred lo) (Re.hi_pred hi) (S ps) (Some c) r k c' Hl Ha)
      as [y ->]; [simpl in Hlo; lia| |done|by eexists].
    destruct hi as [[|h]|]; simpl in *; try done. lia.
Qed.

(** The matcher finds only matches of the pattern... *)
Lemma exec_sound {A} r :
  forall cur caps (k : Re.cursor -> Re.captures -> option A) x,
    Re.exec r cur caps k = Some x ->
    exists cur' caps', sem r cur caps cur' caps' /\ k cur' caps' = Some x.
Proof.
  induction r as [s|p|p lo hi|r1 IH1 r2 IH2|r1 IH1 r2 IH2|m| |n r IH];
    intros cur caps k x; cbn [Re.exec sem].
  - destruct (Re.lit s cur) as [cur'|] eqn:E; [|discriminate].
    intros H. by exists cur', caps.
  - destruct cur as [ps pv [|c r']]; cbn [Re.rest Re.pos]; [discriminate|].
    destruct (p c) eqn:Ep; [|discriminate]. intros H.
    eexists _, caps. split; [|exact H]. split; [|done].
    exists c. split; [done|]. unfold Py.chr. by rewrite lit_cons, Ascii.eqb_refl.
  - intros H. apply rep_sound in H as (t & c' & Hl & Ha & Hlo & Hhi & Hk).
    rewrite cursor_eta in Hl. exists c', caps. split; [|done].
    split; [|done]. by exists t.
  - intros H. apply IH1 in H as (c1 & cp1 & H1 & H).
    apply IH2 in H as (c2 & cp2 & H2 & H).
    exists c2, cp2. split; [|done]. by exists c1, cp1.
  - destruct (Re.exec r1 cur caps k) as [y|] eqn:E.
    + intros [= ->]. apply IH1 in E as (c' & cp' & H1 & H).
      exists c', cp'. split; [by left|done].
    + intros H. apply IH2 in H as (c' & cp' & H2 & H).
      exists c', cp'. split; [by right|done].
  - unfold bol_ok. destruct (Re.prev cur) as [c|].
    + destruct (m && Ascii.eqb c Py.LF); [|discriminate].
      intros H. by exists cur, caps.
    + intros H. by exists cur, caps.
  - destruct (xorb _ _) eqn:E; [|discriminate].
    intros H. by exists cur, caps.
  - intros H. apply IH in H as (c1 & cp1 & H1 & H).
    eexists _, _. split; [|exact H]. by exists cp1.
Qed.

(** ... and finds a match wherever the pattern has one. *)
Lemma exec_complete {A} r :
  forall cur caps cur' caps' (k : Re.cursor -> Re.captures -> option A),
    sem r cur caps cur' caps' -> is_Some (k cur' caps') ->
    is_Some (Re.exec r cur caps k).
Proof.
  induction r as [s|p|p lo hi|r1 IH1 r2 IH2|r1 IH1 r2 IH2|m| |n r IH];
    intros cur caps cur' caps' k; cbn [Re.exec sem].
  - intros [-> ->] Hk. done.
  - intros [(c & Hp & Hl) ->] Hk.
    destruct cur as [ps pv [|d r']]; [discriminate|]. unfold Py.chr in Hl.
    rewrite lit_cons in Hl. destruct (Ascii.eqb c d) eqn:E; [|discriminate].
    apply Ascii.eqb_eq in E as <-. rewrite lit_nil in Hl. injection Hl as <-.
    cbn [Re.rest Re.pos]. by rewrite Hp.
  - intros [(t & Hl & Ha & Hlo & Hhi) ->] Hk.
    rewrite <- (cursor_eta cur) in Hl.
    by apply (rep_complete p t lo hi _ _ _ _ cur').
  - intros (c1 & cp1 & H1 & H2) Hk.
    apply (IH1 _ _ c1 cp1); [done|]. by apply (IH2 _ _ cur' caps').
  - intros [H|H] Hk.
    + destruct (IH1 _ _ _ _ k H Hk) as [y ->]. by eexists.
    + destruct (Re.exec r1 cur caps k); [by eexists|]. by apply (IH2 _ _ cur' caps').
  - unfold bol_ok. intros (Hb & -> & ->) Hk.
    destruct (Re.prev cur) as [c|]; [|done]. by rewrite Hb.
  - intros (Hb & -> & ->) Hk. by rewrite Hb.
  - intros (cp & H & ->) Hk. by apply (IH _ _ cur' cp).
Qed.

End SemFacts.

Module HeadFacts.

Import SemFacts.

Lemma length_app_str s t :
  String.length (s +:+ t) = (String.length s + String.length t)%nat.
Proof. induction s as [|c s IH]; [done|]. rewrite PyFacts.str_app_cons. simpl. by rewrite IH. Qed.

Lemma length_nonempty t :
  (1 <= String.length t)%nat -> t <> EmptyString.
Proof. destruct t; simpl; [lia|done]. Qed.

Lemma nonempty_length t : t <> EmptyString -> (1 <= String.length t)%nat.
Proof. destruct t; simpl; [done|lia]. Qed.

Lemma head_re_unfold b :
  head_re b
  = Re.Seq (Re.Seq (Re.Seq (Re.Seq (Re.Seq (Re.Seq (Re.Bol b)
      (Re.Group 1 (Re.Seq (Re.Seq (Re.Seq (Re.Lit "src/")
                                          (Re.Rep (Re.none_of ":(") 1 None))
                                  (Re.Lit "."))
                          (Re.Alt (Re.Lit "ts") (Re.Lit "tsx")))))
      (Re.Lit "(")) (Re.Group 2 (Re.Rep Re.digit 1 None)))
      (Re.Lit ",")) (Re.Group 3 (Re.Rep Re.digit 1 None)))
      (Re.Lit "): error ").
Proof. reflexivity. Qed.

(** What the head of a diagnostic matches. *)
Lemma head_sem b cur caps cur' caps' :
  sem (head_re b) cur caps cur' caps'
  <-> bol_ok b cur = true
      /\ exists name ext d2 d3,
           name_ok name /\ ext_ok ext /\ digits d2 /\ digits d3
           /\ Re.lit (head_text name ext d2 d3) cur = Some cur'
           /\ caps' = head_caps (Re.pos cur) (file_name name ext) d2 d3 ++ caps.
Proof.
  rewrite head_re_unfold. cbn [sem]. split.
  - intros (c6 & cp6 & (c5 & cp5 & (c4 & cp4 & (c3 & cp3 & (c2 & cp2 &
             (c1 & cp1 & (Hb & -> & ->) & (cpg & Hg & ->))
             & (Hl3 & ->)) & (cpd2 & ((d2 & Hd2 & Ha2 & Hn2 & _) & ->) & ->))
             & (Hl5 & ->)) & (cpd3 & ((d3 & Hd3 & Ha3 & Hn3 & _) & ->) & ->))
             & (Hl7 & ->)).
    destruct Hg as (g3 & cg3 & (g2 & cg2 & (g1 & cg1 & (Hs & ->)
                     & ((name & Hname & Han & Hnn & _) & ->)) & (Hdot & ->)) & Hext).
    split; [done|].
    assert (Hext' : exists ext, ext_ok ext /\ Re.lit ext g3 = Some c2 /\ cpg = caps).
    { destruct Hext as [[H ->]|[H ->]]; [exists "ts"|exists "tsx"]; split_and!; try done;
        [by left|by right]. }
    destruct Hext' as (ext & Hext_ok & Hle & ->).
    exists name, ext, d2, d3.
    assert (Hf : Re.lit (file_name name ext) cur = Some c2).
    { unfold file_name.
      eapply lit_app_intro; [exact Hs|]. eapply lit_app_intro; [exact Hname|].
      eapply lit_app_intro; [exact Hdot|]. exact Hle. }
    split; [split; [done|by apply length_nonempty]|].
    split; [done|].
    split; [split; [done|by apply length_nonempty]|].
    split; [split; [done|by apply length_nonempty]|].
    split.
    + unfold head_text.
      eapply lit_app_intro; [exact Hf|]. eapply lit_app_intro; [exact Hl3|].
      eapply lit_app_intro; [exact Hd2|]. eapply lit_app_intro; [exact Hl5|].
      eapply lit_app_intro; [exact Hd3|]. exact Hl7.
    + apply lit_rest in Hf as [_ Hp2]. apply lit_rest in Hl3 as [_ Hp3].
      apply lit_rest in Hd2 as [_ Hp4]. apply lit_rest in Hl5 as [_ Hp5].
      apply lit_rest in Hd3 as [_ Hp6]. simpl in Hp3, Hp5.
      unfold head_caps. cbn [app]. rewrite Hp6, Hp5, Hp4, Hp3, Hp2. done.
  - intros (Hb & name & ext & d2 & d3 & [Han Hnn] & Hext & [Ha2 Hn2] & [Ha3 Hn3]
            & Hl & ->).
    unfold head_text in Hl.
    apply lit_app_inv in Hl as (c2 & Hf & Hl).
    apply lit_app_inv in Hl as (c3 & Hl3 & Hl).
    apply lit_app_inv in Hl as (c4 & Hd2 & Hl).
    apply lit_app_inv in Hl as (c5 & Hl5 & Hl).
    apply lit_app_inv in Hl as (c6 & Hd3 & Hl7).
    pose proof Hf as Hf0. unfold file_name in Hf.
    apply lit_app_inv in Hf as (g1 & Hs & Hf).
    apply lit_app_inv in Hf as (g2 & Hname & Hf).
    apply lit_app_inv in Hf as (g3 & Hdot & Hle).
    apply lit_rest in Hf0 as [_ Hp2]. pose proof (lit_rest _ _ _ Hl3) as [_ Hp3].
    pose proof (lit_rest _ _ _ Hd2) as [_ Hp4]. pose proof (lit_rest _ _ _ Hl5) as [_ Hp5].
    pose proof (lit_rest _ _ _ Hd3) as [_ Hp6]. simpl in Hp3, Hp5.
    exists c6, (head_caps (Re.pos cur) (file_name name ext) d2 d3 ++ caps).
    split; [|done].
    exists c5, ((2%nat, (Re.pos c3, Re.pos c4)) :: (1%nat, (Re.pos cur, Re.pos c2)) :: caps).
    split.
    + exists c4, ((2%nat, (Re.pos c3, Re.pos c4)) :: (1%nat, (Re.pos cur, Re.pos c2)) :: caps).
      split; [|done].
      exists c3, ((1%nat, (Re.pos cur, Re.pos c2)) :: caps). split.
      * exists c2, ((1%nat, (Re.pos cur, Re.pos c2)) :: caps). split; [|done].
        exists cur, caps. split; [done|]. exists caps. split; [|done].
        exists g3, caps. split.
        -- exists g2, caps. split; [|done]. exists g1, caps. split; [done|].
           split; [|done]. exists name. split_and!; try done.
           by apply nonempty_length.
        -- destruct Hext as [->| ->]; [by left|by right].
      * exists ((1%nat, (Re.pos cur, Re.pos c2)) :: caps). split; [|done].
        split; [|done]. exists d2. split_and!; try done. by apply nonempty_length.
    + exists ((2%nat, (Re.pos c3, Re.pos c4)) :: (1%nat, (Re.pos cur, Re.pos c2)) :: caps).
      split.
      * split; [|done]. exists d3. split_and!; try done. by apply nonempty_length.
      * unfold head_caps. cbn [app]. rewrite Hp6, Hp5, Hp4, Hp3, Hp2. done.
Qed.

End HeadFacts.

Module ParseFacts.

Import SemFacts HeadFacts.

Lemma advance_text n : forall c c',
  advance n c = Some c' ->
  exists t, Re.rest c = t +:+ Re.rest c'
            /\ Re.pos c' = (Re.pos c + String.length t)%nat
            /\ (n = 0%nat /\ c' = c \/ is_Some (Re.prev c')).
Proof.
  induction n as [|n IH]; intros [ps pv rs] c'; cbn [advance Re.rest Re.pos].
  - intros [= <-]. exists EmptyString. simpl. split_and!; [done|lia|by left].
  - destruct rs as [|ch r]; [discriminate|]. intros H.
    apply IH in H as (t & Hr & Hp & Hv). cbn [Re.rest Re.pos] in *.
    exists (String ch t). rewrite PyFacts.str_app_cons, Hr, Hp. simpl.
    split_and!; [done|lia|]. right.
    destruct Hv as [[_ ->]|Hv]; [by eexists|done].
Qed.

(** A cursor of the subject [s]: the subject up to it and from it. *)
Lemma ahead_text s cur :
  ahead (start s) cur ->
  exists pre, s = pre +:+ Re.rest cur /\ Re.pos cur = String.length pre.
Proof.
  intros [n H]. apply advance_text in H as (t & Hr & Hp & _).
  exists t. cbn [start Re.rest Re.pos] in *. split; [done|lia].
Qed.

Lemma ahead_bol s cur :
  ahead (start s) cur -> bol_ok false cur = true -> cur = start s.
Proof.
  intros [n H] Hb. apply advance_text in H as (t & _ & _ & [[_ ->]|[c Hv]]); [done|].
  unfold bol_ok in Hb. by rewrite Hv in Hb.
Qed.

Lemma substring_0 t post : String.substring 0 (String.length t) (t +:+ post) = t.
Proof.
  induction t as [|c t IH]; [by destruct post|].
  rewrite PyFacts.str_app_cons. simpl. by rewrite IH.
Qed.

Lemma substring_mid pre t post :
  String.substring (String.length pre) (String.length t) (pre +:+ t +:+ post) = t.
Proof.
  induction pre as [|c pre IH]; [exact (substring_0 t post)|].
  rewrite PyFacts.str_app_cons. simpl. apply IH.
Qed.

Lemma group_at s m n b e pre t post :
  Re.lookup_cap n (Re.m_caps m) = Some (b, e) ->
  s = pre +:+ t +:+ post -> b = String.length pre -> e = (b + String.length t)%nat ->
  Re.group s m n = t.
Proof.
  intros Hc -> -> ->. unfold Re.group. rewrite Hc.
  replace (String.length pre + String.length t - String.length pre)%nat
    with (String.length t) by lia.
  apply substring_mid.
Qed.

(** The groups of a diagnostic head are the file name and the two
    numbers. *)
Lemma head_groups s m pre name ext d2 d3 post caps0 :
  s = pre +:+ head_text name ext d2 d3 +:+ post ->
  Re.m_caps m = caps0 ++ head_caps (String.length pre) (file_name name ext) d2 d3 ->
  Forall (fun c => (3 < fst c)%nat) caps0 ->
  Re.group s m 1 = file_name name ext
  /\ Re.group s m 2 = d2
  /\ Re.group s m 3 = d3.
Proof.
  intros Hs Hm H0.
  assert (Hlk : forall n, (n <= 3)%nat ->
            Re.lookup_cap n (Re.m_caps m)
            = Re.lookup_cap n (head_caps (String.length pre) (file_name name ext) d2 d3)).
  { intros n Hn. rewrite Hm. clear Hm. induction H0 as [|[i se] cs Hi _ IH]; [done|].
    simpl in Hi |- *. destruct (i =? n)%nat eqn:E; [apply Nat.eqb_eq in E; lia|done]. }
  unfold head_text in Hs. split_and!.
  - apply (group_at s m 1 _ _ pre (file_name name ext)
             ("(" +:+ d2 +:+ "," +:+ d3 +:+ "): error " +:+ post)
             (Hlk 1%nat ltac:(lia))); [|done..].
    rewrite Hs. by rewrite !PyFacts.str_app_assoc.
  - apply (group_at s m 2 _ _ (pre +:+ file_name name ext +:+ "(") d2
             ("," +:+ d3 +:+ "): error " +:+ post) (Hlk 2%nat ltac:(lia))).
    + rewrite Hs. by rewrite !PyFacts.str_app_assoc.
    + rewrite !length_app_str. simpl. lia.
    + done.
  - apply (group_at s m 3 _ _ (pre +:+ file_name name ext +:+ "(" +:+ d2 +:+ ",") d3
             ("): error " +:+ post) (Hlk 3%nat ltac:(lia))).
    + rewrite Hs. by rewrite !PyFacts.str_app_assoc.
    + rewrite !length_app_str. simpl. lia.
    + done.
Qed.

Lemma pattern_2578_unfold : pattern_2578 = Re.Seq (head_re false) (Re.Lit "TS2578").
Proof. reflexivity. Qed.

Lemma pattern_2307_unfold :
  AnchorFix.pattern_2307
  = Re.Seq (Re.Seq (Re.Seq (head_re false) (Re.Lit "TS2307: Cannot find module '"))
                   (Re.Group 4 (Re.Rep (Re.none_of "'") 1 None)))
           (Re.Lit "'").
Proof. reflexivity. Qed.

(** A match of the TS2578 pattern on a line. *)
Lemma match_2578 l cur m :
  ahead (start l) cur ->
  Re.match_at pattern_2578 cur = Some m ->
  exists name ext d2 d3 rest,
    name_ok name /\ ext_ok ext /\ digits d2 /\ digits d3
    /\ l = line_2578 name ext d2 d3 rest
    /\ Re.group l m 1 = file_name name ext
    /\ Re.group l m 2 = d2.
Proof.
  intros Ha Hm. unfold Re.match_at in Hm. rewrite pattern_2578_unfold in Hm.
  apply exec_sound in Hm as (c' & cp' & Hsem & Hm). injection Hm as <-.
  cbn [sem] in Hsem. destruct Hsem as (c6 & cp6 & Hh & Hl & ->).
  apply head_sem in Hh as (Hb & name & ext & d2 & d3 & Hn & He & H2 & H3 & Hlit & ->).
  pose proof (ahead_bol l cur Ha Hb) as ->.
  apply lit_rest in Hlit as [Hr _]. apply lit_rest in Hl as [Hr' _].
  cbn [start Re.rest Re.pos] in *.
  exists name, ext, d2, d3, (Re.rest c').
  assert (El : l = line_2578 name ext d2 d3 (Re.rest c')).
  { unfold line_2578. by rewrite Hr, Hr'. }
  split_and!; try done.
  - refine (proj1 (head_groups l _ EmptyString name ext d2 d3
                     ("TS2578" +:+ Re.rest c') [] _ _ _)); [|by rewrite app_nil_r|done].
    by rewrite El.
  - refine (proj1 (proj2 (head_groups l _ EmptyString name ext d2 d3
                     ("TS2578" +:+ Re.rest c') [] _ _ _))); [|by rewrite app_nil_r|done].
    by rewrite El.
Qed.


(** A match of the TS2307 pattern on a line. *)
Lemma match_2307 l cur m :
  ahead (start l) cur ->
  Re.match_at AnchorFix.pattern_2307 cur = Some m ->
  exists name ext d2 d3 spec rest,
    name_ok name /\ ext_ok ext /\ digits d2 /\ digits d3 /\ spec_ok spec
    /\ l = line_2307 name ext d2 d3 spec rest
    /\ Re.group l m 1 = file_name name ext
    /\ Re.group l m 4 = spec.
Proof.
  intros Ha Hm. unfold Re.match_at in Hm. rewrite pattern_2307_unfold in Hm.
  apply exec_sound in Hm as (c' & cp' & Hsem & Hm). injection Hm as <-.
  cbn [sem] in Hsem.
  destruct Hsem as (c9 & cp9 & (c8 & cp8 & (c7 & cp7 & Hh & Hl7 & ->)
                    & (cpg & ((spec & Hspec & Has & Hns & _) & ->) & ->)) & Hl9 & ->).
  apply head_sem in Hh as (Hb & name & ext & d2 & d3 & Hn & He & H2 & H3 & Hlit & ->).
  pose proof (ahead_bol l cur Ha Hb) as ->.
  pose proof (lit_rest _ _ _ Hlit) as [Hr Hp]. pose proof (lit_rest _ _ _ Hl7) as [Hr7 Hp7].
  pose proof (lit_rest _ _ _ Hspec) as [Hr8 Hp8]. pose proof (lit_rest _ _ _ Hl9) as [Hr9 _].
  cbn [start Re.rest Re.pos] in *.
  exists name, ext, d2, d3, spec, (Re.rest c').
  assert (El : l = line_2307 name ext d2 d3 spec (Re.rest c')).
  { unfold line_2307. by rewrite Hr, Hr7, Hr8, Hr9. }
  split_and!; try done.
  - split; [done|by apply length_nonempty].
  - refine (proj1 (head_groups l _ EmptyString name ext d2 d3
                     ("TS2307: Cannot find module '" +:+ spec +:+ "'" +:+ Re.rest c')
                     [(4%nat, (Re.pos c8, Re.pos c9))] _ _ _)).
    + by rewrite El.
    + cbn [Re.m_caps]. by rewrite app_nil_r.
    + repeat constructor.
  - apply (group_at l _ 4 (Re.pos c8) (Re.pos c9)
             (head_text name ext d2 d3 +:+ "TS2307: Cannot find module '")
             spec ("'" +:+ Re.rest c')).
    + reflexivity.
    + rewrite El. unfold line_2307. by rewrite !PyFacts.str_app_assoc.
    + rewrite Hp7, Hp, length_app_str. done.
    + done.
Qed.

Lemma all_chars_app p s t :
  all_chars p (s +:+ t) = all_chars p s && all_chars p t.
Proof.
  induction s as [|c s IH]; [done|].
  rewrite PyFacts.str_app_cons. simpl. by rewrite IH, andb_assoc.
Qed.

Lemma all_chars_impl (p q : ascii -> bool) t :
  (forall c, p c = true -> q c = true) -> all_chars p t = true -> all_chars q t = true.
Proof.
  intros H. induction t as [|c t IH]; [done|]. simpl.
  intros [Hc Ht]%andb_true_iff. by rewrite (H c Hc), IH.
Qed.

(** A text without the character [ch], followed by [ch], is found in
    one way only. *)
Lemma split_unique ch a : forall a' x x',
  all_chars (fun c => negb (Ascii.eqb c ch)) a = true ->
  all_chars (fun c => negb (Ascii.eqb c ch)) a' = true ->
  a +:+ String ch x = a' +:+ String ch x' -> a = a' /\ x = x'.
Proof.
  induction a as [|c a IH]; intros [|c' a'] x x' Ha Ha'.
  - by intros [= ->].
  - rewrite PyFacts.str_app_cons. intros [= <- _]. simpl in Ha'.
    by rewrite Ascii.eqb_refl in Ha'.
  - rewrite PyFacts.str_app_cons. intros [= -> _]. simpl in Ha.
    by rewrite Ascii.eqb_refl in Ha.
  - rewrite !PyFacts.str_app_cons. intros [= -> H]. simpl in Ha, Ha'.
    apply andb_true_iff in Ha as [_ Ha]. apply andb_true_iff in Ha' as [_ Ha'].
    destruct (IH a' x x' Ha Ha' H) as [-> ->]. done.
Qed.

Lemma name_no_paren c : Re.none_of ":(" c = true -> negb (Ascii.eqb c "(") = true.
Proof.
  destruct (Ascii.eqb c "(") eqn:E; [|done].
  apply Ascii.eqb_eq in E as ->. vm_compute. discriminate.
Qed.

Lemma digit_no_comma c : Re.digit c = true -> negb (Ascii.eqb c ",") = true.
Proof.
  destruct (Ascii.eqb c ",") eqn:E; [|done].
  apply Ascii.eqb_eq in E as ->. vm_compute. discriminate.
Qed.

Lemma digit_no_close c : Re.digit c = true -> negb (Ascii.eqb c ")") = true.
Proof.
  destruct (Ascii.eqb c ")") eqn:E; [|done].
  apply Ascii.eqb_eq in E as ->. vm_compute. discriminate.
Qed.

Lemma file_name_no_paren name ext :
  name_ok name -> ext_ok ext ->
  all_chars (fun c => negb (Ascii.eqb c "(")) (name +:+ "." +:+ ext) = true.
Proof.
  intros [Ha _] He. rewrite !all_chars_app.
  rewrite (all_chars_impl _ _ name name_no_paren Ha).
  by destruct He as [-> | ->].
Qed.

Lemma str_app_inv_head s a b : s +:+ a = s +:+ b -> a = b.
Proof.
  induction s as [|c s IH]; [done|]. rewrite !PyFacts.str_app_cons.
  intros [= H]. by apply IH.
Qed.

Lemma head_text_split name ext d2 d3 x :
  head_text name ext d2 d3 +:+ x
  = "src/" +:+ ((name +:+ "." +:+ ext)
                +:+ String "(" (d2 +:+ String "," (d3 +:+ String ")" (": error " +:+ x)))).
Proof.
  unfold head_text, file_name. rewrite !PyFacts.str_app_assoc. reflexivity.
Qed.

(** The head of a diagnostic is read in one way only. *)
Lemma head_unique name ext d2 d3 x name' ext' d2' d3' x' :
  name_ok name -> ext_ok ext -> digits d2 -> digits d3 ->
  name_ok name' -> ext_ok ext' -> digits d2' -> digits d3' ->
  head_text name ext d2 d3 +:+ x = head_text name' ext' d2' d3' +:+ x' ->
  file_name name ext = file_name name' ext' /\ d2 = d2' /\ d3 = d3' /\ x = x'.
Proof.
  intros Hn He [H2 _] [H3 _] Hn' He' [H2' _] [H3' _] H.
  rewrite !head_text_split in H. apply str_app_inv_head in H.
  apply split_unique in H as [Hf H];
    [|by apply file_name_no_paren..].
  apply split_unique in H as [Hd2 H];
    [|by apply (all_chars_impl _ _ _ digit_no_comma)..].
  apply split_unique in H as [Hd3 H];
    [|by apply (all_chars_impl _ _ _ digit_no_close)..].
  apply str_app_inv_head in H. unfold file_name. by rewrite Hf.
Qed.

(** The text of a diagnostic head stands at the start of a line that
    begins with it, and the head pattern matches it. *)
Lemma head_matches name ext d2 d3 x :
  name_ok name -> ext_ok ext -> digits d2 -> digits d3 ->
  exists c,
    sem (head_re false) (start (head_text name ext d2 d3 +:+ x)) []
        c (head_caps 0 (file_name name ext) d2 d3)
    /\ Re.rest c = x.
Proof.
  intros Hn He H2 H3.
  destruct (lit_of_rest (head_text name ext d2 d3)
              (start (head_text name ext d2 d3 +:+ x)) x eq_refl) as (c & Hl & Hr).
  exists c. split; [|done]. apply head_sem. split; [done|].
  exists name, ext, d2, d3. by split_and!.
Qed.

Lemma search_at_start r s m :
  Re.match_at r (start s) = Some m -> Re.search r s = Some m.
Proof.
  unfold Re.search, start. intros H. destruct s; simpl; by rewrite H.
Qed.

Lemma search_start_ahead r s m :
  Re.search r s = Some m ->
  exists cur, ahead (start s) cur /\ Re.match_at r cur = Some m.
Proof. apply CursorFacts.search_ahead. Qed.

Lemma parse_2578_sound l f n :
  parse_2578 l = Some (f, n) ->
  exists name ext d2 d3 rest,
    name_ok name /\ ext_ok ext /\ digits d2 /\ digits d3
    /\ l = line_2578 name ext d2 d3 rest
    /\ f = file_name name ext /\ n = Py.int d2.
Proof.
  unfold parse_2578. destruct (Re.search pattern_2578 l) as [m|] eqn:E; [|discriminate].
  intros [= <- <-]. apply search_start_ahead in E as (cur & Ha & Hm).
  destruct (match_2578 l cur m Ha Hm)
    as (name & ext & d2 & d3 & rest & Hn & He & H2 & H3 & Hl & Hg1 & Hg2).
  exists name, ext, d2, d3, rest. rewrite Hg1, Hg2. by split_and!.
Qed.

Lemma parse_2578_complete name ext d2 d3 rest :
  name_ok name -> ext_ok ext -> digits d2 -> digits d3 ->
  parse_2578 (line_2578 name ext d2 d3 rest)
  = Some (file_name name ext, Py.int d2).
Proof.
  intros Hn He H2 H3. set (l := line_2578 name ext d2 d3 rest).
  destruct (head_matches name ext d2 d3 ("TS2578" +:+ rest) Hn He H2 H3)
    as (c & Hsem & Hr).
  destruct (lit_of_rest "TS2578" c rest Hr) as (c' & Hl & _).
  assert (Hm : is_Some (Re.match_at pattern_2578 (start l))).
  { unfold Re.match_at. rewrite pattern_2578_unfold.
    eapply exec_complete; [|by eexists].
    cbn [sem]. exists c, (head_caps 0 (file_name name ext) d2 d3). split; [exact Hsem|].
    split; [exact Hl|done]. }
  destruct Hm as [m Hm]. unfold parse_2578. rewrite (search_at_start _ _ _ Hm).
  destruct (match_2578 l (start l) m (CursorFacts.ahead_refl _) Hm)
    as (name' & ext' & d2' & d3' & rest' & Hn' & He' & H2' & H3' & El & Hg1 & Hg2).
  rewrite Hg1, Hg2.
  destruct (head_unique name ext d2 d3 ("TS2578" +:+ rest)
              name' ext' d2' d3' ("TS2578" +:+ rest')) as (Hf & Hd2 & _); try done.
  by rewrite Hf, Hd2.
Qed.

Lemma spec_no_quote c : Re.none_of "'" c = true -> negb (Ascii.eqb c "'") = true.
Proof.
  destruct (Ascii.eqb c "'") eqn:E; [|done].
  apply Ascii.eqb_eq in E as ->. vm_compute. discriminate.
Qed.

Lemma parse_2307_sound l f spec :
  AnchorFix.parse_2307 l = Some (f, spec) ->
  exists name ext d2 d3 rest,
    name_ok name /\ ext_ok ext /\ digits d2 /\ digits d3 /\ spec_ok spec
    /\ l = line_2307 name ext d2 d3 spec rest
    /\ f = file_name name ext.
Proof.
  unfold AnchorFix.parse_2307.
  destruct (Re.search AnchorFix.pattern_2307 l) as [m|] eqn:E; [|discriminate].
  intros [= <- <-]. apply search_start_ahead in E as (cur & Ha & Hm).
  destruct (match_2307 l cur m Ha Hm)
    as (name & ext & d2 & d3 & spec & rest & Hn & He & H2 & H3 & Hs & Hl & Hg1 & Hg4).
  exists name, ext, d2, d3, rest. rewrite Hg1, Hg4. by split_and!.
Qed.

Lemma parse_2307_complete name ext d2 d3 spec rest :
  name_ok name -> ext_ok ext -> digits d2 -> digits d3 -> spec_ok spec ->
  AnchorFix.parse_2307 (line_2307 name ext d2 d3 spec rest)
  = Some (file_name name ext, spec).
Proof.
  intros Hn He H2 H3 [Hsa Hsn]. set (l := line_2307 name ext d2 d3 spec rest).
  destruct (head_matches name ext d2 d3
              ("TS2307: Cannot find module '" +:+ spec +:+ "'" +:+ rest) Hn He H2 H3)
    as (c & Hsem & Hr).
  destruct (lit_of_rest "TS2307: Cannot find module '" c _ Hr) as (c7 & Hl7 & Hr7).
  destruct (lit_of_rest spec c7 _ Hr7) as (c8 & Hl8 & Hr8).
  destruct (lit_of_rest "'" c8 _ Hr8) as (c9 & Hl9 & _).
  assert (Hm : is_Some (Re.match_at AnchorFix.pattern_2307 (start l))).
  { unfold Re.match_at. rewrite pattern_2307_unfold.
    eapply exec_complete; [|by eexists].
    cbn [sem]. eexists c8, _. split; [|split; [exact Hl9|reflexivity]].
    eexists c7, _. split.
    - exists c, (head_caps 0 (file_name name ext) d2 d3). split; [exact Hsem|].
      split; [exact Hl7|done].
    - eexists. split; [|reflexivity]. split; [|done].
      exists spec. split_and!; try done. by apply nonempty_length. }
  destruct Hm as [m Hm]. unfold AnchorFix.parse_2307.
  rewrite (search_at_start _ _ _ Hm).
  destruct (match_2307 l (start l) m (CursorFacts.ahead_refl _) Hm)
    as (name' & ext' & d2' & d3' & spec' & rest' & Hn' & He' & H2' & H3' & [Hsa' Hsn']
        & El & Hg1 & Hg4).
  rewrite Hg1, Hg4. unfold l, line_2307 in El.
  destruct (head_unique name ext d2 d3
              ("TS2307: Cannot find module '" +:+ spec +:+ "'" +:+ rest)
              name' ext' d2' d3'
              ("TS2307: Cannot find module '" +:+ spec' +:+ "'" +:+ rest'))
    as (Hf & _ & _ & Hx); try done.
  injection Hx as Hx.
  change ("'" +:+ ?y) with (String "'" y) in Hx.
  apply split_unique in Hx as [Hs _];
    [|apply (all_chars_impl _ _ _ spec_no_quote), Hsa
     |apply (all_chars_impl _ _ _ spec_no_quote), Hsa'].
  by rewrite Hf, Hs.
Qed.

End ParseFacts.

Module IterFacts.

Import SemFacts HeadFacts ParseFacts.

Lemma match_end_ahead r cur m :
  Re.match_at r cur = Some m -> ahead cur (Re.m_end m).
Proof.
  unfold Re.match_at. intros H.
  apply CursorFacts.exec_ahead in H as (c' & cp' & Ha & H). by injection H as <-.
Qed.

(** Every match that [finditer] returns is a match of the pattern at a
    cursor of the subject. *)
Lemma finditer_from_sound r fuel : forall cur0 m,
  m ∈ Re.finditer_from fuel r cur0 ->
  exists cur, ahead cur0 cur /\ Re.match_at r cur = Some m.
Proof.
  induction fuel as [|fuel IH]; intros cur0 m; cbn [Re.finditer_from].
  - by intros H%elem_of_nil.
  - destruct (Re.search_from r _ _ _) as [m0|] eqn:E; [|by intros H%elem_of_nil].
    apply CursorFacts.search_ahead in E as (cur1 & Ha1 & Hm1).
    rewrite cursor_eta in Ha1.
    pose proof (match_end_ahead r cur1 m0 Hm1) as He.
    assert (Hrec : forall nxt, ahead (Re.m_end m0) nxt ->
              m ∈ m0 :: Re.finditer_from fuel r nxt ->
              exists cur, ahead cur0 cur /\ Re.match_at r cur = Some m).
    { intros nxt Hn [->|Hin]%elem_of_cons; [by exists cur1|].
      apply IH in Hin as (cur & Ha & Hm). exists cur. split; [|done].
      eapply CursorFacts.ahead_trans; [exact Ha1|].
      eapply CursorFacts.ahead_trans; [exact He|].
      eapply CursorFacts.ahead_trans; [exact Hn|exact Ha]. }
    destruct (Re.m_start m0 <? Re.pos (Re.m_end m0))%nat.
    + apply Hrec, CursorFacts.ahead_refl.
    + destruct (Re.rest (Re.m_end m0)) as [|c rs] eqn:Er.
      * intros ->%list_elem_of_singleton. by exists cur1.
      * apply Hrec. rewrite <- (cursor_eta (Re.m_end m0)), Er.
        apply CursorFacts.ahead_step, CursorFacts.ahead_refl.
Qed.

Lemma finditer_sound r s m :
  m ∈ Re.finditer r s ->
  exists cur, ahead (start s) cur /\ Re.match_at r cur = Some m.
Proof. apply finditer_from_sound. Qed.

Lemma lit_text s cur t cur' :
  ahead (start s) cur -> Re.lit t cur = Some cur' ->
  exists pre, s = pre +:+ t +:+ Re.rest cur' /\ Re.pos cur = String.length pre.
Proof.
  intros (pre & Hs & Hp)%ahead_text Hl. apply lit_rest in Hl as [Hr _].
  exists pre. by rewrite Hs, Hr.
Qed.

Lemma ts2362_pat_unfold :
  MechFixMain.ts2362_pat = Re.Seq (head_re true) (Re.Lit "TS2362").
Proof. reflexivity. Qed.


(** The hits of [mech_fix.py] name files of the diagnostic shape. *)
Lemma hits_2362_shape text f n :
  (f, n) ∈ MechFixMain.hits_2362 text ->
  exists name ext d2,
    name_ok name /\ ext_ok ext /\ digits d2
    /\ f = file_name name ext /\ n = Py.int d2.
Proof.
  unfold MechFixMain.hits_2362. change (map ?g ?l) with (g <$> l).
  intros (m & E & Hin)%list_elem_of_fmap. injection E as -> ->.
  apply finditer_sound in Hin as (cur & Ha & Hm).
  unfold Re.match_at in Hm. rewrite ts2362_pat_unfold in Hm.
  apply exec_sound in Hm as (c' & cp' & Hsem & Hm). injection Hm as <-.
  cbn [sem] in Hsem. destruct Hsem as (c6 & cp6 & Hh & Hl & ->).
  apply head_sem in Hh as (Hb & name & ext & d2 & d3 & Hn & He & H2 & H3 & Hlit & ->).
  destruct (lit_text text cur _ c6 Ha Hlit) as (pre & Hs & Hp).
  destruct (head_groups text (Re.RMatch (Re.pos cur) c'
              (head_caps (Re.pos cur) (file_name name ext) d2 d3 ++ []))
              pre name ext d2 d3 (Re.rest c6) []) as (G1 & G2 & _).
  - exact Hs.
  - cbn [Re.m_caps]. by rewrite app_nil_r, Hp.
  - done.
  - exists name, ext, d2. by rewrite G1, G2.
Qed.


Lemma file_name_relative name ext : Py.startswith (file_name name ext) "/" = false.
Proof. reflexivity. Qed.

End IterFacts.

Module MechMainFacts.



End MechMainFacts.

(** ** [mech_fix.py]: the file names it collects *)

Module FilePatFacts.

Import SemFacts HeadFacts ParseFacts.

Lemma file_pat_exec {A} cur caps (k : Re.cursor -> Re.captures -> option A) :
  Re.exec MechFixMain.file_pat cur caps k
  = Re.exec (Re.Seq (Re.Seq (Re.Lit "src/") (Re.Rep (Re.none_of ":(") 1 None))
                    (Re.Lit "."))
      cur caps
      (fun c1 cp1 =>
         Re.exec (Re.Alt (Re.Lit "ts") (Re.Lit "tsx")) c1 cp1
           (fun c' cp' => k c' ((1%nat, (Re.pos cur, Re.pos c')) :: cp'))).
Proof. reflexivity. Qed.

(** With nothing after it in the pattern, the alternative [ts|tsx]
    always takes [ts]. *)
Lemma alt_ts_first {A} c1 cp1 (k : Re.cursor -> Re.captures -> option A) x :
  (forall c cp, is_Some (k c cp)) ->
  Re.exec (Re.Alt (Re.Lit "ts") (Re.Lit "tsx")) c1 cp1 k = Some x ->
  exists c2, Re.lit "ts" c1 = Some c2 /\ k c2 cp1 = Some x.
Proof.
  intros Hk. cbn [Re.exec].
  destruct (Re.lit "ts" c1) as [c2|] eqn:E.
  - destruct (Hk c2 cp1) as [y Hy]. rewrite Hy. intros [= <-]. by exists c2.
  - destruct (Re.lit "tsx" c1) as [c3|] eqn:E3; [|discriminate].
    destruct (CursorFacts.lit_app "ts" "x" c1) as [c2 Hc2];
      [change ("ts" +:+ "x") with "tsx"; rewrite E3; by eexists|].
    congruence.
Qed.

Lemma match_file_pat s cur m :
  ahead (start s) cur ->
  Re.match_at MechFixMain.file_pat cur = Some m ->
  exists name, name_ok name /\ Re.group s m 1 = file_name name "ts".
Proof.
  intros Ha Hm. unfold Re.match_at in Hm. rewrite file_pat_exec in Hm.
  apply exec_sound in Hm as (c1 & cp1 & Hsem & Hm).
  apply alt_ts_first in Hm as (c2 & Hts & Hm); [|by eexists].
  injection Hm as <-. cbn [sem] in Hsem.
  destruct Hsem as (g2 & cg2 & (g1 & cg1 & (Hs & ->)
                    & ((name & Hname & Han & Hnn & _) & ->)) & (Hdot & ->)).
  assert (Hf : Re.lit (file_name name "ts") cur = Some c2).
  { unfold file_name.
    eapply lit_app_intro; [exact Hs|]. eapply lit_app_intro; [exact Hname|].
    eapply lit_app_intro; [exact Hdot|]. exact Hts. }
  destruct (IterFacts.lit_text s cur _ c2 Ha Hf) as (pre & Hs' & Hp).
  pose proof (lit_rest _ _ _ Hf) as [_ Hp2].
  exists name. split; [split; [done|by apply length_nonempty]|].
  apply (group_at s _ 1 (Re.pos cur) (Re.pos c2) pre (file_name name "ts") (Re.rest c2));
    [reflexivity|done|done|done].
Qed.

Lemma files2_shape anchs f :
  f ∈ MechFixMain.files2 anchs -> exists name, name_ok name /\ f = file_name name "ts".
Proof.
  unfold MechFixMain.files2. change (map ?g ?l) with (g <$> l).
  intros (m & -> & Hin)%list_elem_of_fmap.
  apply IterFacts.finditer_sound in Hin as (cur & Ha & Hm).
  by apply (match_file_pat _ cur).
Qed.

Lemma elem_of_insert_asc x y l : x ∈ MechFixMain.insert_asc y l <-> x = y \/ x ∈ l.
Proof.
  induction l as [|z l IH]; simpl.
  - rewrite list_elem_of_singleton. split; [by left|]. by intros [?|?%elem_of_nil].
  - destruct (String.ltb y z); [by rewrite elem_of_cons|].
    destruct (String.eqb y z) eqn:E.
    + apply String.eqb_eq in E as ->. rewrite elem_of_cons. tauto.
    + rewrite !elem_of_cons, IH. tauto.
Qed.

Lemma elem_of_sorted_set x l : x ∈ MechFixMain.sorted_set l <-> x ∈ l.
Proof.
  induction l as [|y l IH]; [done|].
  unfold MechFixMain.sorted_set in *. simpl.
  by rewrite elem_of_insert_asc, elem_of_cons, IH.
Qed.

(** The last component of a path string that ends in [.ts]. *)
Lemma split_slash_ts s : forall cur,
  (exists pre, forall x, cur x = pre +:+ x) ->
  exists l a, Pathlib.split_slash cur (s +:+ ".ts") = l ++ [a +:+ ".ts"].
Proof.
  induction s as [|c s IH]; intros cur [pre Hcur].
  - exists [], pre. change (EmptyString +:+ ".ts") with ".ts".
    cbn. by rewrite Hcur.
  - rewrite PyFacts.str_app_cons. cbn [Pathlib.split_slash].
    destruct (Ascii.eqb c "/").
    + destruct (IH (fun x => x)) as (l & a & ->); [by exists EmptyString|].
      by exists (cur EmptyString :: l), a.
    + apply IH. exists (pre +:+ String c EmptyString). intros x.
      by rewrite Hcur, PyFacts.str_app_assoc.
Qed.

Lemma keep_part_ts a : Pathlib.keep_part (a +:+ ".ts") = true.
Proof.
  assert (Hl : (3 <= String.length (a +:+ ".ts"))%nat)
    by (rewrite length_app_str; simpl; lia).
  unfold Pathlib.keep_part.
  destruct (String.eqb_spec (a +:+ ".ts") EmptyString) as [E|_];
    [rewrite E in Hl; simpl in Hl; lia|].
  destruct (String.eqb_spec (a +:+ ".ts") ".") as [E|_];
    [rewrite E in Hl; simpl in Hl; lia|done].
Qed.

Lemma name_ts (R : Path) rel :
  Py.startswith rel "/" = false -> (exists b, rel = b +:+ ".ts") ->
  exists a, Pathlib.name (Pathlib.joinpath R rel) = a +:+ ".ts".
Proof.
  intros Hr [b ->]. unfold Pathlib.joinpath, Pathlib.name. rewrite Hr.
  unfold Pathlib.parts.
  destruct (split_slash_ts b (fun x => x)) as (l & a & ->); [by exists EmptyString|].
  exists a. rewrite List.filter_app. cbn [List.filter]. rewrite keep_part_ts.
  by rewrite app_assoc, List.last_last.
Qed.

Lemma rfind_dot_ts a : Pathlib.rfind_dot (a +:+ ".ts") = Some (String.length a).
Proof.
  induction a as [|c a IH]; [done|].
  rewrite PyFacts.str_app_cons. simpl. by rewrite IH.
Qed.

Lemma suffix_of_ts a :
  Pathlib.suffix_of (a +:+ ".ts") = if (0 <? String.length a)%nat then ".ts" else EmptyString.
Proof.
  unfold Pathlib.suffix_of. rewrite rfind_dot_ts, length_app_str.
  change (String.length ".ts") with 3%nat.
  replace (String.length a <? String.length a + 3 - 1)%nat with true
    by (symmetry; apply Nat.ltb_lt; lia).
  rewrite andb_true_r. destruct (0 <? String.length a)%nat; [|done].
  replace (String.length a + 3 - String.length a)%nat with (String.length ".ts")
    by (simpl; lia).
  rewrite <- (PyFacts.str_app_nil_r (a +:+ ".ts")), PyFacts.str_app_assoc.
  apply substring_mid.
Qed.

Lemma file_name_ts name : exists b, file_name name "ts" = b +:+ ".ts".
Proof.
  exists ("src/" +:+ name). unfold file_name. by rewrite !PyFacts.str_app_assoc.
Qed.

(** The suffix of a collected file is never [.tsx]. *)
Lemma collected_suffix anchs rel :
  rel ∈ MechFixMain.files_sorted anchs ->
  let suf := Pathlib.suffix_of (Pathlib.name (Pathlib.joinpath MechFixMain.root rel)) in
  Py.endswith rel ".ts" = true /\ String.eqb suf ".tsx" = false.
Proof.
  unfold MechFixMain.files_sorted. rewrite elem_of_sorted_set.
  intros (name & Hn & ->)%files2_shape. cbn zeta.
  destruct (name_ts MechFixMain.root (file_name name "ts")
              (IterFacts.file_name_relative name "ts") (file_name_ts name)) as [a ->].
  rewrite suffix_of_ts. split; [|by destruct (0 <? _)%nat].
  destruct (file_name_ts name) as [b ->]. clear.
  induction b as [|c b IH]; [done|].
  rewrite PyFacts.str_app_cons. simpl. rewrite IH. apply orb_true_r.
Qed.

End FilePatFacts.


(** X24. The TS2578 pattern of [anchor_fix.py] and [remove_ts_expect.py]
    reads exactly the lines that start with a file name [src/NAME.ts] or
    [src/NAME.tsx] (NAME not empty, without colon and opening
    parenthesis), then [(LINE,COL): error TS2578] with LINE and COL
    non-empty runs of digits; the hit is that file name with LINE as a
    number.  Every line of this shape is read, and read this way. *)
Theorem X24_parse_2578_reads_diagnostic (l f : string) (n : Z) :
  parse_2578 l = Some (f, n)
  <-> exists name ext d2 d3 rest,
        name_ok name /\ ext_ok ext /\ digits d2 /\ digits d3
        /\ l = line_2578 name ext d2 d3 rest
        /\ f = file_name name ext /\ n = Py.int d2.
Proof.
  split; [apply ParseFacts.parse_2578_sound|].
  intros (name & ext & d2 & d3 & rest & Hn & He & H2 & H3 & -> & -> & ->).
  by apply ParseFacts.parse_2578_complete.
Qed.

(** X25. The TS2307 pattern of [anchor_fix.py] reads exactly the lines
    that start with a diagnostic head for a [src/] file followed by
    [TS2307: Cannot find module 'SPEC'], SPEC not empty and without a
    single quote; the hit is the file name with SPEC.  Every line of
    this shape is read, and read this way. *)
Theorem X25_parse_2307_reads_diagnostic (l f spec : string) :
  AnchorFix.parse_2307 l = Some (f, spec)
  <-> exists name ext d2 d3 rest,
        name_ok name /\ ext_ok ext /\ digits d2 /\ digits d3 /\ spec_ok spec
        /\ l = line_2307 name ext d2 d3 spec rest
        /\ f = file_name name ext.
Proof.
  split; [apply ParseFacts.parse_2307_sound|].
  intros (name & ext & d2 & d3 & rest & Hn & He & H2 & H3 & Hs & -> & ->).
  by apply ParseFacts.parse_2307_complete.
Qed.


(** X27. The file names that [mech_fix.py] collects from the anchors
    always end in [.ts], also when the diagnosed file is a [.tsx] file:
    the pattern [\.(?:ts|tsx)] with nothing after it stops at [.ts].
    The path of a collected name therefore never has the suffix [.tsx],
    and the import fix applied to it never inserts the React import: it
    inserts the [view] import when the text calls [view(] without
    importing it, and nothing else. *)
Theorem X27_collected_names_end_in_ts (anchs : list string) (rel txt : string) :
  rel ∈ MechFixMain.files_sorted anchs ->
  let p := Pathlib.joinpath MechFixMain.root rel in
  Py.endswith rel ".ts" = true
  /\ Pathlib.suffix_of (Pathlib.name p) <> ".tsx"
  /\ MechFix.fix_imports (Pathlib.suffix_of (Pathlib.name p)) (Pathlib.str_abs p) txt
     = if Py.contains "view(" txt && negb (Re.matches MechFix.view_re txt)
       then MechFix.ensure_import txt MechFix.view_import
       else txt.
Proof.
  intros Hin p. destruct (FilePatFacts.collected_suffix anchs rel Hin) as [He Hs].
  fold p in Hs. split; [done|]. split; [by apply String.eqb_neq|].
  unfold MechFix.fix_imports. rewrite Hs. cbn [andb].
  by rewrite andb_false_r, orb_false_r.
Qed.

Lemma X27_witness :
  let anchs := ["src/b.tsx(1,1): error TS2362: The left-hand side"] in
  let p := Pathlib.joinpath MechFixMain.root "src/b.ts" in
  "src/b.ts" ∈ MechFixMain.files_sorted anchs
  /\ (Py.endswith "src/b.ts" ".ts" = true
      /\ Pathlib.suffix_of (Pathlib.name p) <> ".tsx"
      /\ MechFix.fix_imports (Pathlib.suffix_of (Pathlib.name p)) (Pathlib.str_abs p)
           "<View/>"
         = if Py.contains "view(" "<View/>" && negb (Re.matches MechFix.view_re "<View/>")
           then MechFix.ensure_import "<View/>" MechFix.view_import
           else "<View/>").
Proof.
  intros anchs p.
  assert (H : "src/b.ts" ∈ MechFixMain.files_sorted anchs) by (vm_compute; left).
  split; [exact H|].
  exact (X27_collected_names_end_in_ts anchs "src/b.ts" "<View/>" H).
Defined.

(** ** [fix_tsx.py]: what a run leaves *)

Module FixTsxPost.

Lemma fix_text_prepends t :
  exists pre,
    FixTsx.fix_text t = pre +:+ t
    /\ pre ∈ [ EmptyString; FixTsx.react_import +:+ NL; FixTsx.view_import +:+ NL;
               FixTsx.view_import +:+ NL +:+ FixTsx.react_import +:+ NL ].
Proof.
  unfold FixTsx.fix_text.
  rewrite FixTsxFacts.add_view_unfold, FixTsxFacts.add_react_unfold.
  destruct (has_react t).
  - destruct (uses_view t && negb (has_ui t)).
    + exists (FixTsx.view_import +:+ NL). split.
      * by rewrite !PyFacts.str_app_assoc.
      * do 2 right. left.
    + exists EmptyString. split; [done|left].
  - destruct (uses_view _ && negb (has_ui _)).
    + exists (FixTsx.view_import +:+ NL +:+ FixTsx.react_import +:+ NL). split.
      * by rewrite !PyFacts.str_app_assoc.
      * do 3 right. left.
    + exists (FixTsx.react_import +:+ NL). split.
      * by rewrite !PyFacts.str_app_assoc.
      * right. left.
Qed.

Lemma fix_text_has_ui t :
  uses_view (FixTsx.fix_text t) = true -> has_ui (FixTsx.fix_text t) = true.
Proof.
  unfold FixTsx.fix_text. rewrite FixTsxFacts.add_view_unfold.
  destruct (uses_view (FixTsx.add_react t)) eqn:Eu; cbn [andb].
  - destruct (has_ui (FixTsx.add_react t)) eqn:Eh; cbn [negb]; [done|].
    intros _. apply FixTsxFacts.has_ui_view_import.
  - by rewrite Eu.
Qed.

End FixTsxPost.

(** X29. Run on an existing file, [fix_tsx.py] only prepends: the file
    ends with its former text, preceded by nothing, by the React
    import, by the [view] import, or by the [view] import and then the
    React import.  Afterwards the text mentions a React import and, if
    it uses [view], an import from [@forge/ui].  No other file and no
    artifact changes. *)
Theorem X29_fix_tsx_only_prepends
    (argv : list string) (p : Path) (txt : string) (w : World) :
  (2 <= length argv)%nat ->
  fs w !! p = Some txt ->
  exists w' pre,
    FixTsx.main argv p w = Ok tt w'
    /\ fs w' !! p = Some (pre +:+ txt)
    /\ pre ∈ [ EmptyString; FixTsx.react_import +:+ NL; FixTsx.view_import +:+ NL;
               FixTsx.view_import +:+ NL +:+ FixTsx.react_import +:+ NL ]
    /\ has_react (pre +:+ txt) = true
    /\ (uses_view (pre +:+ txt) = true -> has_ui (pre +:+ txt) = true)
    /\ (forall q : Path, q <> p -> fs w' !! q = fs w !! q)
    /\ out w' = out w.
Proof.
  intros Hargv Hp. destruct (FixTsxPost.fix_text_prepends txt) as (pre & E & Hpre).
  pose proof (FixTsxFacts.has_react_fix_text txt) as Hr.
  pose proof (FixTsxPost.fix_text_has_ui txt) as Hu.
  rewrite E in Hr, Hu.
  unfold FixTsx.main.
  destruct (length argv <? 2)%nat eqn:El; [apply Nat.ltb_lt in El; lia|].
  destruct w as [src o]. cbn [fs out] in *.
  unfold mbind, M_bind, get_fs, put_fs, mret, M_ret. cbn [fs out]. rewrite Hp, E.
  destruct (String.eqb (pre +:+ txt) txt) eqn:Eq; cbn [negb].
  - apply String.eqb_eq in Eq. eexists _, pre. split; [reflexivity|]. cbn [fs out].
    rewrite Hp. rewrite Eq at 1. by split_and!.
  - eexists _, pre. split; [reflexivity|]. cbn [fs out].
    rewrite lookup_insert_eq. split_and!; try done.
    intros q Hq. by rewrite lookup_insert_ne.
Qed.

Lemma X29_witness :
  let argv := ["fix_tsx.py"; "src/a.tsx"] in
  let p := Pathlib.joinpath AnchorFix.root "src/a.tsx" in
  let txt := "export const v = <View/>;" in
  let w := mkWorld {[ p := txt ]} ∅ in
  (2 <= length argv)%nat
  /\ fs w !! p = Some txt
  /\ exists w' pre,
       FixTsx.main argv p w = Ok tt w'
       /\ fs w' !! p = Some (pre +:+ txt)
       /\ pre ∈ [ EmptyString; FixTsx.react_import +:+ NL; FixTsx.view_import +:+ NL;
                  FixTsx.view_import +:+ NL +:+ FixTsx.react_import +:+ NL ]
       /\ has_react (pre +:+ txt) = true
       /\ (uses_view (pre +:+ txt) = true -> has_ui (pre +:+ txt) = true)
       /\ (forall q : Path, q <> p -> fs w' !! q = fs w !! q)
       /\ out w' = out w.
Proof.
  intros argv p txt w.
  assert (H1 : (2 <= length argv)%nat) by (simpl; lia).
  assert (H2 : fs w !! p = Some txt) by (vm_compute; reflexivity).
  split; [exact H1|]. split; [exact H2|].
  exact (X29_fix_tsx_only_prepends argv p txt w H1 H2).
Defined.

(** ** [anchor_fix.py]: how stage 4B can fail *)

Module FailFacts.





End FailFacts.


